(* ===== verification/_CoqProject ===== *)
-Q . S2P
Prelude.v
PyStr.v
PyValue.v
Json.v
JsonWf.v
JsonRoundtrip.v
Os.v
Extractor.v
Prompt.v
Client.v
Wire.v
Csv.v
Writer.v
Orchestrator.v
Transcript.v
RunErrors.v
Frame.v
EndToEnd.v
