(* ===== verification/Prelude.v ===== *)
(** * A verification library for the receipt scanner
      (src/receiptscanner/local_receipt_parser_dual_ai.py)

    ** The program

    One Python module.  [run] (lines 88-104) walks the folder
    [./assets]; for each regular file it calls the Text Extractor
    [extract_text_from_file] (31-44: OCR of an image, or of every page of
    a PDF), skips the file when the text is empty, fills the template
    [PROMPT] (14-27) with the text (101), sends it to the Completion Client
    [ask_openrouter] (46-69: one HTTPS POST, then two JSON decodings), sets
    [result["File"]] (103) and appends a row with the Record Writer
    [save_to_csv] (71-84: header when the file is empty, then seven
    values in a fixed column order).  The components interact only by
    calls and by the shared world: the lines printed, the file system, and
    the calls made to the external services.

    ** The files

    - [Prelude] (this file): strings ([String.append] is [simpl never]
      here, its equations are lemmas), the state-and-exception monad [EST]
      whose state survives a raised exception, as Python's effects do,
      with [let*] notation in [py_scope], frames for local variables read by
      an exception handler, loops ([for_each]), the rewrite database
      [pyrun] and the hint database [pyauto].
    - [PyStr]: [str.lower] (CPython's case mapping of Latin-1),
      [str.split(sep)] with [[-1]], [str.strip], [str.isspace] (CPython's
      twelve whitespace characters of Latin-1), [str(int)]; the
      full specification of [strip] ([strip_decomp]: whitespace prefix,
      stripped middle, whitespace suffix) and the decomposition of a split
      at the last separator.
    - [PyValue]: exceptions ([exn], with [str(e)] as [exn_msg]), the
      JSON-shaped values [pyval] with a nested induction principle,
      dictionaries in insertion order with [dict.get] and [d[k] = v],
      the subscript [v[k]] on dicts, lists and strings with its
      [KeyError]/[IndexError]/[TypeError], item assignment, [repr] and
      [str]; dict equality as a setoid ([dict_equiv], [Proper] instances)
      and the invariance of lookups under permutation of distinct keys.
    - [Os]: the [world] record (stdout, file system as a [gmap] from path
      to file contents or directory, trace of external calls),
      [print], [os.makedirs(..., exist_ok=True)], [os.path.join],
      [os.path.isfile], append-mode [open]/[tell]/[write], and the class
      [Listing] for [os.listdir], whose order Python leaves unspecified
      (only a permutation of the entries is assumed).
    - [Extractor] (Module [Extractor]): the class [Ocr] for pdf2image,
      PIL and pytesseract, and [extract_text_from_file] with its local
      [text] kept in a frame, so that the handler returns what the [try]
      block had accumulated.
    - [Prompt]: [PROMPT] verbatim and CPython's [str.format] scanner for
      keyword fields ([{{], [}}], the lone-brace [ValueError]s).
    - [Client]: the classes [Http] ([httpx.post]) and [JsonDecoder]
      ([json.loads]), and [ask_openrouter] with its request, its status
      test, the path [['choices'][0]['message']['content']] and its handler.
    - [Csv]: the [csv] module's excel-dialect writer ([QUOTE_MINIMAL],
      doubled quotes, CRLF) and a strict reader written as a [step]
      function over a configuration record, with its invariant
      ([cfg_inv]) and the roundtrip lemmas ([parse_rows],
      [parse_app_rows]).  The reader is the abstract meaning of the output
      file.
    - [Writer]: [save_to_csv], the table a file denotes ([csv_table]:
      empty, or the header followed by data rows) and its refinement.
    - [Orchestrator]: [process_file] (the loop body) and [run], the
      abstract pipeline ([outcome_of]: skipped, a row, or the exception
      that stops the run; [rows_until_stop]) and the refinement theorem;
      [announcements] reads the names announced by [Processing: ] lines
      back from a transcript.
    - [Json] (Module [Json]): CPython's [json] module as the program uses
      it.  The decoder follows the C scanner of [_json]: [scan_str]
      ([scanstring]: escapes, [\uXXXX], control characters), the number
      lexer ([lex_number], [int_of_lit]), [scan_items] and [scan_members]
      for arrays and objects, the constants, [scan] ([scan_once]),
      [decode] ([JSONDecoder.decode] with its [Extra data] check) and
      [loads] with the [JSONDecodeError] message [msg: line L column C
      (char P)].  The scanner results are [res]: a value and the rest,
      an error and where it occurred, [Wide] for a code point above
      U+00FF, or [OOT] when the fuel runs out.  The encoder [encode]
      follows [c_make_encoder] with the options [dump_opts]
      ([ensure_ascii], [allow_nan], the two separators).
    - [JsonWf]: the values [loads] returns are well formed
      ([PyValue.pyval_wf]: distinct keys in every dict).
    - [JsonRoundtrip]: the well-formed values [json_wf] (distinct keys,
      float texts that lex as numbers) and the proof that [loads] reads
      back what [encode] writes, built from one lemma per scanner loop.
    - [Wire]: [json.loads] as the instance [json_decoder] of the client's
      class [JsonDecoder], the request body httpx writes for [json=data]
      ([httpx_body]), and [ask_openrouter] against an endpoint that speaks
      JSON.
    - [Transcript]: a whole run's requests and printed lines.
    - [RunErrors]: a run whose input folder is a regular file or whose
      output path is a directory.
    - [Frame]: what a run may change in the file system, as a preorder
      [frames] on worlds that every step of the loop satisfies.
    - [EndToEnd]: [run] with the model of [json.loads] against an
      endpoint that answers with JSON objects, or with JSON wrapped in a
      Markdown code fence.

    ** The theorems

    - Refinement: [run_spec] -- [run] appends to the output table, in
      listing order, exactly the rows of the names processed before the
      first exception, computed from the collaborators' results alone,
      and raises that exception; [save_to_csv_table] -- one call extends
      the table by one row, the header being written only into an empty
      file.
    - Functional behaviour on every branch: [extract_pdf_spec],
      [extract_image_spec], [ask_spec], [save_to_csv_spec],
      [build_prompt_spec], [ext_of_pdf_iff], [process_file_skip].
    - Errors: [ask_non200] (any status but 200 gives [{}] and a log line),
      [extract_pdf_error_keeps_pages] (a failing PDF page does not empty
      the result), [run_stops_at_non_object] (a completion that is JSON
      but not an object stops the whole run with [TypeError]).
    - Safety and totality: [extract_total], [ask_total] (never raise;
      exactly one request per call; the file system is untouched).
    - Roundtrip and equivalence: [appended_roundtrip] (the text written
      reads back as the rows written), [build_prompt_inj],
      [save_to_csv_key_order] (the row does not depend on the order of the
      dict's keys), [request_body_roundtrip]
      (the endpoint reads the prompt back verbatim from the body).
    - The client on the wire: [ask_conforming] (a conforming completion
      is returned as decoded), [ask_fenced] (a completion in a Markdown
      code fence prints [Expecting value: line 1 column 1 (char 0)] and
      gives [{}]).
    - The whole run: [run_stdout] (the lines a run prints, name by name,
      as [Orchestrator.lines_of] computes them from the collaborators'
      results); [run_folder_is_file] and [run_output_dir] (the two
      [OSError]s nothing catches: the run stops with the world as it
      was, or at the first name that reaches [save_to_csv]);
      [run_conforming] (against an endpoint whose completions are JSON
      objects, the run never stops and writes one row per regular file
      with text, with the object's fields); [run_fenced] (when the
      completions are fenced, the run still completes but every row
      holds only the file name); [run_frame] and [run_append_only] (in
      every case, no path but the output file changes, and the output
      file is only appended to).
    - Bounds and liveness: [run_requests_bound] (one request per regular file with
      text, up to the stopping name, hence at most one per regular file),
      [run_announces_all] (a run that no name stops returns normally and
      announces every regular file once, in listing order).
    - Lemmas of the JSON model that the theorems on the wire rest on
      (facts about the model of CPython's [json] module, not about the
      program): [JsonRoundtrip.loads_encode] ([json.loads] reads back
      what [json.dumps] wrote, for every well-formed value and all
      separators made of one comma or colon and whitespace),
      [JsonWf.loads_wf] (decoded dicts have distinct keys) and
      [Json.decode_enough_fuel] (the scanner never runs out of fuel).

    Every theorem with hypotheses has a witness that applies it on a
    concrete environment (the modules [ToyOcr], [ToyClient], [Scenario]
    and [WireWitness]); the spec's scenario for [receipt1.jpg] and a blank
    image is evaluated by [vm_compute] in [run_spec_witness_rows],
    [sc_world_transcript], [sc_world_stdout] and, with the JSON model on
    both sides of the wire, [e2e_rows].

    ** Fuel

    One function needs fuel: the JSON scanner [Json.scan], whose
    recursion into arrays and objects is not structural (the rest of the
    string is not a subterm).  [decode] gives it one unit more than the
    length of the document.  That is enough because every call consumes
    at least one character before it recurses (the [progress] lemmas:
    the rest after a call is shorter than its input), so the depth of
    nested calls is at most the length of the document; [decode_enough_fuel]
    proves that the result is never [OOT].  The loops [scan_items] and
    [scan_members] get the same bound on the number of elements.  Every
    other function is structurally recursive (the loops are over the
    listed names and the PDF's pages, the other scanners over the
    string).

    ** Not modelled

    The OCR engine, the rasterizer, the HTTP transport and the remote
    model are external: classes give their results, as values or raised
    exceptions, as functions of their inputs (a rerun with the same
    inputs gets the same answers).  The client is proved against any
    decoder of the class [JsonDecoder] and, in [Wire], against the model
    of [json.loads].  That model works on 8-bit strings: a [\u] escape
    above U+00FF gives [Wide] (reported as a [ValueError]) instead of a
    wider character, and the encoder, with [ensure_ascii=False] as httpx
    sets it, writes characters above 126 unescaped, as CPython does; the
    surrogate pairs of [\u] escapes and Python's recursion limit on deep
    nesting are not modelled.  Floats are kept as their [repr] text; the
    conversion of a float literal is a parameter [float_repr] of the
    decoder.  httpx's JSON options are those of httpx 0.28 and later
    (compact separators, [ensure_ascii=False], [allow_nan=False]).  The
    API key is a section variable: its value plays no part.  The
    module's imports (lines 1-7) are not definitions: the classes [Ocr],
    [Http], [JsonDecoder] and [Listing] stand for the libraries they
    load.  An output file whose contents are not a table of this
    program's rows is outside [run_spec]: the appended text is still
    known ([save_to_csv_spec]), but the reader of [Csv] gives it no
    meaning.  Unicode case
    mapping and whitespace beyond Latin-1 are not modelled.  Format
    specifications and conversions in [str.format] fields raise a
    [ValueError] in the model (the template has none). *)

From stdpp Require Export base list gmap strings.
From Stdlib Require Export Ascii ZArith.

Open Scope stdpp_scope.

(** ** Strings: generic lemmas on [String.append] *)

(** [String.append] is declared [simpl never]: its two equations are
    stated here and used by rewriting. *)
Lemma string_app_nil_l (s : string) : "" +:+ s = s.
Proof. done. Qed.

Lemma string_app_cons (c : ascii) (s1 s2 : string) :
  String c s1 +:+ s2 = String c (s1 +:+ s2).
Proof. done. Qed.

Lemma string_app_nil_r (s : string) : s +:+ "" = s.
Proof.
  induction s as [|c s IH]; [done|]. by rewrite string_app_cons, IH.
Qed.

Lemma string_app_assoc (s1 s2 s3 : string) :
  s1 +:+ (s2 +:+ s3) = (s1 +:+ s2) +:+ s3.
Proof.
  induction s1 as [|c s1 IH]; [done|]. by rewrite !string_app_cons, IH.
Qed.

Lemma string_length_app (s1 s2 : string) :
  String.length (s1 +:+ s2) = String.length s1 + String.length s2.
Proof.
  induction s1 as [|c s1 IH]; [done|]. rewrite string_app_cons. simpl. by rewrite IH.
Qed.

Lemma string_app_inv_r (s s1 s2 : string) : s1 +:+ s = s2 +:+ s -> s1 = s2.
Proof.
  revert s2. induction s1 as [|c s1 IH]; intros [|c' s2] H;
    rewrite ?string_app_cons, ?string_app_nil_l in H.
  - done.
  - apply (f_equal String.length) in H.
    simpl in H. rewrite string_length_app in H. lia.
  - apply (f_equal String.length) in H.
    simpl in H. rewrite string_length_app in H. lia.
  - injection H as -> H. f_equal. by apply IH.
Qed.

Lemma string_app_eq_nil (s1 s2 : string) : s1 +:+ s2 = "" -> s1 = "" /\ s2 = "".
Proof. destruct s1; simpl; [done | discriminate]. Qed.

Lemma ascii_dec_ne {A} (c d : ascii) (x y : A) :
  c <> d -> (if ascii_dec c d then x else y) = y.
Proof. by destruct (ascii_dec c d). Qed.

Lemma ascii_dec_eq {A} (c : ascii) (x y : A) : (if ascii_dec c c then x else y) = x.
Proof. by destruct (ascii_dec c c). Qed.

(** ** A state-and-exception monad

    Python keeps every effect performed before an exception is raised
    (lines already printed, rows already written), so the state is
    threaded through the error case as well: [EST S E A] is
    [S -> S * (E + A)], with [inl] the raised exception. *)

Definition EST (S E A : Type) : Type := S -> S * (E + A).

Section Monad.
  Context {S E : Type}.

Definition ret {A} (a : A) : EST S E A := fun s => (s, inr a).

Definition bind {A B} (m : EST S E A) (k : A -> EST S E B) : EST S E B :=
    fun s => match m s with
             | (s', inl e) => (s', inl e)
             | (s', inr a) => k a s'
             end.

  (** [raise e] *)
Definition throw {A} (e : E) : EST S E A := fun s => (s, inl e).

  (** [try: m  except Exception as e: h e] *)
Definition try_except {A} (m : EST S E A) (h : E -> EST S E A) : EST S E A :=
    fun s => match m s with
             | (s', inl e) => h e s'
             | r => r
             end.

Definition modify (f : S -> S) : EST S E unit := fun s => (f s, inr ()).

Definition gets {A} (f : S -> A) : EST S E A := fun s => (s, inr (f s)).

  (** Lift a value of the error type [E + A] (an external call that may
      raise) into the monad. *)
Definition lift_sum {A} (r : E + A) : EST S E A := fun s => (s, r).

  (** [for x in xs: body x] *)
Fixpoint for_each {A} (xs : list A) (body : A -> EST S E unit) : EST S E unit :=
    match xs with
    | [] => ret ()
    | x :: xs' => bind (body x) (fun _ => for_each xs' body)
    end.
  (** ** Local variables

      A function whose exception handler reads a local variable assigned
      in the [try] block (as [extract_text_from_file] reads [text]) runs
      in a frame: the state paired with the local's current value. *)
Definition in_frame {L A} (m : EST S E A) : EST (S * L) E A :=
    fun sl => let '(s', r) := m sl.1 in ((s', sl.2), r).

Definition get_local {L} : EST (S * L) E L := fun sl => (sl, inr sl.2).

Definition set_local {L} (l : L) : EST (S * L) E unit :=
    fun sl => ((sl.1, l), inr ()).

  (** Run [m] with the local initialised to [init]; return the final value
      of the local with the result. *)
Definition with_frame {L A} (init : L) (m : EST (S * L) E A) : EST S E (A * L) :=
    fun s => let '((s', l), r) := m (s, init) in
             (s', match r with inl e => inl e | inr a => inr (a, l) end).
End Monad.

Declare Scope py_scope.
Delimit Scope py_scope with py.
Notation "'let*' x := m 'in' k" := (bind m (fun x => k))
  (at level 100, x name, m at next level, k at level 200) : py_scope.
Notation "m ;; k" := (bind m (fun _ => k))
  (at level 100, k at level 200) : py_scope.

Section MonadLaws.
  Context {S E : Type}.

Lemma bind_ret_l {A B} (a : A) (k : A -> EST S E B) s :
    bind (ret a) k s = k a s.
  Proof. done. Qed.

Lemma bind_ret_r {A} (m : EST S E A) s : bind m ret s = m s.
  Proof. unfold bind, ret. by destruct (m s) as [? [?|?]]. Qed.

Lemma bind_assoc {A B C} (m : EST S E A) (k : A -> EST S E B)
        (k' : B -> EST S E C) s :
    bind (bind m k) k' s = bind m (fun a => bind (k a) k') s.
  Proof. unfold bind. by destruct (m s) as [? [?|?]]. Qed.

Lemma bind_inr {A B} (m : EST S E A) (k : A -> EST S E B) s s' a :
    m s = (s', inr a) -> bind m k s = k a s'.
  Proof. unfold bind. by intros ->. Qed.

Lemma bind_inl {A B} (m : EST S E A) (k : A -> EST S E B) s s' e :
    m s = (s', inl e) -> bind m k s = (s', inl e).
  Proof. unfold bind. by intros ->. Qed.

Lemma bind_lift_inr {A B} (a : A) (k : A -> EST S E B) s :
    bind (lift_sum (inr a)) k s = k a s.
  Proof. done. Qed.

Lemma bind_lift_inl {A B} (e : E) (k : A -> EST S E B) s :
    bind (lift_sum (inl e)) k s = (s, inl e).
  Proof. done. Qed.

  (** A loop of bodies that never raise never raises, and its final
      state is the fold of the bodies' state transformers. *)
Lemma for_each_total {A} (xs : list A) (body : A -> EST S E unit)
        (step : A -> S -> S) :
    (forall x s, body x s = (step x s, inr ())) ->
    forall s, for_each xs body s = (foldl (fun s x => step x s) s xs, inr ()).
  Proof.
    intros Hb. induction xs as [|x xs IH]; intros s; simpl; [done|].
    unfold bind. rewrite Hb. apply IH.
  Qed.
End MonadLaws.

(** ** Errors as values: mapping a fallible function over a list *)

(** Apply [f] to each element in order; the first error aborts. *)
Fixpoint map_sum {E A B} (f : A -> E + B) (xs : list A) : E + list B :=
  match xs with
  | [] => inr []
  | x :: xs' =>
      match f x with
      | inl e => inl e
      | inr y => match map_sum f xs' with inl e => inl e | inr ys => inr (y :: ys) end
      end
  end.

Lemma map_sum_inr {E A B} (f : A -> E + B) xs ys :
  map_sum f xs = inr ys -> Forall2 (fun x y => f x = inr y) xs ys.
Proof.
  revert ys. induction xs as [|x xs IH]; intros ys H; simpl in H.
  - injection H as <-. constructor.
  - destruct (f x) as [e|y] eqn:Ef; [done|].
    destruct (map_sum f xs) as [e|ys'] eqn:Er; [done|]. injection H as <-.
    constructor; [done|]. by apply IH.
Qed.

Lemma map_sum_Forall2 {E A B} (f : A -> E + B) xs ys :
  Forall2 (fun x y => f x = inr y) xs ys -> map_sum f xs = inr ys.
Proof. induction 1 as [|x y xs ys Hxy _ IH]; [done|]. simpl. by rewrite Hxy, IH. Qed.

Create Rewrite HintDb pyrun.
Create HintDb pyauto discriminated.
#[export] Hint Rewrite @bind_ret_l @bind_assoc : pyrun.
#[export] Hint Rewrite string_app_nil_l string_app_cons string_app_nil_r : pyrun.

(** Unfold one layer of the monad and the Python primitives in the goal. *)
Ltac py_unfold :=
  unfold bind, ret, throw, try_except, modify, gets, lift_sum,
    in_frame, get_local, set_local, with_frame in *.

(** Case on the result of every external call appearing in the goal. *)
Ltac py_cases :=
  repeat match goal with
  | |- context [match ?r with inl _ => _ | inr _ => _ end] =>
      let E := fresh "E" in destruct r eqn:E
  | |- context [match ?r with (_, _) => _ end] =>
      let E := fresh "E" in destruct r eqn:E
  end.
