(* ===== verification/PyStr.v ===== *)
(** * Python [str] methods used by the scanner

    The source calls [str.lower], [str.split('.')] followed by the index
    [-1], [str.strip()] and [str(int)] (through f-strings and [print]).
    Strings are Rocq [string]s of 8-bit characters; the definitions below
    follow CPython's behaviour on that alphabet (in particular
    [str.isspace] is true of the twelve characters 0x09-0x0d, 0x1c-0x20,
    0x85 and 0xa0, six more than stdpp's [Ascii.is_space]).  [strip_prefix] is
    [s.startswith(p)] returning the rest after the prefix; the JSON
    scanner and the reading of a run's transcript use it. *)

From S2P Require Import Prelude.
From stdpp Require Import pretty.

Module PyStr.

(** Rocq string literals have no escapes: the line feed ['\n'] and the
    carriage return ['\r'] are written with their codes. *)
Definition LF : ascii := "010"%char.
Definition CR : ascii := "013"%char.
Definition newline : string := String LF "".
(** The double quote character (code 34). *)
Definition DQUOTE : ascii := "034"%char.

(** [str.isspace] on one character: CPython's twelve whitespace
    characters of the 8-bit alphabet, 0x09-0x0d, 0x1c-0x20, 0x85 (NEL)
    and 0xa0 (NO-BREAK SPACE). *)
Definition isspace (c : ascii) : bool :=
  let n := nat_of_ascii c in
  ((9 <=? n) && (n <=? 13)) || ((28 <=? n) && (n <=? 32)) || (n =? 133) || (n =? 160).

(** [str.lower] on one character: the uppercase letters of Latin-1,
    A-Z (0x41-0x5a) and 0xc0-0xde but the multiplication sign 0xd7, are
    mapped to the letter 32 places on; every other character is kept. *)
Definition lower_char (c : ascii) : ascii :=
  let n := nat_of_ascii c in
  if ((65 <=? n) && (n <=? 90)) || ((192 <=? n) && (n <=? 222) && negb (n =? 215))
  then ascii_of_nat (n + 32) else c.

Fixpoint lower (s : string) : string :=
  match s with
  | "" => ""
  | String c t => String (lower_char c) (lower t)
  end.

(** [str.lstrip()] *)
Fixpoint lstrip (s : string) : string :=
  match s with
  | "" => ""
  | String c t => if isspace c then lstrip t else s
  end.

(** [str.rstrip()] *)
Fixpoint rstrip (s : string) : string :=
  match s with
  | "" => ""
  | String c t =>
      match rstrip t with
      | "" => if isspace c then "" else String c ""
      | r => String c r
      end
  end.

(** [str.strip()] *)
Definition strip (s : string) : string := rstrip (lstrip s).

(** [str.split(sep)] for a one-character separator: the pieces between
    the occurrences of [sep]; there is always at least one piece. *)
Fixpoint split (sep : ascii) (s : string) : list string :=
  match s with
  | "" => [""]
  | String c t =>
      let parts := split sep t in
      if ascii_dec c sep then "" :: parts
      else match parts with
           | [] => [String c ""]
           | p :: ps => String c p :: ps
           end
  end.

(** [c in s] *)
Fixpoint mem (c : ascii) (s : string) : bool :=
  match s with
  | "" => false
  | String d t => bool_decide (d = c) || mem c t
  end.

(** [str(n)] for a Python [int]: decimal, with a leading [-] when
    negative (stdpp's [pretty] on [Z]). *)
(** [s.startswith(p)] as an option: the rest of [s] after the prefix [p]. *)
Fixpoint strip_prefix (p s : string) : option string :=
  match p, s with
  | "", _ => Some s
  | String c p', String d s' => if ascii_dec c d then strip_prefix p' s' else None
  | _, _ => None
  end.

Definition str_int (z : Z) : string := pretty z.

(** ** Predicates used in the statements *)

(** Every character of [s] is whitespace. *)
Fixpoint all_space (s : string) : bool :=
  match s with
  | "" => true
  | String c t => isspace c && all_space t
  end.

(** [s] neither starts nor ends with whitespace. *)
Definition head_ok (s : string) : bool :=
  match s with "" => true | String c _ => negb (isspace c) end.

Fixpoint last_char (s : string) : option ascii :=
  match s with
  | "" => None
  | String c "" => Some c
  | String _ t => last_char t
  end.

Definition stripped (s : string) : bool :=
  head_ok s && match last_char s with None => true | Some c => negb (isspace c) end.

Definition tail_ok (s : string) : bool :=
  match last_char s with None => true | Some c => negb (isspace c) end.

(** ** Lemmas *)

Lemma last_char_cons c t : t <> "" -> last_char (String c t) = last_char t.
Proof. destruct t; [done|]. reflexivity. Qed.

Lemma all_space_app s1 s2 : all_space (s1 +:+ s2) = all_space s1 && all_space s2.
Proof.
  induction s1 as [|c s1 IH]; [done|].
  rewrite string_app_cons. simpl. rewrite IH. apply andb_assoc.
Qed.

Lemma lstrip_decomp s :
  exists l, s = l +:+ lstrip s /\ all_space l = true /\ head_ok (lstrip s) = true.
Proof.
  induction s as [|c t IH]; simpl.
  - by exists "".
  - destruct (isspace c) eqn:Hc.
    + destruct IH as (l & Hl & Hs & Hh). exists (String c l).
      rewrite string_app_cons, <- Hl. simpl. by rewrite Hc, Hs.
    + exists "". simpl. by rewrite Hc.
Qed.

Lemma rstrip_decomp s :
  exists r, s = rstrip s +:+ r /\ all_space r = true /\ tail_ok (rstrip s) = true.
Proof.
  induction s as [|c t IH]; simpl.
  - by exists "".
  - destruct IH as (r & Hr & Hs & Ht).
    destruct (rstrip t) as [|d u] eqn:Et.
    + rewrite string_app_nil_l in Hr. subst t.
      destruct (isspace c) eqn:Hc.
      * exists (String c r). simpl. by rewrite Hc, Hs.
      * exists r. rewrite string_app_cons. unfold tail_ok. simpl. by rewrite Hc, Hs.
    + exists r. rewrite string_app_cons, <- Hr. split; [done|]. split; [done|].
      unfold tail_ok in *. by rewrite last_char_cons.
Qed.

Lemma lstrip_id s : head_ok s = true -> lstrip s = s.
Proof. destruct s as [|c t]; simpl; [done|]. intros H. by destruct (isspace c). Qed.

Lemma rstrip_id s : tail_ok s = true -> rstrip s = s.
Proof.
  induction s as [|c t IH]; simpl; [done|]. intros H.
  destruct t as [|d u].
  - unfold tail_ok in H. simpl in *. by destruct (isspace c).
  - unfold tail_ok in *. rewrite last_char_cons in H by done.
    by rewrite IH.
Qed.

Lemma rstrip_head_ok s : head_ok s = true -> head_ok (rstrip s) = true.
Proof.
  destruct s as [|c t]; simpl; [done|]. intros H.
  destruct (rstrip t); [|done]. destruct (isspace c) eqn:Hc; simpl in *; rewrite ?Hc in *; done.
Qed.

Lemma lstrip_all_space s : all_space s = true -> lstrip s = "".
Proof.
  induction s as [|c t IH]; simpl; [done|].
  intros [-> H]%andb_prop. by apply IH.
Qed.

#[export] Hint Resolve lstrip_id rstrip_id rstrip_head_ok : pyauto.

(** [strip] returns the middle of [s] between a whitespace prefix and a
    whitespace suffix, and that middle neither starts nor ends with
    whitespace. *)
Lemma strip_decomp s :
  exists l r, s = l +:+ strip s +:+ r /\ all_space l = true /\
              all_space r = true /\ stripped (strip s) = true.
Proof.
  destruct (lstrip_decomp s) as (l & Hl & Hsl & Hh).
  destruct (rstrip_decomp (lstrip s)) as (r & Hr & Hsr & Ht).
  exists l, r. unfold strip, stripped. rewrite <- Hr.
  repeat split; [done|done|done|].
  apply andb_true_intro; split; [by apply rstrip_head_ok | exact Ht].
Qed.

Lemma strip_idem s : strip (strip s) = strip s.
Proof.
  destruct (strip_decomp s) as (l & r & _ & _ & _ & H).
  unfold stripped in H. apply andb_prop in H as [Hh Ht].
  unfold strip at 1. rewrite lstrip_id by done. by apply rstrip_id.
Qed.

Lemma strip_nil_iff s : strip s = "" <-> all_space s = true.
Proof.
  split.
  - intros H. destruct (strip_decomp s) as (l & r & Hs & Hl & Hr & _).
    rewrite H, string_app_nil_l in Hs. rewrite Hs, all_space_app.
    by rewrite Hl, Hr.
  - intros H. unfold strip. by rewrite lstrip_all_space.
Qed.

Lemma lower_app s1 s2 : lower (s1 +:+ s2) = lower s1 +:+ lower s2.
Proof.
  induction s1 as [|c s1 IH]; [done|]. rewrite string_app_cons. simpl.
  by rewrite IH.
Qed.

Lemma split_nonempty c s : split c s <> [].
Proof.
  destruct s as [|d t]; simpl; [done|].
  destruct (ascii_dec d c); [done|]. by destruct (split c t).
Qed.

(** Splitting at one occurrence of the separator concatenates the
    pieces of both sides. *)
Lemma split_app_sep c pre post :
  split c (pre +:+ String c post) = split c pre ++ split c post.
Proof.
  induction pre as [|d t IH].
  - simpl. destruct (ascii_dec c c); [done | congruence].
  - rewrite string_app_cons. simpl. rewrite IH.
    destruct (ascii_dec d c); [done|].
    destruct (split c t) eqn:E; [by destruct (split_nonempty c t) | done].
Qed.

Lemma split_nomem c s : mem c s = false -> split c s = [s].
Proof.
  induction s as [|d t IH]; simpl; [done|].
  intros [Hd Ht]%orb_false_elim. rewrite IH by done.
  destruct (ascii_dec d c) as [->|]; [|done].
  by rewrite bool_decide_eq_true_2 in Hd.
Qed.

(** A string containing the separator splits at its last occurrence. *)
Lemma mem_last_decomp c s :
  mem c s = true -> exists pre post, s = pre +:+ String c post /\ mem c post = false.
Proof.
  induction s as [|d t IH]; simpl; [discriminate|].
  destruct (mem c t) eqn:Et.
  - intros _. destruct IH as (pre & post & -> & Hp); [done|].
    exists (String d pre), post. by rewrite string_app_cons.
  - rewrite orb_false_r. intros Hd%bool_decide_eq_true_1. subst d.
    by exists "", t.
Qed.

(** The last piece of [split c s] is what follows the last [c]. *)
Lemma split_last c s :
  last (split c s) = Some s /\ mem c s = false \/
  exists pre post, s = pre +:+ String c post /\ mem c post = false /\
                   last (split c s) = Some post.
Proof.
  destruct (mem c s) eqn:Hm.
  - right. destruct (mem_last_decomp c s Hm) as (pre & post & -> & Hp).
    exists pre, post. split; [done|]. split; [done|].
    by rewrite split_app_sep, last_app, split_nomem.
  - left. by rewrite split_nomem.
Qed.

End PyStr.
