(* ===== verification/PyValue.v ===== *)
(** * Python values, exceptions and the dictionary operations the scanner uses

    [ask_openrouter] returns whatever [json.loads] produced, [run] then
    executes [result["File"] = filename], and [save_to_csv] reads seven
    keys with [data.get(key, "")] before the [csv] module turns every value
    into text.  This file models those values ([pyval]: the JSON-shaped
    subset of Python objects, dictionaries with string keys kept in
    insertion order), the exceptions the operations raise ([exn]), the
    subscript [v[k]], item assignment [v[k] = x], [dict.get], and
    [str]/[repr] of a value, with the invariant of the representation
    ([pyval_wf]: the keys of every dict are distinct). *)

From S2P Require Import Prelude PyStr.

Module PyValue.
Import PyStr.

(** ** Exceptions *)

Inductive exn_kind :=
  | TypeError | KeyError | IndexError | ValueError
  | OSError | FileExistsError | HTTPError | JSONDecodeError.

(** An exception object; [exn_msg] is [str(e)], what the handlers print. *)
Record exn := Exn { exn_kind_of : exn_kind; exn_msg : string }.

(** ** Values *)

#[local] Set Warnings "-register-all".

(** A float is kept as its [repr] text: the scanner never computes with
    floats, it only prints them. *)
Inductive pyval :=
  | PNone
  | PBool (b : bool)
  | PInt (z : Z)
  | PFloat (repr : string)
  | PStr (s : string)
  | PList (xs : list pyval)
  | PDict (kvs : list (string * pyval)).

(** The induction principle with hypotheses for the elements of lists
    and dictionaries. *)
Definition pyval_ind' (P : pyval -> Prop)
  (fnone : P PNone) (fbool : forall b, P (PBool b)) (fint : forall z, P (PInt z))
  (ffloat : forall r, P (PFloat r)) (fstr : forall s, P (PStr s))
  (flist : forall xs, Forall P xs -> P (PList xs))
  (fdict : forall kvs, Forall (fun kv => P kv.2) kvs -> P (PDict kvs)) :
  forall v, P v :=
  fix F v := match v with
    | PNone => fnone | PBool b => fbool b | PInt z => fint z
    | PFloat r => ffloat r | PStr s => fstr s
    | PList xs => flist xs ((fix G xs : Forall P xs :=
        match xs with
        | [] => List.Forall_nil P
        | x :: xs' => @List.Forall_cons _ P x xs' (F x) (G xs')
        end) xs)
    | PDict kvs => fdict kvs ((fix G kvs : Forall (fun kv => P kv.2) kvs :=
        match kvs with
        | [] => List.Forall_nil _
        | kv :: kvs' => @List.Forall_cons _ (fun kv => P kv.2) kv kvs' (F kv.2) (G kvs')
        end) kvs)
    end.

Abbreviation dict := (list (string * pyval)).

(** [type(v).__name__] *)
Definition type_name (v : pyval) : string :=
  match v with
  | PNone => "NoneType" | PBool _ => "bool" | PInt _ => "int"
  | PFloat _ => "float" | PStr _ => "str" | PList _ => "list" | PDict _ => "dict"
  end.

(** ** Dictionaries *)

(** Lookup of a key: the first (in a well-formed dict, the only) entry. *)
Fixpoint dict_lookup (d : dict) (k : string) : option pyval :=
  match d with
  | [] => None
  | (k', v) :: d' => if String.eqb k' k then Some v else dict_lookup d' k
  end.

(** [d.get(k, default)] *)
Definition dict_get (d : dict) (k : string) (default : pyval) : pyval :=
  match dict_lookup d k with Some v => v | None => default end.

(** [d[k] = v]: an existing key keeps its position and takes the new
    value; a new key is appended (dicts keep insertion order). *)
Fixpoint dict_set (d : dict) (k : string) (v : pyval) : dict :=
  match d with
  | [] => [(k, v)]
  | (k', v') :: d' =>
      if String.eqb k' k then (k', v) :: d' else (k', v') :: dict_set d' k v
  end.

(** The invariant of the representation: a dict is a list of entries
    with distinct keys, at every depth of a value. *)
Fixpoint pyval_wf (v : pyval) : bool :=
  match v with
  | PList xs => forallb pyval_wf xs
  | PDict kvs => bool_decide (NoDup (map fst kvs)) && forallb (fun kv => pyval_wf kv.2) kvs
  | _ => true
  end.

(** ** [repr] and [str] *)

Definition hex_digit (n : nat) : ascii :=
  if n <? 10 then ascii_of_nat (48 + n) else ascii_of_nat (87 + n).

(** Characters [repr] escapes as [\xhh]: the C0 controls, DEL, the C1
    controls with U+00A0, and the soft hyphen U+00AD (the 8-bit code
    points that [str.isprintable] rejects). *)
Definition unprintable (n : nat) : bool :=
  (n <? 32) || (n =? 127) || ((128 <=? n) && (n <=? 160)) || (n =? 173).

(** One character inside a [repr] quoted with [q]. *)
Definition repr_char (q c : ascii) : string :=
  let n := nat_of_ascii c in
  if bool_decide (c = q) || (n =? 92) then String "\"%char (String c "")
  else if n =? 9 then "\t"
  else if n =? 10 then "\n"
  else if n =? 13 then "\r"
  else if unprintable n then
    String "\"%char (String "x"%char
      (String (hex_digit (n / 16)) (String (hex_digit (n mod 16)) "")))
  else String c "".

Fixpoint repr_body (q : ascii) (s : string) : string :=
  match s with
  | "" => ""
  | String c t => repr_char q c +:+ repr_body q t
  end.

(** [repr(s)]: single quotes, unless [s] contains a single quote and no
    double quote. *)
Definition repr_str (s : string) : string :=
  let q := if mem "'"%char s && negb (mem DQUOTE s) then DQUOTE else "'"%char in
  String q (repr_body q s +:+ String q "").

Fixpoint repr (v : pyval) : string :=
  match v with
  | PNone => "None"
  | PBool b => if b then "True" else "False"
  | PInt z => str_int z
  | PFloat r => r
  | PStr s => repr_str s
  | PList xs => "[" +:+ String.concat ", " (map repr xs) +:+ "]"
  | PDict kvs =>
      "{" +:+ String.concat ", " (map (fun kv => repr_str kv.1 +:+ ": " +:+ repr kv.2) kvs)
      +:+ "}"
  end.

(** [str(v)]: the string itself for a [str], [repr] otherwise. *)
Definition str (v : pyval) : string :=
  match v with PStr s => s | _ => repr v end.

(** ** Subscript and item assignment *)

Definition type_error {A} (msg : string) : exn + A := inl (Exn TypeError msg).

(** The position [i] (negative from the end) in a sequence of length [n]. *)
Definition seq_index (n : nat) (i : Z) : option nat :=
  if (0 <=? i)%Z then (if (i <? Z.of_nat n)%Z then Some (Z.to_nat i) else None)
  else if (- Z.of_nat n <=? i)%Z then Some (Z.to_nat (Z.of_nat n + i)) else None.

(** The integer value of an index: [bool] is a subclass of [int]. *)
Definition as_index (k : pyval) : option Z :=
  match k with PInt i => Some i | PBool b => Some (if b then 1 else 0)%Z | _ => None end.

(** [v[k]] *)
Definition getitem (v k : pyval) : exn + pyval :=
  match v with
  | PDict d =>
      match k with
      | PStr s => match dict_lookup d s with
                  | Some x => inr x
                  | None => inl (Exn KeyError (repr k))
                  end
      | _ => inl (Exn KeyError (repr k))
      end
  | PList xs =>
      match as_index k with
      | Some i => match seq_index (length xs) i ≫= (xs !!.) with
                  | Some x => inr x
                  | None => inl (Exn IndexError "list index out of range")
                  end
      | None => type_error ("list indices must be integers or slices, not " +:+ type_name k)
      end
  | PStr s =>
      match as_index k with
      | Some i => match seq_index (String.length s) i ≫= (fun j => String.get j s) with
                  | Some c => inr (PStr (String c ""))
                  | None => inl (Exn IndexError "string index out of range")
                  end
      | None => type_error ("string indices must be integers, not '" +:+ type_name k +:+ "'")
      end
  | _ => type_error ("'" +:+ type_name v +:+ "' object is not subscriptable")
  end.

(** [v[k] = x] with a string key [k]: only a dict accepts it, and the
    result is the dict after the assignment. *)
Definition setitem (v : pyval) (k : string) (x : pyval) : exn + dict :=
  match v with
  | PDict d => inr (dict_set d k x)
  | PList _ => type_error "list indices must be integers or slices, not str"
  | _ => type_error ("'" +:+ type_name v +:+ "' object does not support item assignment")
  end.

(** ** Dictionary lemmas *)

(** Item assignment with a string key on anything but a dict raises
    [TypeError]. *)
Lemma setitem_non_dict v k x :
  (forall d, v <> PDict d) -> exists e, setitem v k x = inl e /\ exn_kind_of e = TypeError.
Proof. intros H. destruct v; try (by eexists); by destruct (H kvs). Qed.

(** Two dicts with the same lookups: the equality of Python dicts. *)
Definition dict_equiv (d1 d2 : dict) : Prop := forall k, dict_lookup d1 k = dict_lookup d2 k.

#[export] Instance dict_equiv_equivalence : Equivalence dict_equiv.
Proof.
  split; [by intros d k | intros d1 d2 H k; by rewrite H |
          intros d1 d2 d3 H1 H2 k; by rewrite H1, H2].
Qed.

#[export] Instance dict_lookup_proper : Proper (dict_equiv ==> eq ==> eq) dict_lookup.
Proof. intros d1 d2 H k ? <-. apply H. Qed.

#[export] Instance dict_get_proper : Proper (dict_equiv ==> eq ==> eq ==> eq) dict_get.
Proof. intros d1 d2 H k ? <- v ? <-. unfold dict_get. by rewrite H. Qed.

Lemma dict_lookup_set_eq d k v : dict_lookup (dict_set d k v) k = Some v.
Proof.
  induction d as [|[k' v'] d IH]; simpl.
  - by rewrite String.eqb_refl.
  - destruct (String.eqb_spec k' k) as [->|Hne]; simpl.
    + by rewrite String.eqb_refl.
    + rewrite (proj2 (String.eqb_neq k' k) Hne). apply IH.
Qed.

Lemma dict_lookup_set_ne d k k' v :
  k <> k' -> dict_lookup (dict_set d k v) k' = dict_lookup d k'.
Proof.
  intros Hne. induction d as [|[k0 v0] d IH]; simpl.
  - by rewrite (proj2 (String.eqb_neq k k') Hne).
  - destruct (String.eqb_spec k0 k) as [->|H0]; simpl.
    + by rewrite (proj2 (String.eqb_neq k k') Hne).
    + by rewrite IH.
Qed.

#[export] Hint Rewrite dict_lookup_set_eq : pyrun.

(** Item assignment keeps the keys distinct. *)
Lemma dict_set_keys d k v :
  map fst (dict_set d k v) = if bool_decide (k ∈ map fst d) then map fst d else map fst d ++ [k].
Proof.
  induction d as [|[k' v'] d IH]; simpl; [done|].
  destruct (String.eqb_spec k' k) as [->|Hne]; simpl.
  - rewrite bool_decide_eq_true_2; [done | by left].
  - rewrite IH. case_bool_decide as Hin; case_bool_decide as Hin'; try done.
    + exfalso. apply Hin'. by right.
    + exfalso. apply elem_of_cons in Hin' as [->|]; [done | by apply Hin].
Qed.

Lemma dict_set_nodup d k v : NoDup (map fst d) -> NoDup (map fst (dict_set d k v)).
Proof.
  intros Hd. rewrite dict_set_keys. case_bool_decide as Hin; [done|].
  apply NoDup_app. split; [done|]. split; [|apply NoDup_singleton].
  intros x Hx ->%list_elem_of_singleton. by apply Hin.
Qed.

Lemma dict_set_values (P : pyval -> Prop) d k v :
  Forall (fun kv => P kv.2) d -> P v -> Forall (fun kv => P kv.2) (dict_set d k v).
Proof.
  intros Hd Hv. induction Hd as [|[k' v'] d H1 H2 IH]; simpl; [by repeat constructor|].
  destruct (String.eqb k' k); by constructor.
Qed.

Lemma pyval_wf_dict kvs :
  pyval_wf (PDict kvs) = true <-> NoDup (map fst kvs) /\ Forall (fun kv => pyval_wf kv.2 = true) kvs.
Proof. simpl. by rewrite andb_true_iff, bool_decide_eq_true, forallb_forall, List.Forall_forall. Qed.

Lemma pyval_wf_list xs : pyval_wf (PList xs) = true <-> Forall (fun x => pyval_wf x = true) xs.
Proof. simpl. by rewrite forallb_forall, List.Forall_forall. Qed.

(** With distinct keys, the order of a dict's entries does not matter. *)
Lemma dict_perm_equiv d1 d2 : NoDup (map fst d1) -> d1 ≡ₚ d2 -> dict_equiv d1 d2.
Proof.
  intros Hnd Hp. induction Hp as [|[k v] d d' Hp IH|[k1 v1] [k2 v2] d|d d' d'' H1 IH1 H2 IH2];
    intros k0; simpl in *.
  - done.
  - apply NoDup_cons in Hnd as [_ Hnd]. destruct (String.eqb k k0); [done|]. by rewrite IH.
  - apply NoDup_cons in Hnd as [Hn1 Hnd]. apply NoDup_cons in Hnd as [Hn2 _].
    destruct (String.eqb_spec k2 k0) as [->|], (String.eqb_spec k1 k0) as [->|]; try done.
    exfalso. apply Hn1. by left.
  - rewrite IH1 by done. apply IH2.
    by rewrite <- (Permutation_map fst H1).
Qed.

End PyValue.
