(* ===== verification/Json.v ===== *)
(** * The [json] module: [json.loads] and [json.dumps]

    [ask_openrouter] decodes the response body ([response.json()], line 64)
    and then the message content ([json.loads(content)], line 66); [httpx]
    encodes the request body from [json=data] (line 59).  This file models
    CPython 3.12's decoder -- the C scanner [_json.scan_once] with
    [scanstring], [_parse_object], [_parse_array] and [_match_number],
    driven by [JSONDecoder.decode] -- and the encoder [c_make_encoder]
    with its options.

    The decoder works on the remaining suffix of the document: an error
    carries the suffix at which it is raised, and its position is the
    length of the document minus the length of that suffix, from which
    [JSONDecodeError] computes its line and column.  Nested arrays and
    objects make the scanner non-structural: it takes fuel, and
    [scan_enough_fuel] shows that the fuel [loads] gives (one more than
    the length of the document) is never exhausted.

    Not modelled: the strings of this development are 8-bit, so a [\uXXXX]
    escape above [U+00FF] (and with it surrogate pairs) has no value here
    and is reported as [Wide]; the conversion of a float literal to the
    [repr] of the nearest double is the parameter [float_repr]; the
    recursion limit on deeply nested documents is not modelled. *)

From stdpp Require Import pretty.
From S2P Require Import Prelude PyStr PyValue.

Module Json.
Import PyStr PyValue.

(** ** Characters *)

Definition is_ws (c : ascii) : bool :=
  let n := nat_of_ascii c in (n =? 32) || (n =? 9) || (n =? 10) || (n =? 13).

Definition is_digit (c : ascii) : bool :=
  let n := nat_of_ascii c in (48 <=? n) && (n <=? 57).

Definition is_digit19 (c : ascii) : bool :=
  let n := nat_of_ascii c in (49 <=? n) && (n <=? 57).

Definition digit_val (c : ascii) : nat := nat_of_ascii c - 48.

(** The value of a hexadecimal digit of a [\uXXXX] escape. *)
Definition hex_val (c : ascii) : option nat :=
  let n := nat_of_ascii c in
  if (48 <=? n) && (n <=? 57) then Some (n - 48)
  else if (97 <=? n) && (n <=? 102) then Some (n - 87)
  else if (65 <=? n) && (n <=? 70) then Some (n - 55)
  else None.

(** [IS_WHITESPACE]: skip spaces, tabs, line feeds and carriage returns. *)
Fixpoint skip_ws (s : string) : string :=
  match s with
  | String c t => if is_ws c then skip_ws t else s
  | "" => ""
  end.

(** [s[idx] == c]: the rest after [c] when [s] starts with it. *)
Definition starts (c : ascii) (s : string) : option string :=
  match s with
  | String d t => if ascii_dec d c then Some t else None
  | "" => None
  end.

(** ** Results of the scanner *)

(** A value and the rest of the document; an error message and the
    suffix at which it is raised ([StopIteration] of the scanner is the
    [Expecting value] error it becomes); a code point outside the 8-bit
    strings of the model; fuel exhausted. *)
Inductive res (A : Type) :=
  | Ok (a : A) (rest : string)
  | Fail (msg : string) (at_ : string)
  | Wide
  | OOT.
Arguments Ok {A}. Arguments Fail {A}. Arguments Wide {A}. Arguments OOT {A}.

(** Propagate an error unchanged to a result of another type. *)
Definition res_bind {A B} (r : res A) (k : A -> string -> res B) : res B :=
  match r with
  | Ok a rest => k a rest
  | Fail m at_ => Fail m at_
  | Wide => Wide
  | OOT => OOT
  end.

Definition res_map {A B} (f : A -> B) (r : res A) : res B :=
  res_bind r (fun a rest => Ok (f a) rest).

(** ** [scanstring] *)

Definition simple_escape (e : ascii) : option ascii :=
  match nat_of_ascii e with
  | 34 => Some DQUOTE | 92 => Some "\"%char | 47 => Some "/"%char
  | 98 => Some "008"%char | 102 => Some "012"%char | 110 => Some "010"%char
  | 114 => Some "013"%char | 116 => Some "009"%char
  | _ => None
  end.

Definition hex4 (h1 h2 h3 h4 : ascii) : option nat :=
  match hex_val h1, hex_val h2, hex_val h3, hex_val h4 with
  | Some a, Some b, Some c, Some d => Some (((a * 16 + b) * 16 + c) * 16 + d)
  | _, _, _, _ => None
  end.

Definition str_cons (c : ascii) (r : res string) : res string :=
  res_map (String c) r.

(** The body of a string after its opening quote [begin]: characters up
    to the closing quote, with the escapes of a quote, a backslash, a
    slash, [b f n r t], and [uXXXX].  A [\u] escape needs four hex digits
    and one more character after them; a control character raises. *)
Fixpoint scan_str (begin s : string) : res string :=
  match s with
  | "" => Fail "Unterminated string starting at" begin
  | String c t =>
      if ascii_dec c DQUOTE then Ok "" t
      else if ascii_dec c "\"%char then
        match t with
        | "" => Fail "Unterminated string starting at" begin
        | String e t' =>
            if ascii_dec e "u"%char then
              match t' with
              | String h1 (String h2 (String h3 (String h4 (String _ _ as t'')))) =>
                  match hex4 h1 h2 h3 h4 with
                  | Some n =>
                      if n <? 256 then str_cons (ascii_of_nat n) (scan_str begin t'')
                      else Wide
                  | None => Fail "Invalid \uXXXX escape" t
                  end
              | _ => Fail "Invalid \uXXXX escape" t
              end
            else
              match simple_escape e with
              | Some c' => str_cons c' (scan_str begin t')
              | None => Fail "Invalid \escape" s
              end
        end
      else if nat_of_ascii c <=? 31 then Fail "Invalid control character at" s
      else str_cons c (scan_str begin t)
  end.

(** ** [_match_number] *)

Fixpoint take_digits (s : string) : string * string :=
  match s with
  | String c t =>
      if is_digit c then let '(ds, r) := take_digits t in (String c ds, r) else ("", s)
  | "" => ("", "")
  end.

(** The integer part: a single [0], or a digit [1-9] and more digits. *)
Definition lex_int (s : string) : option (string * string) :=
  match s with
  | String c t =>
      if ascii_dec c "0"%char then Some ("0", t)
      else if is_digit19 c then let '(ds, r) := take_digits t in Some (String c ds, r)
      else None
  | "" => None
  end.

(** A fraction: a dot followed by at least one digit. *)
Definition lex_frac (s : string) : option (string * string) :=
  match starts "." s with
  | Some (String d t) =>
      if is_digit d then let '(ds, r) := take_digits t in Some (String "." (String d ds), r)
      else None
  | _ => None
  end.

(** An exponent: [e] or [E], an optional sign, at least one digit;
    without a digit the scanner backtracks to the [e]. *)
Definition lex_exp (s : string) : option (string * string) :=
  match s with
  | String e t =>
      if bool_decide (e = "e"%char) || bool_decide (e = "E"%char) then
        let '(sg, t1) := match t with
                         | String c t' =>
                             if bool_decide (c = "-"%char) || bool_decide (c = "+"%char)
                             then (String c "", t') else ("", t)
                         | "" => ("", "")
                         end in
        match take_digits t1 with
        | ("", _) => None
        | (ds, r) => Some (String e (sg +:+ ds), r)
        end
      else None
  | "" => None
  end.

(** After the integer part: the optional fraction and exponent, whether
    one of them is there (the literal is then a float), their text, and
    the rest. *)
Definition lex_tail (r : string) : bool * string * string :=
  let '(fp, r1) := match lex_frac r with Some p => p | None => ("", r) end in
  let '(ep, r2) := match lex_exp r1 with Some p => p | None => ("", r1) end in
  (negb (String.eqb fp "" && String.eqb ep ""), fp +:+ ep, r2).

(** The literal at the start of [s]: whether it is a float, its text,
    and the rest. *)
Definition lex_number (s : string) : option (bool * string * string) :=
  let '(sign, s1) := match starts "-" s with Some t => ("-", t) | None => ("", s) end in
  match lex_int s1 with
  | None => None
  | Some (ip, r) => let '(b, tl, r2) := lex_tail r in Some (b, sign +:+ ip +:+ tl, r2)
  end.

(** [int(numstr)] of a literal [-?digits]. *)
Fixpoint digits_val (acc : Z) (s : string) : Z :=
  match s with
  | String c t => digits_val (acc * 10 + Z.of_nat (digit_val c))%Z t
  | "" => acc
  end.

Definition int_of_lit (s : string) : Z :=
  match starts "-" s with
  | Some t => (- digits_val 0 t)%Z
  | None => digits_val 0 s
  end.


Section Decoder.
(** [repr(float(literal))]: the text of the double nearest to a float
    literal, which Python prints with the shortest round-tripping digits. *)
Variable float_repr : string -> string.

Definition scan_number (s : string) : res pyval :=
  match lex_number s with
  | None => Fail "Expecting value" s
  | Some (false, lit, r) => Ok (PInt (int_of_lit lit)) r
  | Some (true, lit, r) => Ok (PFloat (float_repr lit)) r
  end.

(** The elements of an array after [[] and whitespace, [m] bounding their
    number; [sc] scans one value. *)
Fixpoint scan_items (sc : string -> res pyval) (m : nat) (s : string) : res (list pyval) :=
  match m with
  | 0 => OOT
  | S m' =>
      res_bind (sc s) (fun v r =>
        let r1 := skip_ws r in
        match starts "]" r1 with
        | Some r2 => Ok [v] r2
        | None =>
            match starts "," r1 with
            | Some r2 => res_map (cons v) (scan_items sc m' (skip_ws r2))
            | None => Fail "Expecting ',' delimiter" r1
            end
        end)
  end.

(** The members of an object after [{] and whitespace. *)
Fixpoint scan_members (sc : string -> res pyval) (m : nat) (s : string)
    : res (list (string * pyval)) :=
  match m with
  | 0 => OOT
  | S m' =>
      match starts DQUOTE s with
      | Some t =>
          res_bind (scan_str s t) (fun k r =>
            let r1 := skip_ws r in
            match starts ":" r1 with
            | Some r2 =>
                res_bind (sc (skip_ws r2)) (fun v r3 =>
                  let r4 := skip_ws r3 in
                  match starts "}" r4 with
                  | Some r5 => Ok [(k, v)] r5
                  | None =>
                      match starts "," r4 with
                      | Some r5 => res_map (cons (k, v)) (scan_members sc m' (skip_ws r5))
                      | None => Fail "Expecting ',' delimiter" r4
                      end
                  end)
            | None => Fail "Expecting ':' delimiter" r1
            end)
      | None => Fail "Expecting property name enclosed in double quotes" s
      end
  end.

(** [dict(pairs)]: a repeated key keeps its first position and takes its
    last value. *)
Definition dict_of_pairs (kvs : list (string * pyval)) : dict :=
  foldl (fun d kv => dict_set d kv.1 kv.2) [] kvs.

(** A named constant: [NaN], [Infinity], [-Infinity] go through
    [float()]. *)
Definition scan_const (s : string) : option (pyval * string) :=
  match strip_prefix "null" s with Some r => Some (PNone, r) | None =>
  match strip_prefix "true" s with Some r => Some (PBool true, r) | None =>
  match strip_prefix "false" s with Some r => Some (PBool false, r) | None =>
  match strip_prefix "NaN" s with Some r => Some (PFloat "nan", r) | None =>
  match strip_prefix "Infinity" s with Some r => Some (PFloat "inf", r) | None =>
  match strip_prefix "-Infinity" s with Some r => Some (PFloat "-inf", r) | None =>
  None end end end end end end.

(** [scan_once]: one value at the start of [s]. *)
Fixpoint scan (fuel : nat) (s : string) : res pyval :=
  match fuel with
  | 0 => OOT
  | S n =>
      match s with
      | "" => Fail "Expecting value" s
      | String c t =>
          if ascii_dec c DQUOTE then res_map PStr (scan_str s t)
          else if ascii_dec c "{"%char then
            let t1 := skip_ws t in
            match starts "}" t1 with
            | Some r => Ok (PDict []) r
            | None => res_map (fun kvs => PDict (dict_of_pairs kvs)) (scan_members (scan n) n t1)
            end
          else if ascii_dec c "["%char then
            let t1 := skip_ws t in
            match starts "]" t1 with
            | Some r => Ok (PList []) r
            | None => res_map PList (scan_items (scan n) n t1)
            end
          else
            match scan_const s with
            | Some (v, r) => Ok v r
            | None => scan_number s
            end
      end
  end.

(** [JSONDecoder.decode]: leading whitespace, one value, trailing
    whitespace, and nothing else. *)
Definition decode (doc : string) : res pyval :=
  res_bind (scan (S (String.length doc)) (skip_ws doc)) (fun v r =>
    let r' := skip_ws r in
    match r' with "" => Ok v "" | _ => Fail "Extra data" r' end).

End Decoder.

(** ** [JSONDecodeError] *)

Fixpoint count_lf (s : string) : nat :=
  match s with
  | String c t => (if ascii_dec c LF then 1 else 0) + count_lf t
  | "" => 0
  end.

(** The column (from 1) of the position after [s]: characters after the
    last line feed, plus one. *)
Fixpoint col_after (k : nat) (s : string) : nat :=
  match s with
  | String c t => col_after (if ascii_dec c LF then 1 else S k) t
  | "" => k
  end.

(** [JSONDecodeError(msg, doc, pos)]: [str(e)] is
    ["msg: line L column C (char pos)"]. *)
Definition decode_error (doc msg at_ : string) : exn :=
  let pos := String.length doc - String.length at_ in
  let pre := String.substring 0 pos doc in
  Exn JSONDecodeError (msg +:+ ": line " +:+ pretty (S (count_lf pre)) +:+
                       " column " +:+ pretty (col_after 1 pre) +:+
                       " (char " +:+ pretty pos +:+ ")").

(** [json.loads(doc)] on a [str].  A [\uXXXX] escape above [U+00FF] has
    no 8-bit counterpart: it is reported as a [ValueError] naming it,
    which Python does not raise (see the header). *)
Definition loads (float_repr : string -> string) (doc : string) : exn + pyval :=
  match decode float_repr doc with
  | Ok v _ => inr v
  | Fail msg at_ => inl (decode_error doc msg at_)
  | Wide => inl (Exn ValueError "code point above U+00FF")
  | OOT => inl (Exn ValueError "out of fuel")
  end.

(** ** The encoder *)

(** The options of [json.dumps] the callers use: [ensure_ascii],
    [allow_nan] and [separators]. *)
Record dump_opts := DumpOpts {
  ensure_ascii : bool;
  allow_nan : bool;
  item_separator : string;
  key_separator : string
}.

(** [json.dumps(obj)] with its defaults. *)
Definition dumps_defaults : dump_opts := DumpOpts true true ", " ": ".

(** The body httpx sends for [json=data]:
    [json.dumps(data, ensure_ascii=False, separators=(",", ":"), allow_nan=False)]. *)
Definition httpx_opts : dump_opts := DumpOpts false false "," ":".

Definition BSLASH : ascii := "\"%char.

(** One character of a string literal ([c_encode_basestring_ascii] when
    [ensure_ascii], [c_encode_basestring] otherwise): the quote and the
    backslash escaped, the short escapes of [\b \f \n \r \t], other
    controls (and, for ASCII output, everything above [~]) as [\u00XX]. *)
Definition encode_char (ascii_only : bool) (c : ascii) : string :=
  let n := nat_of_ascii c in
  if ascii_dec c DQUOTE then String BSLASH (String DQUOTE "")
  else if n =? 92 then String BSLASH (String BSLASH "")
  else if n =? 8 then String BSLASH "b"
  else if n =? 12 then String BSLASH "f"
  else if n =? 10 then String BSLASH "n"
  else if n =? 13 then String BSLASH "r"
  else if n =? 9 then String BSLASH "t"
  else if (n <? 32) || (ascii_only && (126 <? n)) then
    String BSLASH (String "u" (String "0" (String "0"
      (String (hex_digit (n / 16)) (String (hex_digit (n mod 16)) "")))))
  else String c "".

Fixpoint encode_body (ascii_only : bool) (s : string) : string :=
  match s with
  | String c t => encode_char ascii_only c +:+ encode_body ascii_only t
  | "" => ""
  end.

Definition encode_str (ascii_only : bool) (s : string) : string :=
  String DQUOTE (encode_body ascii_only s +:+ String DQUOTE "").

Definition nan_error : exn :=
  Exn ValueError "Out of range float values are not JSON compliant".

(** [encoder_encode_float]: the [repr] of a finite float, the named
    constants for the others (a [ValueError] without [allow_nan]). *)
Definition encode_float (o : dump_opts) (r : string) : exn + string :=
  let special := fun name => if allow_nan o then inr name else inl nan_error in
  if String.eqb r "nan" then special "NaN"
  else if String.eqb r "inf" then special "Infinity"
  else if String.eqb r "-inf" then special "-Infinity"
  else inr r.

(** [encoder_listencode_obj]: the first error aborts the encoding. *)
Fixpoint encode (o : dump_opts) (v : pyval) : exn + string :=
  match v with
  | PNone => inr "null"
  | PBool b => inr (if b then "true" else "false")
  | PInt z => inr (str_int z)
  | PFloat r => encode_float o r
  | PStr s => inr (encode_str (ensure_ascii o) s)
  | PList xs =>
      match map_sum (encode o) xs with
      | inl e => inl e
      | inr ss => inr ("[" +:+ String.concat (item_separator o) ss +:+ "]")
      end
  | PDict kvs =>
      match map_sum (fun '(k, x) =>
              match encode o x with
              | inl e => inl e
              | inr s => inr (encode_str (ensure_ascii o) k +:+ key_separator o +:+ s)
              end) kvs with
      | inl e => inl e
      | inr ss => inr ("{" +:+ String.concat (item_separator o) ss +:+ "}")
      end
  end.

(** ** Termination of the scanner *)

(** A result makes progress on [s]: a value leaves a strictly shorter
    rest, an error is fine, running out of fuel is not. *)
Definition progress {A} (r : res A) (s : string) : Prop :=
  match r with
  | Ok _ rest => String.length rest < String.length s
  | OOT => False
  | _ => True
  end.

Lemma progress_bind {A B} (r : res A) (k : A -> string -> res B) s :
  progress r s ->
  (forall a rest, String.length rest < String.length s -> progress (k a rest) s) ->
  progress (res_bind r k) s.
Proof. destruct r; simpl; auto. Qed.

Lemma progress_weaken {A} (r : res A) s s' :
  progress r s -> String.length s <= String.length s' -> progress r s'.
Proof. destruct r; simpl; auto with lia. Qed.

Lemma progress_map {A B} (f : A -> B) r s s' :
  progress r s -> String.length s <= String.length s' -> progress (res_map f r) s'.
Proof. destruct r; simpl; auto with lia. Qed.

Lemma progress_ok {A} (a : A) rest s :
  String.length rest < String.length s -> progress (Ok a rest) s.
Proof. done. Qed.

Lemma progress_fail {A} m at_ s : progress (@Fail A m at_) s.
Proof. exact I. Qed.

Lemma progress_wide {A} s : progress (@Wide A) s.
Proof. exact I. Qed.

#[local] Hint Resolve progress_fail progress_wide : core.

Lemma skip_ws_length s : String.length (skip_ws s) <= String.length s.
Proof. induction s as [|c s IH]; simpl; [done|]. destruct (is_ws c); simpl; lia. Qed.

Lemma starts_length c s t : starts c s = Some t -> String.length t < String.length s.
Proof. destruct s as [|d s]; simpl; [done|]. destruct (ascii_dec d c); [|done]. intros [= <-]. lia. Qed.

Lemma scan_str_progress b s : progress (scan_str b s) s.
Proof.
  induction s as [s IH] using (induction_ltof1 _ String.length).
  destruct s as [|c t]; [done|]. unfold ltof in IH. simpl. unfold str_cons.
  destruct (ascii_dec c DQUOTE) as [_|_]; [apply progress_ok; simpl; lia|].
  destruct (ascii_dec c "\"%char) as [_|_].
  - destruct t as [|e t']; [done|].
    destruct (ascii_dec e "u"%char) as [_|_].
    + destruct t' as [|h1 [|h2 [|h3 [|h4 [|x t'']]]]]; try done.
      destruct (hex4 h1 h2 h3 h4) as [n|]; [|done].
      destruct (n <? 256); [|done].
      apply (progress_map _ _ (String x t'')); [apply IH|]; simpl; lia.
    + destruct (simple_escape e); [|done].
      apply (progress_map _ _ t'); [apply IH|]; simpl; lia.
  - destruct (nat_of_ascii c <=? 31); [done|].
    apply (progress_map _ _ t); [apply IH|]; simpl; lia.
Qed.

Lemma take_digits_length s ds r :
  take_digits s = (ds, r) -> String.length r + String.length ds = String.length s.
Proof.
  revert ds r. induction s as [|c s IH]; intros ds r H; simpl in H.
  - by injection H as <- <-.
  - destruct (is_digit c); [|by injection H as <- <-].
    destruct (take_digits s) as [ds' r'] eqn:E. injection H as <- <-.
    specialize (IH _ _ eq_refl). simpl. lia.
Qed.

Lemma lex_frac_length s fp r : lex_frac s = Some (fp, r) -> String.length r < String.length s.
Proof.
  unfold lex_frac. destruct (starts "." s) as [[|d t]|] eqn:Es; try done.
  apply starts_length in Es. destruct (is_digit d); [|done].
  destruct (take_digits t) as [ds r'] eqn:E. intros [= _ <-].
  apply take_digits_length in E. simpl in *. lia.
Qed.

Lemma lex_exp_length s ep r : lex_exp s = Some (ep, r) -> String.length r < String.length s.
Proof.
  destruct s as [|e t]; [done|]. unfold lex_exp.
  destruct (bool_decide (e = "e"%char) || bool_decide (e = "E"%char)); [|done].
  assert (Ht : forall sg t1, (sg, t1) = match t with
                 | String c t' => if bool_decide (c = "-"%char) || bool_decide (c = "+"%char)
                                  then (String c "", t') else ("", t)
                 | "" => ("", "") end -> String.length t1 <= String.length t).
  { intros sg t1 E1. destruct t as [|c t']; [injection E1 as _ ->; done|].
    destruct (_ || _); injection E1 as _ ->; simpl; lia. }
  destruct (match t with String c t' => _ | "" => _ end) as [sg t1] eqn:E1.
  specialize (Ht sg t1 eq_refl).
  destruct (take_digits t1) as [[|d ds] r'] eqn:E2; [done|]. intros [= _ <-].
  apply take_digits_length in E2. simpl in *. lia.
Qed.

Lemma lex_tail_length r b tl r2 : lex_tail r = (b, tl, r2) -> String.length r2 <= String.length r.
Proof.
  unfold lex_tail.
  destruct (lex_frac r) as [[fp r1]|] eqn:Ef; [apply lex_frac_length in Ef|];
    [destruct (lex_exp r1) as [[ep r3]|] eqn:Ee | destruct (lex_exp r) as [[ep r3]|] eqn:Ee];
    try apply lex_exp_length in Ee; intros [= _ _ <-]; lia.
Qed.

Lemma lex_int_length s ip r : lex_int s = Some (ip, r) -> String.length r < String.length s.
Proof.
  unfold lex_int. destruct s as [|c t]; [done|].
  destruct (ascii_dec c "0"%char) as [_|_]; [intros [= _ <-]; simpl; lia|].
  destruct (is_digit19 c); [|done].
  destruct (take_digits t) as [ds r'] eqn:E. intros [= _ <-].
  apply take_digits_length in E. simpl. lia.
Qed.

Lemma lex_number_length s b lit r :
  lex_number s = Some (b, lit, r) -> String.length r < String.length s.
Proof.
  unfold lex_number.
  assert (Hs : exists sign s1,
             (sign, s1) = match starts "-" s with Some t => ("-", t) | None => ("", s) end
             /\ String.length s1 <= String.length s).
  { destruct (starts "-" s) as [t|] eqn:E; eexists _, _; (split; [done|]); [|done].
    apply starts_length in E. lia. }
  destruct Hs as (sign & s1 & Heq & Hlen). rewrite <- Heq.
  destruct (lex_int s1) as [[ip r0]|] eqn:Ei; [|done]. apply lex_int_length in Ei.
  destruct (lex_tail r0) as [[b' tl] r2] eqn:Et. apply lex_tail_length in Et.
  intros [= _ _ <-]. lia.
Qed.

Lemma strip_prefix_length p s r :
  strip_prefix p s = Some r -> String.length r + String.length p = String.length s.
Proof.
  revert s. induction p as [|c p IH]; intros [|d s] H; simpl in *;
    try (injection H as <-; simpl; lia); try done.
  destruct (ascii_dec c d); [|done]. apply IH in H. lia.
Qed.

Lemma scan_const_length s v r :
  scan_const s = Some (v, r) -> String.length r < String.length s.
Proof.
  unfold scan_const.
  repeat match goal with
  | |- context [match strip_prefix ?p s with _ => _ end] =>
      let E := fresh "E" in
      destruct (strip_prefix p s) eqn:E;
        [intros [= _ <-]; apply strip_prefix_length in E; simpl in E; lia|]
  end. done.
Qed.

Section Progress.
Variable float_repr : string -> string.

Lemma scan_number_progress s : progress (scan_number float_repr s) s.
Proof.
  unfold scan_number. destruct (lex_number s) as [[[[] lit] r]|] eqn:E; [..|done];
    apply lex_number_length in E; done.
Qed.

(** The loops of arrays and objects make progress when one value does. *)
Variable sc : string -> res pyval.
Variable n : nat.
Hypothesis sc_progress : forall s, String.length s < n -> progress (sc s) s.

Lemma scan_items_progress m s :
  String.length s < m -> String.length s < n -> progress (scan_items sc m s) s.
Proof.
  revert s. induction m as [|m IH]; intros s Hm Hn; [lia|]. simpl.
  apply progress_bind; [by apply sc_progress|]. intros v r Hr.
  pose proof (skip_ws_length r).
  destruct (starts "]" (skip_ws r)) as [r2|] eqn:E1;
    [apply starts_length in E1; apply progress_ok; lia|].
  destruct (starts "," (skip_ws r)) as [r2|] eqn:E2; [|done].
  apply starts_length in E2. pose proof (skip_ws_length r2).
  apply (progress_map _ _ (skip_ws r2)); [apply IH|]; lia.
Qed.

Lemma scan_members_progress m s :
  String.length s < m -> String.length s < n -> progress (scan_members sc m s) s.
Proof.
  revert s. induction m as [|m IH]; intros s Hm Hn; [lia|]. simpl.
  destruct (starts DQUOTE s) as [t|] eqn:Eq; [|done]. apply starts_length in Eq.
  apply progress_bind; [eapply progress_weaken; [apply scan_str_progress | lia]|].
  intros k r Hr. pose proof (skip_ws_length r).
  destruct (starts ":" (skip_ws r)) as [r2|] eqn:E1; [|done].
  apply starts_length in E1. pose proof (skip_ws_length r2).
  apply progress_bind; [eapply progress_weaken; [apply sc_progress | ]; lia|].
  intros v r3 Hr3. pose proof (skip_ws_length r3).
  destruct (starts "}" (skip_ws r3)) as [r5|] eqn:E3;
    [apply starts_length in E3; apply progress_ok; lia|].
  destruct (starts "," (skip_ws r3)) as [r5|] eqn:E4; [|done].
  apply starts_length in E4. pose proof (skip_ws_length r5).
  apply (progress_map _ _ (skip_ws r5)); [apply IH|]; lia.
Qed.
End Progress.

(** With more fuel than characters, the scanner makes progress. *)
Lemma scan_progress float_repr n s :
  String.length s < n -> progress (scan float_repr n s) s.
Proof.
  revert s. induction n as [|n IH]; intros s Hn; [lia|].
  destruct s as [|c t]; [done|]. simpl.
  destruct (ascii_dec c DQUOTE) as [_|_].
  { apply (progress_map _ _ t); [apply scan_str_progress | simpl; lia]. }
  pose proof (skip_ws_length t).
  destruct (ascii_dec c "{"%char) as [_|_].
  { destruct (starts "}" (skip_ws t)) as [r|] eqn:E;
      [apply starts_length in E; apply progress_ok; simpl; lia|].
    apply (progress_map _ _ (skip_ws t)); [|simpl; lia].
    apply (scan_members_progress _ n); [intros s' ?; apply IH|..]; simpl in Hn; lia. }
  destruct (ascii_dec c "["%char) as [_|_].
  { destruct (starts "]" (skip_ws t)) as [r|] eqn:E;
      [apply starts_length in E; apply progress_ok; simpl; lia|].
    apply (progress_map _ _ (skip_ws t)); [|simpl; lia].
    apply (scan_items_progress _ n); [intros s' ?; apply IH|..]; simpl in Hn; lia. }
  destruct (scan_const (String c t)) as [[v r]|] eqn:E;
    [apply scan_const_length in E; by apply progress_ok|].
  apply scan_number_progress.
Qed.

(** Fuel adequacy of the model: the fuel [decode]
    gives the scanner (one more than the length of the document) is never
    exhausted, so every document is decoded to a value or an error. *)
Theorem decode_enough_fuel float_repr doc : decode float_repr doc <> OOT.
Proof.
  unfold decode. pose proof (skip_ws_length doc).
  pose proof (scan_progress float_repr (S (String.length doc)) (skip_ws doc) ltac:(lia)) as H'.
  destruct (scan float_repr _ (skip_ws doc)) as [v r| | |]; simpl; try done.
  by destruct (skip_ws r).
Qed.

(** ** Errors at the first character *)

(** An error raised at the start of the document is reported at line 1,
    column 1, character 0. *)
Lemma decode_error_start doc msg :
  decode_error doc msg doc = Exn JSONDecodeError (msg +:+ ": line 1 column 1 (char 0)").
Proof. unfold decode_error. rewrite Nat.sub_diag. by destruct doc. Qed.


End Json.
