(* ===== verification/JsonWf.v ===== *)
(** * The values [json.loads] returns are well formed

    A JSON object may repeat a key ([{"a": 1, "a": 2}]); [JSONObject]
    builds the dict with [dict(pairs)], where a repeated key keeps its
    first position and takes its last value ([Json.dict_of_pairs]).  The
    values the decoder returns therefore satisfy the invariant of the
    representation of dicts, [PyValue.pyval_wf]: distinct keys, at every
    depth.  [Client] relies on it when it reads [result['choices']] and
    when [Orchestrator] sets [result['File']]. *)

From S2P Require Import Prelude PyStr PyValue Json.

Module JsonWf.
Import PyStr PyValue Json.

(** [r] is a value of the decoder that satisfies [P], or no value. *)
Definition res_ok {A} (P : A -> Prop) (r : res A) : Prop :=
  match r with Ok a _ => P a | _ => True end.

Lemma res_ok_bind {A B} (P : A -> Prop) (Q : B -> Prop) r (k : A -> string -> res B) :
  res_ok P r -> (forall a s, P a -> res_ok Q (k a s)) -> res_ok Q (res_bind r k).
Proof. destruct r; simpl; auto. Qed.

Lemma res_ok_map {A B} (P : A -> Prop) (Q : B -> Prop) (f : A -> B) r :
  res_ok P r -> (forall a, P a -> Q (f a)) -> res_ok Q (res_map f r).
Proof. intros H Hf. apply (res_ok_bind P); [done|]. intros a s Ha. by apply Hf. Qed.

Lemma res_ok_fail {A} (P : A -> Prop) m at_ : res_ok P (Fail m at_).
Proof. done. Qed.

#[local] Hint Resolve res_ok_fail : core.

(** [dict(pairs)] has distinct keys, and its values are values of the pairs. *)
Lemma dict_of_pairs_wf (P : pyval -> Prop) kvs :
  Forall (fun kv => P kv.2) kvs ->
  NoDup (map fst (dict_of_pairs kvs)) /\ Forall (fun kv => P kv.2) (dict_of_pairs kvs).
Proof.
  unfold dict_of_pairs. intros Hkvs.
  cut (forall acc, NoDup (map fst acc) -> Forall (fun kv => P kv.2) acc ->
         NoDup (map fst (foldl (fun d kv => dict_set d kv.1 kv.2) acc kvs)) /\
         Forall (fun kv => P kv.2) (foldl (fun d kv => dict_set d kv.1 kv.2) acc kvs)).
  { intros H. apply H; [constructor | constructor]. }
  induction Hkvs as [|[k v] kvs Hv _ IH]; intros acc Hnd Hacc; simpl; [done|].
  apply IH; [by apply dict_set_nodup | by apply dict_set_values].
Qed.

Section Loops.
Variable sc : string -> res pyval.
Hypothesis Hsc : forall s, res_ok (fun v => pyval_wf v = true) (sc s).

Lemma scan_items_wf m s :
  res_ok (Forall (fun v => pyval_wf v = true)) (scan_items sc m s).
Proof.
  revert s. induction m as [|m IH]; intros s; [done|]. simpl.
  apply (res_ok_bind _ _ _ _ (Hsc s)). intros v r Hv.
  destruct (starts "]" (skip_ws r)); [by repeat constructor|].
  destruct (starts "," (skip_ws r)); [|done].
  apply (res_ok_map _ _ _ _ (IH _)). by constructor.
Qed.

Lemma scan_members_wf m s :
  res_ok (Forall (fun kv => pyval_wf kv.2 = true)) (scan_members sc m s).
Proof.
  revert s. induction m as [|m IH]; intros s; [done|]. simpl.
  destruct (starts DQUOTE s) as [t|]; [|done].
  apply (res_ok_bind (fun _ => True)); [by destruct (scan_str s t)|]. intros k r _.
  destruct (starts ":" (skip_ws r)) as [r2|]; [|done].
  apply (res_ok_bind _ _ _ _ (Hsc (skip_ws r2))). intros v r3 Hv.
  destruct (starts "}" (skip_ws r3)); [by repeat constructor|].
  destruct (starts "," (skip_ws r3)); [|done].
  apply (res_ok_map _ _ _ _ (IH _)). by constructor.
Qed.
End Loops.

Section Scan.
Variable float_repr : string -> string.

Lemma scan_const_wf s v r : scan_const s = Some (v, r) -> pyval_wf v = true.
Proof. unfold scan_const. by repeat case_match; intros [= <- _]. Qed.

Lemma scan_wf n s : res_ok (fun v => pyval_wf v = true) (scan float_repr n s).
Proof.
  revert s. induction n as [|n IH]; intros s; [done|]. destruct s as [|c t]; [done|].
  simpl. destruct (ascii_dec c DQUOTE) as [_|_].
  { apply (res_ok_map (fun _ => True)); [by destruct (scan_str _ t) | done]. }
  destruct (ascii_dec c "{"%char) as [_|_].
  { destruct (starts "}" (skip_ws t)); [done|].
    apply (res_ok_map _ _ _ _ (scan_members_wf _ IH n _)). intros kvs Hkvs.
    apply pyval_wf_dict, (dict_of_pairs_wf (fun v => pyval_wf v = true)), Hkvs. }
  destruct (ascii_dec c "["%char) as [_|_].
  { destruct (starts "]" (skip_ws t)); [done|].
    apply (res_ok_map _ _ _ _ (scan_items_wf _ IH n _)). intros xs Hxs.
    by apply pyval_wf_list. }
  destruct (scan_const _) as [[v r]|] eqn:E; [by apply scan_const_wf in E|].
  unfold scan_number. by repeat case_match.
Qed.

Lemma decode_wf doc : res_ok (fun v => pyval_wf v = true) (decode float_repr doc).
Proof.
  unfold decode. apply (res_ok_bind _ _ _ _ (scan_wf _ _)). intros v r Hv.
  by destruct (skip_ws r).
Qed.
End Scan.

(** Every value [json.loads] returns is well formed: each
    dict in it, at every depth, has distinct keys, whatever keys the
    document repeats. *)
Theorem loads_wf float_repr doc v : loads float_repr doc = inr v -> pyval_wf v = true.
Proof.
  unfold loads. pose proof (decode_wf float_repr doc) as H.
  destruct (decode float_repr doc); intros [= <-]; done.
Qed.

(** A document that repeats a key: the dict keeps the first position of
    [a] with its last value. *)
Definition dup_doc : string :=
  "{" +:+ String DQUOTE "a" +:+ String DQUOTE ": 1, " +:+ String DQUOTE "b" +:+ String DQUOTE
  ": [], " +:+ String DQUOTE "a" +:+ String DQUOTE ": 2}".

Lemma loads_wf_witness :
  loads (fun r => r) dup_doc = inr (PDict [("a", PInt 2); ("b", PList [])]) /\
  pyval_wf (PDict [("a", PInt 2); ("b", PList [])]) = true.
Proof.
  assert (H : loads (fun r => r) dup_doc = inr (PDict [("a", PInt 2); ("b", PList [])]))
    by (vm_compute; reflexivity).
  split; [exact H | exact (loads_wf (fun r => r) dup_doc _ H)].
Defined.

(** [json.loads] accepts the constants [NaN], [Infinity] and
    [-Infinity], which RFC 8259 does not allow: a completion whose
    content holds them is decoded, and [save_to_csv] writes [nan]. *)
Definition nan_doc : string :=
  "{" +:+ String DQUOTE "Total Amount" +:+ String DQUOTE ": NaN}".

Example loads_nan :
  loads (fun r => r) nan_doc = inr (PDict [("Total Amount", PFloat "nan")]).
Proof. vm_compute. reflexivity. Qed.

End JsonWf.
