(* ===== verification/JsonRoundtrip.v ===== *)
(** * The encoder and the decoder of the [json] module agree

    What [json.dumps] (or [httpx], with its own options) writes, [json.loads]
    reads back as the same value: [loads_encode].  The client relies on
    this twice -- the server reads the prompt back from the request body,
    and the receipt comes back from the completion's content -- and
    [Wire] uses it for both.

    The values that make the trip are those of [json_wf]: a float must be
    written as a literal [json.loads] reads as a float whose [repr] is
    that same text (or be one of the named constants, when [allow_nan]),
    and a dict must not repeat a key ([dict(pairs)] would merge them).
    The separators must be a comma or a colon with whitespace around them,
    as every [separators=] the callers pass is. *)

From stdpp Require Import pretty.
From S2P Require Import Prelude PyStr PyValue Json.

Module JsonRoundtrip.
Import PyStr PyValue Json.

(** ** Characters *)

Lemma ascii_of_nat_of (c : ascii) : ascii_of_nat (nat_of_ascii c) = c.
Proof. apply ascii_nat_embedding. Qed.

Lemma nat_of_ascii_lt (c : ascii) : nat_of_ascii c < 256.
Proof. apply nat_ascii_bounded. Qed.

Lemma hex_val_digit k : k < 16 -> hex_val (hex_digit k) = Some k.
Proof. intros Hk. do 16 (destruct k as [|k]; [reflexivity|]). lia. Qed.

Lemma hex4_byte n :
  n < 256 -> hex4 "0" "0" (hex_digit (n / 16)) (hex_digit (n mod 16)) = Some n.
Proof.
  intros Hn. unfold hex4.
  assert (H1 : n / 16 < 16) by (apply Nat.Div0.div_lt_upper_bound; lia).
  assert (H2 : n mod 16 < 16) by (apply Nat.mod_upper_bound; lia).
  rewrite (hex_val_digit _ H1), (hex_val_digit _ H2).
  change (hex_val "0"%char) with (Some 0). cbv beta iota.
  f_equal. pose proof (Nat.div_mod_eq n 16). lia.
Qed.

(** Whitespace only, as the separators may have around their comma or
    colon. *)
Fixpoint ws_only (w : string) : bool :=
  match w with String c t => is_ws c && ws_only t | "" => true end.

Lemma skip_ws_ws w t : ws_only w = true -> skip_ws (w +:+ t) = skip_ws t.
Proof.
  induction w as [|c w IH]; [done|]. intros [Hc Hw]%andb_prop.
  rewrite string_app_cons. simpl. rewrite Hc. by apply IH.
Qed.

Lemma skip_ws_nonws c t : is_ws c = false -> skip_ws (String c t) = String c t.
Proof. simpl. by intros ->. Qed.

Lemma starts_eq c t : starts c (String c t) = Some t.
Proof. simpl. by rewrite ascii_dec_eq. Qed.

Lemma starts_ne c d t : d <> c -> starts c (String d t) = None.
Proof. intros H. simpl. by rewrite ascii_dec_ne. Qed.

(** ** Strings *)

(** A [\u] escape of a code point below 256, followed by at least one
    more character. *)
Lemma scan_str_u b h1 h2 h3 h4 x r n :
  hex4 h1 h2 h3 h4 = Some n -> n < 256 ->
  scan_str b (String BSLASH (String "u" (String h1 (String h2 (String h3 (String h4 (String x r)))))))
  = str_cons (ascii_of_nat n) (scan_str b (String x r)).
Proof.
  intros H Hn. cbn [scan_str]. rewrite H, (proj2 (Nat.ltb_lt _ _) Hn). done.
Qed.

(** One encoded character, followed by at least one more character (the
    closing quote at the latest), decodes to that character. *)
Lemma scan_str_encode_char ao b c r :
  r <> "" -> scan_str b (encode_char ao c +:+ r) = str_cons c (scan_str b r).
Proof.
  intros Hr. pose proof (nat_of_ascii_lt c) as Hlt. unfold encode_char.
  destruct (ascii_dec c DQUOTE) as [->|Hq]; [done|].
  assert (Hc : c = ascii_of_nat (nat_of_ascii c)) by (symmetry; apply ascii_of_nat_of).
  destruct (nat_of_ascii c =? 92) eqn:E92;
    [apply Nat.eqb_eq in E92; rewrite Hc, E92; done|].
  do 5 (match goal with |- context [if nat_of_ascii c =? ?k then _ else _] =>
          let E := fresh "E" in destruct (nat_of_ascii c =? k) eqn:E;
          [apply Nat.eqb_eq in E; rewrite Hc, E; done|] end).
  destruct ((nat_of_ascii c <? 32) || (ao && (126 <? nat_of_ascii c))) eqn:Eu.
  - destruct r as [|x r']; [done|]. rewrite !string_app_cons, string_app_nil_l.
    rewrite (scan_str_u _ _ _ _ _ _ _ (nat_of_ascii c)), ascii_of_nat_of; [done | |done].
    by apply hex4_byte.
  - rewrite string_app_cons, string_app_nil_l. simpl.
    rewrite (ascii_dec_ne _ _ _ _ Hq), ascii_dec_ne.
    + apply orb_false_iff in Eu as [Eu _]. apply Nat.ltb_ge in Eu.
      by rewrite (proj2 (Nat.leb_gt _ _)) by lia.
    + intros ->. done.
Qed.

Lemma scan_str_encode_body ao b s t :
  scan_str b (encode_body ao s +:+ String DQUOTE t) = Ok s t.
Proof.
  induction s as [|c s IH]; [done|]. simpl.
  rewrite <- string_app_assoc, scan_str_encode_char, IH; [done|].
  by destruct (encode_body ao s).
Qed.

Lemma encode_str_app ao s t :
  encode_str ao s +:+ t = String DQUOTE (encode_body ao s +:+ String DQUOTE t).
Proof. unfold encode_str. by rewrite string_app_cons, <- string_app_assoc. Qed.

(** ** Numbers *)

(** What may follow a number without extending it: not a digit. *)
Definition digit_stop (t : string) : bool :=
  match t with String c _ => negb (is_digit c) | "" => true end.

(** Not a digit, a dot or an exponent mark either: what follows a number
    in an encoding (a separator, a bracket, or the end). *)
Definition num_stop (t : string) : bool :=
  match t with
  | String c _ => negb (is_digit c) && negb (bool_decide (c = "."%char)) &&
                  negb (bool_decide (c = "e"%char)) && negb (bool_decide (c = "E"%char))
  | "" => true
  end.

Lemma num_stop_digit_stop t : num_stop t = true -> digit_stop t = true.
Proof. destruct t as [|c t]; [done|]. simpl. by intros [[[-> _]%andb_prop _]%andb_prop _]%andb_prop. Qed.

Lemma starts_app c s t o : starts c s = o -> s <> "" -> starts c (s +:+ t) = option_map (fun x => x +:+ t) o.
Proof. intros <- Hs. destruct s as [|d s]; [done|]. simpl. by destruct (ascii_dec d c). Qed.

Lemma take_digits_app s t ds r :
  take_digits s = (ds, r) -> r <> "" \/ digit_stop t = true ->
  take_digits (s +:+ t) = (ds, r +:+ t).
Proof.
  revert ds r. induction s as [|c s IH]; intros ds r H Hr; simpl in H.
  - injection H as <- <-. destruct Hr as [|Ht]; [done|].
    destruct t as [|c t]; [done|]. simpl in *. by destruct (is_digit c).
  - rewrite string_app_cons. simpl. destruct (is_digit c); [|by injection H as <- <-].
    destruct (take_digits s) as [ds' r'] eqn:E. injection H as <- <-.
    by rewrite (IH ds' r' eq_refl Hr).
Qed.

Lemma lex_int_app s t ip r :
  lex_int s = Some (ip, r) -> r <> "" \/ digit_stop t = true ->
  lex_int (s +:+ t) = Some (ip, r +:+ t).
Proof.
  destruct s as [|c s]; [done|]. rewrite string_app_cons. simpl.
  destruct (ascii_dec c "0"%char) as [_|_]; [by intros [= <- <-]|].
  destruct (is_digit19 c); [|done].
  destruct (take_digits s) as [ds r'] eqn:E. intros [= <- <-] Hr.
  by rewrite (take_digits_app _ _ _ _ E Hr).
Qed.

Lemma lex_frac_app s t fp r :
  lex_frac s = Some (fp, r) -> r <> "" \/ digit_stop t = true ->
  lex_frac (s +:+ t) = Some (fp, r +:+ t).
Proof.
  unfold lex_frac. destruct (starts "." s) as [[|d u]|] eqn:E; try done.
  rewrite (starts_app _ _ t _ E) by (by intros ->). simpl.
  destruct (is_digit d); [|done].
  destruct (take_digits u) as [ds r'] eqn:E'. intros [= <- <-] Hr.
  by rewrite (take_digits_app _ _ _ _ E' Hr).
Qed.

Lemma lex_exp_app s t ep r :
  lex_exp s = Some (ep, r) -> r <> "" \/ digit_stop t = true ->
  lex_exp (s +:+ t) = Some (ep, r +:+ t).
Proof.
  destruct s as [|e u]; [done|]. rewrite string_app_cons. unfold lex_exp.
  destruct (bool_decide (e = "e"%char) || bool_decide (e = "E"%char)); [|done].
  destruct u as [|c u].
  - simpl. destruct (take_digits t) as [ds r']. by destruct ds.
  - rewrite string_app_cons.
    destruct (bool_decide (c = "-"%char) || bool_decide (c = "+"%char)).
    + destruct (take_digits u) as [[|d ds] r'] eqn:E; [done|]. intros [= <- <-] Hr.
      by rewrite (take_digits_app _ _ _ _ E Hr).
    + destruct (take_digits (String c u)) as [[|d ds] r'] eqn:E; [done|].
      intros [= <- <-] Hr. rewrite <- string_app_cons.
      by rewrite (take_digits_app _ _ _ _ E Hr).
Qed.

Lemma lex_frac_not_dot c s : c <> "."%char -> lex_frac (String c s) = None.
Proof. intros H. unfold lex_frac. by rewrite starts_ne. Qed.

Lemma lex_exp_not_e c s :
  c <> "e"%char -> c <> "E"%char -> lex_exp (String c s) = None.
Proof. intros H1 H2. unfold lex_exp. by rewrite !bool_decide_false. Qed.

Lemma lex_frac_stop t : num_stop t = true -> lex_frac t = None.
Proof.
  destruct t as [|c t]; [done|]. simpl. intros H. apply lex_frac_not_dot.
  intros ->. by rewrite bool_decide_true in H by done; rewrite andb_false_r in H.
Qed.

Lemma lex_exp_stop t : num_stop t = true -> lex_exp t = None.
Proof.
  destruct t as [|c t]; [done|]. simpl. intros H.
  apply lex_exp_not_e; intros ->; rewrite bool_decide_true in H by done;
    by rewrite ?andb_false_r in H.
Qed.

Lemma lex_exp_head s ep r :
  lex_exp s = Some (ep, r) -> exists e u, s = String e u /\ e <> "."%char.
Proof.
  destruct s as [|e u]; [done|]. unfold lex_exp. intros H. exists e, u. split; [done|].
  intros ->. by rewrite !bool_decide_false in H.
Qed.

Lemma lex_tail_app r t b tl :
  lex_tail r = (b, tl, "") -> num_stop t = true -> lex_tail (r +:+ t) = (b, tl, t).
Proof.
  intros H Ht. pose proof (num_stop_digit_stop t Ht) as Hd. unfold lex_tail in *.
  destruct (lex_frac r) as [[fp r1]|] eqn:Ef.
  - rewrite (lex_frac_app _ _ _ _ Ef (or_intror Hd)).
    destruct (lex_exp r1) as [[ep r2]|] eqn:Ee.
    + injection H as <- <- ->.
      assert (r1 <> "") by (intros ->; done).
      by rewrite (lex_exp_app _ _ _ _ Ee (or_intror Hd)).
    + injection H as <- <- ->. by rewrite string_app_nil_l, lex_exp_stop.
  - destruct (lex_exp r) as [[ep r2]|] eqn:Ee.
    + destruct (lex_exp_head _ _ _ Ee) as (e & u & -> & Hdot).
      rewrite string_app_cons, lex_frac_not_dot by done. rewrite <- string_app_cons.
      injection H as <- <- ->. by rewrite (lex_exp_app _ _ _ _ Ee (or_intror Hd)).
    + injection H as <- <- ->. by rewrite string_app_nil_l, lex_frac_stop, lex_exp_stop.
Qed.

(** A literal read whole is read the same when a character that cannot
    extend it follows. *)
Lemma lex_number_app r t b :
  lex_number r = Some (b, r, "") -> num_stop t = true ->
  lex_number (r +:+ t) = Some (b, r, t).
Proof.
  intros H Ht. pose proof (num_stop_digit_stop t Ht) as Hd. unfold lex_number in *.
  assert (Hne : r <> "") by (intros ->; done).
  destruct (starts "-" r) as [r'|] eqn:Es; rewrite (starts_app _ _ t _ Es Hne); simpl;
    [destruct (lex_int r') as [[ip r0]|] eqn:Ei | destruct (lex_int r) as [[ip r0]|] eqn:Ei];
    try done; rewrite (lex_int_app _ _ _ _ Ei (or_intror Hd));
    destruct (lex_tail r0) as [[b' tl] r2] eqn:Et; injection H as -> Hlit ->;
    by rewrite (lex_tail_app _ _ _ _ Et Ht), Hlit.
Qed.

(** *** Integers: [int.__repr__] is read back as the same integer *)

Fixpoint all_digits (s : string) : bool :=
  match s with String c t => is_digit c && all_digits t | "" => true end.

Lemma take_digits_all s : all_digits s = true -> take_digits s = (s, "").
Proof.
  induction s as [|c s IH]; [done|]. simpl. intros [-> Hs]%andb_prop. by rewrite IH.
Qed.

Lemma digits_val_app acc s1 s2 : digits_val acc (s1 +:+ s2) = digits_val (digits_val acc s1) s2.
Proof. revert acc. induction s1 as [|c s1 IH]; intros acc; [done|]. apply IH. Qed.

Lemma pretty_N_char_facts k :
  (k < 10)%N -> is_digit (pretty_N_char k) = true /\ digit_val (pretty_N_char k) = N.to_nat k /\
                ((0 < k)%N -> is_digit19 (pretty_N_char k) = true).
Proof.
  intros Hk.
  assert (k = 0 \/ k = 1 \/ k = 2 \/ k = 3 \/ k = 4 \/ k = 5 \/ k = 6 \/ k = 7 \/ k = 8 \/ k = 9)%N
    as Hc by lia.
  repeat destruct Hc as [->|Hc]; [..|subst k]; split_and!; try done; intros; lia.
Qed.

Lemma pretty_N_go_app x s : pretty_N_go x s = pretty_N_go x "" +:+ s.
Proof.
  revert s. induction x as [x IH] using (well_founded_induction N.lt_wf_0). intros s.
  destruct (decide (x = 0%N)) as [->|Hx]; [done|].
  rewrite !(pretty_N_go_step x) by lia.
  assert (Hlt : (x `div` 10 < x)%N) by (apply N.div_lt; lia).
  rewrite (IH _ Hlt (String _ s)), (IH _ Hlt (String _ "")).
  by rewrite <- string_app_assoc.
Qed.

Lemma pretty_N_go_digits x :
  (0 < x)%N -> exists d ds, pretty_N_go x "" = String d ds /\ is_digit19 d = true /\
    all_digits ds = true /\ digits_val 0 (pretty_N_go x "") = Z.of_N x.
Proof.
  induction x as [x IH] using (well_founded_induction N.lt_wf_0). intros Hx.
  rewrite pretty_N_go_step by done.
  destruct (pretty_N_char_facts (x `mod` 10)%N) as (Hd & Hv & H19); [apply N.mod_lt; lia|].
  destruct (decide (x < 10)%N) as [Hlt|Hge].
  - rewrite N.div_small, N.mod_small by done. rewrite N.mod_small in Hd, Hv, H19 by done.
    exists (pretty_N_char x), "". split_and!; try done; [by apply H19|].
    simpl. rewrite Hv. lia.
  - destruct (IH (x `div` 10)%N) as (d & ds & Hp & H1 & H2 & H3);
      [apply N.div_lt; lia | apply N.div_str_pos; lia|].
    rewrite pretty_N_go_app, Hp. exists d, (ds +:+ String (pretty_N_char (x `mod` 10)) "").
    split_and!; [done | done | |].
    + clear -H2 Hd. induction ds as [|c ds IHd]; simpl in *; [by rewrite Hd|].
      apply andb_prop in H2 as [-> ?]. by apply IHd.
    + rewrite <- Hp, digits_val_app, H3. simpl. rewrite Hv.
      pose proof (N.div_mod x 10). lia.
Qed.

Lemma lex_int_pretty x :
  (0 < x)%N -> lex_int (pretty_N_go x "") = Some (pretty_N_go x "", "").
Proof.
  intros Hx. destruct (pretty_N_go_digits x Hx) as (d & ds & Hp & H19 & Hds & _).
  rewrite Hp. simpl. rewrite (take_digits_all _ Hds).
  destruct (ascii_dec d "0"%char) as [->|_]; [done|]. by rewrite H19.
Qed.

Lemma str_int_pos p : str_int (Zpos p) = pretty_N_go (Npos p) "".
Proof. reflexivity. Qed.

Lemma str_int_neg p : str_int (Zneg p) = "-" +:+ pretty_N_go (Npos p) "".
Proof. reflexivity. Qed.

Lemma lex_number_str_int z : lex_number (str_int z) = Some (false, str_int z, "").
Proof.
  destruct z as [|p|p]; [done|rewrite str_int_pos|rewrite str_int_neg].
  - destruct (pretty_N_go_digits (Npos p)) as (d & ds & Hp & H19 & _); [lia|].
    unfold lex_number. rewrite Hp, starts_ne by (intros ->; done).
    rewrite <- Hp, lex_int_pretty by lia.
    change (lex_tail "") with (false, "", ""). cbv beta iota.
    by rewrite string_app_nil_l, string_app_nil_r.
  - unfold lex_number. rewrite string_app_cons, string_app_nil_l, starts_eq.
    rewrite lex_int_pretty by lia.
    change (lex_tail "") with (false, "", ""). cbv beta iota.
    by rewrite string_app_nil_r.
Qed.

Lemma int_of_lit_str_int z : int_of_lit (str_int z) = z.
Proof.
  destruct z as [|p|p]; [done|rewrite str_int_pos|rewrite str_int_neg].
  - destruct (pretty_N_go_digits (Npos p)) as (d & ds & Hp & H19 & _ & Hv); [lia|].
    unfold int_of_lit. rewrite Hp, starts_ne, <- Hp, Hv by (intros ->; done). done.
  - destruct (pretty_N_go_digits (Npos p)) as (_ & _ & _ & _ & _ & Hv); [lia|].
    unfold int_of_lit. rewrite string_app_cons, string_app_nil_l, starts_eq, Hv. done.
Qed.

(** ** The first character of an encoding *)

(** An encoding starts with a character that is not whitespace and does
    not close an array or an object. *)
Definition head_ok (s : string) : Prop :=
  exists c u, s = String c u /\ is_ws c = false /\ c <> "]"%char /\ c <> "}"%char.

Lemma head_ok_skip s t : head_ok s -> skip_ws (s +:+ t) = s +:+ t.
Proof. intros (c & u & -> & Hc & _). rewrite string_app_cons. by apply skip_ws_nonws. Qed.

Lemma head_ok_skip_nil s : head_ok s -> skip_ws s = s.
Proof. intros H. rewrite <- (string_app_nil_r s). by apply head_ok_skip. Qed.

Lemma head_ok_starts s t c : head_ok s -> c = "]"%char \/ c = "}"%char -> starts c (s +:+ t) = None.
Proof.
  intros (d & u & -> & _ & H1 & H2) Hc. rewrite string_app_cons.
  apply starts_ne. by destruct Hc as [->| ->].
Qed.

Lemma head_ok_char c u :
  c = DQUOTE \/ c = "["%char \/ c = "{"%char \/ c = "-"%char \/ is_digit c = true \/
  c = "n"%char \/ c = "t"%char \/ c = "f"%char \/ c = "N"%char \/ c = "I"%char ->
  head_ok (String c u).
Proof.
  intros Hc. exists c, u. split; [done|].
  destruct Hc as [->|[->|[->|[->|[Hc|[->|[->|[->|[->| ->]]]]]]]]]; try done.
  pose proof (nat_of_ascii_lt c) as Hlt. unfold is_digit, is_ws in *. cbv zeta in *.
  apply andb_prop in Hc as [H1 H2]. apply Nat.leb_le in H1, H2.
  split_and!.
  - repeat (apply orb_false_intro); apply Nat.eqb_neq; lia.
  - intros ->. cbv in H2. lia.
  - intros ->. cbv in H2. lia.
Qed.

Lemma lex_int_head s ip r : lex_int s = Some (ip, r) -> exists c u, s = String c u /\ is_digit c = true.
Proof.
  intros H. destruct s as [|c u]; [done|]. exists c, u. split; [done|]. simpl in H.
  destruct (ascii_dec c "0"%char) as [->|_]; [done|].
  destruct (is_digit19 c) eqn:E; [|discriminate H].
  unfold is_digit19, is_digit in *. apply andb_prop in E as [E1 E2].
  apply Nat.leb_le in E1, E2. apply andb_true_intro. split; apply Nat.leb_le; lia.
Qed.

Lemma lex_number_head s b lit r :
  lex_number s = Some (b, lit, r) ->
  (exists c u, s = String c u /\ is_digit c = true) \/
  (exists d u, s = String "-" (String d u) /\ is_digit d = true).
Proof.
  unfold lex_number. destruct (starts "-" s) as [u|] eqn:Es;
    destruct (lex_int _) as [[ip r0]|] eqn:Ei; try done; intros _;
    destruct (lex_int_head _ _ _ Ei) as (d & u' & -> & Hd).
  - right. destruct s as [|c s]; [done|]. simpl in Es.
    destruct (ascii_dec c "-"%char) as [->|]; [|done]. injection Es as ->. by exists d, u'.
  - left. by exists d, u'.
Qed.

(** ** One step of the scanner on an encoding *)

Section Scan.
Variable fr : string -> string.


(** A number is not a named constant. *)
Lemma scan_const_number s b lit r : lex_number s = Some (b, lit, r) -> scan_const s = None.
Proof.
  intros H. unfold scan_const.
  destruct (lex_number_head _ _ _ _ H) as [(c & u & -> & Hd)|(d & u & -> & Hd)].
  - cbn [strip_prefix]. repeat (destruct (ascii_dec _ c) as [<-|_]; [done|]). done.
  - cbn [strip_prefix]. rewrite !ascii_dec_eq.
    repeat (destruct (ascii_dec _ "-"%char) as [?|_]; [done|]).
    destruct (ascii_dec "I" d) as [<-|_]; done.
Qed.

Lemma scan_other n c u :
  c <> DQUOTE -> c <> "{"%char -> c <> "["%char ->
  scan fr (S n) (String c u) =
    match scan_const (String c u) with Some (v, r) => Ok v r | None => scan_number fr (String c u) end.
Proof. intros H1 H2 H3. simpl. by rewrite !ascii_dec_ne. Qed.

(** A literal read whole, followed by a character that cannot extend it. *)
Lemma scan_number_lit n s t b :
  lex_number s = Some (b, s, "") -> num_stop t = true ->
  scan fr (S n) (s +:+ t) = Ok (if b then PFloat (fr s) else PInt (int_of_lit s)) t.
Proof.
  intros H Ht. pose proof (lex_number_app _ _ _ H Ht) as Happ.
  assert (Hs : exists c u, s +:+ t = String c u /\ c <> DQUOTE /\ c <> "{"%char /\ c <> "["%char).
  { destruct (lex_number_head _ _ _ _ Happ) as [(c & u & Hu & Hd)|(d & u & Hu & Hd)];
      [|by eexists _, _]. exists c, u. split_and!; [done|..]; intros ->; done. }
  destruct Hs as (c & u & Hu & H1 & H2 & H3).
  rewrite Hu, (scan_other _ _ _ H1 H2 H3), <- Hu, (scan_const_number _ _ _ _ Happ).
  unfold scan_number. rewrite Happ. by destruct b.
Qed.

Lemma scan_encode_str n ao str t :
  scan fr (S n) (encode_str ao str +:+ t) = Ok (PStr str) t.
Proof. rewrite encode_str_app. simpl. by rewrite scan_str_encode_body. Qed.

End Scan.

(** ** Separators *)

(** A comma and a colon with whitespace around them. *)
Definition seps_ok (o : dump_opts) : Prop :=
  exists w1 w2 w3 w4,
    item_separator o = w1 +:+ String "," w2 /\ key_separator o = w3 +:+ String ":" w4 /\
    ws_only w1 = true /\ ws_only w2 = true /\ ws_only w3 = true /\ ws_only w4 = true.

Lemma is_ws_cases c : is_ws c = true -> c = " "%char \/ c = "009"%char \/ c = "010"%char \/ c = "013"%char.
Proof.
  unfold is_ws. intros H. rewrite <- (ascii_of_nat_of c).
  repeat (apply orb_prop in H as [H|H]); apply Nat.eqb_eq in H; rewrite H; auto.
Qed.

(** What follows a value in an encoding cannot extend a number. *)
Lemma num_stop_sep w c u :
  ws_only w = true -> c = ","%char \/ c = ":"%char \/ c = "]"%char \/ c = "}"%char ->
  num_stop (w +:+ String c u) = true.
Proof.
  destruct w as [|x w]; intros Hw Hc.
  - by destruct Hc as [->|[->|[->| ->]]].
  - simpl in Hw. apply andb_prop in Hw as [Hx _].
    rewrite string_app_cons. by destruct (is_ws_cases x Hx) as [->|[->|[->| ->]]].
Qed.

Lemma skip_ws_sep w1 c w2 rest :
  ws_only w1 = true -> is_ws c = false ->
  skip_ws (w1 +:+ String c (w2 +:+ rest)) = String c (w2 +:+ rest).
Proof. intros H1 Hc. rewrite skip_ws_ws by done. by apply skip_ws_nonws. Qed.

Lemma head_ok_app s u : head_ok s -> head_ok (s +:+ u).
Proof. intros (c & v & -> & H). exists c, (v +:+ u). by rewrite string_app_cons. Qed.

Lemma head_ok_concat sep s ss : head_ok s -> head_ok (String.concat sep (s :: ss)).
Proof. destruct ss; [done|]. apply head_ok_app. Qed.

Lemma concat_cons2 sep s1 s2 ss :
  String.concat sep (s1 :: s2 :: ss) = s1 +:+ sep +:+ String.concat sep (s2 :: ss).
Proof. done. Qed.

(** After a value: the separator and the next value, or the closing
    bracket. *)
Lemma after_value_sep o rest :
  seps_ok o -> head_ok rest ->
  exists r2, skip_ws (item_separator o +:+ rest) = String "," r2 /\ skip_ws r2 = rest /\
    num_stop (item_separator o +:+ rest) = true.
Proof.
  intros (w1 & w2 & w3 & w4 & -> & _ & H1 & H2 & _) Hr. exists (w2 +:+ rest).
  rewrite <- string_app_assoc, string_app_cons, skip_ws_sep by done.
  split_and!; [done | by rewrite skip_ws_ws, head_ok_skip_nil by done | ].
  rewrite <- string_app_cons. apply num_stop_sep; auto.
Qed.

(** ** The loops of arrays and objects on encodings *)

Section Loops.
Variable o : dump_opts.
Hypothesis Hseps : seps_ok o.
Variable sc : string -> res pyval.
Variable N : nat.

(** [sc] reads back one encoded value, followed by anything that cannot
    extend it, within [N] characters. *)
Definition reads (x : pyval) (s : string) : Prop :=
  head_ok s /\ forall t, num_stop t = true -> String.length (s +:+ t) < N -> sc (s +:+ t) = Ok x t.

Lemma scan_items_S m s :
  scan_items sc (S m) s =
    res_bind (sc s) (fun v r =>
      let r1 := skip_ws r in
      match starts "]" r1 with
      | Some r2 => Ok [v] r2
      | None =>
          match starts "," r1 with
          | Some r2 => res_map (cons v) (scan_items sc m (skip_ws r2))
          | None => Fail "Expecting ',' delimiter" r1
          end
      end).
Proof. done. Qed.

Lemma scan_items_encode xs ss t m :
  Forall2 reads xs ss -> ss <> [] ->
  String.length (String.concat (item_separator o) ss +:+ String "]" t) < m ->
  String.length (String.concat (item_separator o) ss +:+ String "]" t) < N ->
  scan_items sc m (String.concat (item_separator o) ss +:+ String "]" t) = Ok xs t.
Proof.
  intros HF. revert m. induction HF as [|x s xs ss [Hh Hx] HF IH]; intros m Hne Hm HN; [done|].
  destruct m as [|m]; [lia|]. rewrite scan_items_S.
  destruct ss as [|s2 ss].
  - inversion HF; subst. simpl in *. rewrite Hx; [|done|lia]. simpl.
    done.
  - inversion HF as [|x2 ? xs' ? [Hh2 _] _]; subst.
    pose proof (head_ok_concat (item_separator o) s2 ss Hh2) as Hc.
    destruct (after_value_sep o _ Hseps (head_ok_app _ (String "]" t) Hc))
      as (r2 & Hsk & Hr2 & Hstop).
    rewrite concat_cons2 in *. rewrite !string_length_app in Hm, HN.
    rewrite <- !string_app_assoc, Hx; [|done|rewrite !string_length_app; lia]. cbn [res_bind].
    rewrite Hsk, starts_ne, starts_eq, Hr2 by done.
    assert (String.length s >= 1) by (destruct Hh as (c' & u' & -> & _); simpl; lia).
    rewrite IH; [done|done|rewrite string_length_app; simpl in *; lia..].
Qed.
Lemma after_key_sep rest :
  head_ok rest -> exists r2, skip_ws (key_separator o +:+ rest) = String ":" r2 /\ skip_ws r2 = rest.
Proof.
  intros Hr. destruct Hseps as (w1 & w2 & w3 & w4 & _ & -> & _ & _ & H3 & H4).
  exists (w4 +:+ rest). rewrite <- string_app_assoc, string_app_cons, skip_ws_sep by done.
  split; [done|]. by rewrite skip_ws_ws, head_ok_skip_nil by done.
Qed.

(** [sc] reads back one encoded member: the key, the key separator, the
    value. *)
Definition reads_member (kv : string * pyval) (s : string) : Prop :=
  exists venc, s = encode_str (ensure_ascii o) kv.1 +:+ key_separator o +:+ venc /\ reads kv.2 venc.

Lemma scan_members_S m s :
  scan_members sc (S m) s =
    match starts DQUOTE s with
    | Some t =>
        res_bind (scan_str s t) (fun k r =>
          let r1 := skip_ws r in
          match starts ":" r1 with
          | Some r2 =>
              res_bind (sc (skip_ws r2)) (fun v r3 =>
                let r4 := skip_ws r3 in
                match starts "}" r4 with
                | Some r5 => Ok [(k, v)] r5
                | None =>
                    match starts "," r4 with
                    | Some r5 => res_map (cons (k, v)) (scan_members sc m (skip_ws r5))
                    | None => Fail "Expecting ',' delimiter" r4
                    end
                end)
          | None => Fail "Expecting ':' delimiter" r1
          end)
    | None => Fail "Expecting property name enclosed in double quotes" s
    end.
Proof. done. Qed.

(** The key and the value of one member, followed by [rest0]. *)
Lemma scan_member_step m k v venc rest0 :
  reads v venc -> num_stop rest0 = true ->
  String.length (venc +:+ rest0) < N ->
  scan_members sc (S m) (encode_str (ensure_ascii o) k +:+ key_separator o +:+ venc +:+ rest0) =
    (let r4 := skip_ws rest0 in
     match starts "}" r4 with
     | Some r5 => Ok [(k, v)] r5
     | None =>
         match starts "," r4 with
         | Some r5 => res_map (cons (k, v)) (scan_members sc m (skip_ws r5))
         | None => Fail "Expecting ',' delimiter" r4
         end
     end).
Proof.
  intros [Hh Hv] Hstop Hlen. rewrite scan_members_S, encode_str_app, starts_eq.
  rewrite scan_str_encode_body. cbn [res_bind].
  destruct (after_key_sep (venc +:+ rest0) (head_ok_app _ _ Hh)) as (r2 & Hsk & Hr2).
  rewrite Hsk, starts_eq, Hr2, Hv by done. done.
Qed.

Lemma scan_members_encode kvs ss t m :
  Forall2 reads_member kvs ss -> ss <> [] ->
  String.length (String.concat (item_separator o) ss +:+ String "}" t) < m ->
  String.length (String.concat (item_separator o) ss +:+ String "}" t) < N ->
  scan_members sc m (String.concat (item_separator o) ss +:+ String "}" t) = Ok kvs t.
Proof.
  intros HF. revert m. induction HF as [|[k v] s kvs ss (venc & -> & Hr) HF IH];
    intros m Hne Hm HN; [done|].
  destruct m as [|m]; [lia|].
  destruct ss as [|s2 ss].
  - inversion HF; subst. simpl String.concat in *. rewrite <- !string_app_assoc in *.
    rewrite (scan_member_step m k v venc); [|done|done|rewrite !string_length_app in *; simpl in *; lia].
    done.
  - inversion HF as [|kv2 ? kvs' ? (venc2 & -> & Hr2 & _) _]; subst.
    set (s2 := encode_str _ kv2.1 +:+ _ +:+ venc2) in *.
    assert (Hh2 : head_ok s2) by (unfold s2; rewrite encode_str_app; by apply head_ok_char; left).
    pose proof (head_ok_concat (item_separator o) s2 ss Hh2) as Hc.
    destruct (after_value_sep o _ Hseps (head_ok_app _ (String "}" t) Hc))
      as (r2 & Hsk & Hr2' & Hstop).
    rewrite concat_cons2 in *. rewrite <- !string_app_assoc in *.
    rewrite (scan_member_step m k v venc); [|done|done|rewrite !string_length_app in *; simpl in *; lia].
    cbv zeta. rewrite Hsk, starts_ne, starts_eq, Hr2' by done.
    assert (String.length (encode_str (ensure_ascii o) k) >= 1) by (unfold encode_str; simpl; lia).
    rewrite IH; [done|done|rewrite !string_length_app in *; simpl in *; lia..].
Qed.
End Loops.


(** ** Values that make the round trip *)

(** A float the decoder gives back: a named constant, or a float literal
    read whole whose [repr] is itself. *)
Definition float_ok (fr : string -> string) (r : string) : Prop :=
  r = "nan" \/ r = "inf" \/ r = "-inf" \/ (lex_number r = Some (true, r, "") /\ fr r = r).

#[local] Set Warnings "-register-all".
Inductive json_wf (fr : string -> string) : pyval -> Prop :=
  | wf_none : json_wf fr PNone
  | wf_bool b : json_wf fr (PBool b)
  | wf_int z : json_wf fr (PInt z)
  | wf_float r : float_ok fr r -> json_wf fr (PFloat r)
  | wf_str s : json_wf fr (PStr s)
  | wf_list xs : Forall (json_wf fr) xs -> json_wf fr (PList xs)
  | wf_dict kvs : NoDup (map fst kvs) -> Forall (fun kv => json_wf fr kv.2) kvs ->
                  json_wf fr (PDict kvs).

(** Prove [json_wf] of a concrete value: distinct keys by computation,
    the rest by the constructors. *)
Ltac json_wf_solve :=
  repeat first
    [ apply wf_dict; [apply (bool_decide_unpack _); vm_compute; reflexivity|]
    | apply wf_float; unfold float_ok; right; right; right; split; vm_compute; reflexivity
    | constructor ].

Lemma dict_set_fresh d k v : k ∉ map fst d -> dict_set d k v = d ++ [(k, v)].
Proof.
  induction d as [|[k' v'] d IH]; [done|]. simpl. intros Hk.
  apply not_elem_of_cons in Hk as [Hne Hk].
  destruct (String.eqb_spec k' k); [congruence|]. by rewrite IH.
Qed.

Lemma foldl_dict_set acc kvs :
  NoDup (map fst (acc ++ kvs)) ->
  foldl (fun d kv => dict_set d kv.1 kv.2) acc kvs = acc ++ kvs.
Proof.
  revert acc. induction kvs as [|[k v] kvs IH]; intros acc Hnd; simpl; [by rewrite app_nil_r|].
  rewrite map_app in Hnd. apply NoDup_app in Hnd as (H1 & H2 & H3).
  rewrite dict_set_fresh by (intros Hk; apply (H2 k Hk); simpl; left).
  rewrite IH, <- app_assoc; [done|].
  rewrite <- app_assoc, map_app. apply NoDup_app. split_and!; [done| |done].
  intros x Hx. apply H2, Hx.
Qed.

(** [dict(pairs)] of pairs with distinct keys is those pairs. *)
Lemma dict_of_pairs_nodup kvs : NoDup (map fst kvs) -> dict_of_pairs kvs = kvs.
Proof. intros H. by apply (foldl_dict_set []). Qed.

(** ** The round trip *)

Section Roundtrip.
Variable o : dump_opts.
Hypothesis Hseps : seps_ok o.
Variable fr : string -> string.

Lemma scan_bracket n u :
  scan fr (S n) (String "[" u) =
    (let t1 := skip_ws u in
     match starts "]" t1 with
     | Some r => Ok (PList []) r
     | None => res_map PList (scan_items (scan fr n) n t1)
     end).
Proof. done. Qed.

Lemma scan_brace n u :
  scan fr (S n) (String "{" u) =
    (let t1 := skip_ws u in
     match starts "}" t1 with
     | Some r => Ok (PDict []) r
     | None => res_map (fun kvs => PDict (dict_of_pairs kvs)) (scan_members (scan fr n) n t1)
     end).
Proof. done. Qed.

Lemma wrap_app (op cl : ascii) body t :
  (String op "" +:+ body +:+ String cl "") +:+ t = String op (body +:+ String cl t).
Proof. by rewrite <- !string_app_assoc. Qed.

(** What one value's encoding promises: it starts like a value, and the
    scanner reads it back. *)
Definition round_trips (v : pyval) : Prop :=
  forall s, json_wf fr v -> encode o v = inr s ->
  head_ok s /\ forall t n, num_stop t = true -> String.length (s +:+ t) < n ->
                           scan fr n (s +:+ t) = Ok v t.

Lemma round_trips_reads xs ss :
  Forall round_trips xs -> Forall (json_wf fr) xs ->
  Forall2 (fun x s => encode o x = inr s) xs ss ->
  forall n, Forall2 (reads (scan fr n) n) xs ss.
Proof.
  intros HP Hwf HF n. induction HF as [|x s xs ss Hx _ IH]; [constructor|].
  inversion HP as [|? ? Hp HP']; inversion Hwf as [|? ? Hw Hwf']; subst.
  destruct (Hp s Hw Hx) as [Hh Hs]. constructor; [|by apply IH].
  split; [done|]. intros t Ht Hl. by apply Hs.
Qed.

Lemma round_trips_members (kvs : dict) ss :
  Forall (fun kv => round_trips kv.2) kvs -> Forall (fun kv => json_wf fr kv.2) kvs ->
  Forall2 (fun kv s => (let '(k, x) := kv in
             match encode o x with
             | inl e => inl e
             | inr s => inr (encode_str (ensure_ascii o) k +:+ key_separator o +:+ s)
             end) = inr s) kvs ss ->
  forall n, Forall2 (reads_member o (scan fr n) n) kvs ss.
Proof.
  intros HP Hwf HF n. induction HF as [|[k x] s kvs ss Hx _ IH]; [constructor|].
  inversion HP as [|? ? Hp HP']; inversion Hwf as [|? ? Hw Hwf']; subst.
  destruct (encode o x) as [e|venc] eqn:Ev; [done|]. injection Hx as <-.
  destruct (Hp venc Hw Ev) as [Hh Hs]. constructor; [|by apply IH].
  exists venc. split; [done|]. split; [done|]. intros t Ht Hl. by apply Hs.
Qed.

Lemma num_stop_close c t : c = "]"%char \/ c = "}"%char -> num_stop (String c t) = true.
Proof. by intros [-> | ->]. Qed.

Lemma scan_encode v : round_trips v.
Proof.
  induction v as [| b | z | r | str | xs IH | kvs IH] using pyval_ind';
    intros s Hwf Henc; simpl in Henc.
  - injection Henc as <-. split; [by apply head_ok_char; right; right; right; right; right; left|].
    intros t [|n] _ Hl; [lia|]. done.
  - injection Henc as <-. destruct b.
    + split; [by apply head_ok_char; do 6 right; left|]. intros t [|n] _ Hl; [lia|]. done.
    + split; [by apply head_ok_char; do 7 right; left|]. intros t [|n] _ Hl; [lia|]. done.
  - injection Henc as <-. pose proof (lex_number_str_int z) as Hlex.
    split.
    + destruct (lex_number_head _ _ _ _ Hlex) as [(c & u & -> & Hd)|(d & u & -> & _)];
        apply head_ok_char; auto 10.
    + intros t [|n] Ht Hl; [lia|].
      by rewrite (scan_number_lit fr n _ t false Hlex Ht), int_of_lit_str_int.
  - inversion Hwf as [| | |? Hf| | |]; subst.
    unfold encode_float in Henc.
    destruct Hf as [->|[->|[->|[Hlex Hfr]]]].
    + destruct (allow_nan o); [|done]. injection Henc as <-.
      split; [by apply head_ok_char; do 8 right; left|]. intros t [|n] _ Hl; [lia|]. done.
    + destruct (allow_nan o); [|done]. injection Henc as <-.
      split; [by apply head_ok_char; do 9 right|]. intros t [|n] _ Hl; [lia|]. done.
    + destruct (allow_nan o); [|done]. injection Henc as <-.
      split; [by apply head_ok_char; do 3 right; left|]. intros t [|n] _ Hl; [lia|]. done.
    + assert (Hs : s = r).
      { destruct (String.eqb_spec r "nan") as [->|_]; [done|].
        destruct (String.eqb_spec r "inf") as [->|_]; [done|].
        destruct (String.eqb_spec r "-inf") as [->|_]; [done|]. by injection Henc. }
      subst s. split.
      * destruct (lex_number_head _ _ _ _ Hlex) as [(c & u & -> & Hd)|(d & u & -> & _)];
          apply head_ok_char; auto 10.
      * intros t [|n] Ht Hl; [lia|]. by rewrite (scan_number_lit fr n _ t true Hlex Ht), Hfr.
  - injection Henc as <-. split; [by unfold encode_str; apply head_ok_char; left|].
    intros t [|n] _ Hl; [lia|]. apply scan_encode_str.
  - inversion Hwf as [| | | | |? Hxs|]; subst.
    destruct (map_sum (encode o) xs) as [e|ss] eqn:Hm; [done|]. injection Henc as <-.
    apply map_sum_inr in Hm.
    split; [by apply head_ok_char; right; left|].
    intros t [|n] Ht Hl; [lia|]. rewrite wrap_app, scan_bracket. cbv zeta.
    rewrite wrap_app in Hl. simpl in Hl.
    destruct ss as [|s1 ss].
    + inversion Hm; subst. done.
    + pose proof (round_trips_reads _ _ IH Hxs Hm n) as Hr.
      assert (Hh : head_ok (String.concat (item_separator o) (s1 :: ss))).
      { apply head_ok_concat. by inversion Hr as [|x ? xs' ? [Hh1 _]]. }
      rewrite head_ok_skip, head_ok_starts by auto.
      by rewrite (scan_items_encode o Hseps (scan fr n) n xs); [|done|done|lia..].
  - inversion Hwf as [| | | | | |? Hnd Hkvs]; subst.
    destruct (map_sum _ kvs) as [e|ss] eqn:Hm; [done|]. injection Henc as <-.
    apply map_sum_inr in Hm.
    split; [by apply head_ok_char; right; right; left|].
    intros t [|n] Ht Hl; [lia|]. rewrite wrap_app, scan_brace. cbv zeta.
    rewrite wrap_app in Hl. simpl in Hl.
    destruct ss as [|s1 ss].
    + inversion Hm; subst. done.
    + pose proof (round_trips_members _ _ IH Hkvs Hm n) as Hr.
      assert (Hh : head_ok (String.concat (item_separator o) (s1 :: ss))).
      { apply head_ok_concat. inversion Hr as [|kv ? kvs' ? (venc & -> & _)]; subst.
        rewrite encode_str_app. by apply head_ok_char; left. }
      rewrite head_ok_skip, head_ok_starts by auto.
      rewrite (scan_members_encode o Hseps (scan fr n) n kvs); [|done|done|lia..].
      simpl. by rewrite dict_of_pairs_nodup.
Qed.
End Roundtrip.

Lemma seps_ok_defaults : seps_ok dumps_defaults.
Proof. exists "", " ", "", " ". by split_and!. Qed.

Lemma seps_ok_httpx : seps_ok httpx_opts.
Proof. exists "", "", "", "". by split_and!. Qed.

(** What [json.dumps] writes, [json.loads] reads back: for
    separators made of a comma and a colon with whitespace around them,
    and a value whose dicts have distinct keys and whose floats are
    written as their own [repr], decoding the encoding gives the value. *)
Theorem loads_encode o fr v s :
  seps_ok o -> json_wf fr v -> encode o v = inr s -> loads fr s = inr v.
Proof.
  intros Hseps Hwf Henc. destruct (scan_encode o Hseps fr v s Hwf Henc) as [Hh Hs].
  unfold loads, decode. rewrite head_ok_skip_nil by done.
  pose proof (Hs "" (S (String.length s)) eq_refl) as H. rewrite string_app_nil_r in H.
  rewrite H by lia. done.
Qed.

(** ** Witness: a receipt as the model writes it *)
Definition receipt_json : pyval :=
  PDict [("Date", PStr "2024-01-05"); ("Total Amount", PFloat "12.5"); ("Items", PInt 3);
         ("Vendor Name", PStr ("Caf" +:+ String "233" "")); ("Paid", PBool true);
         ("Tax Amount", PNone); ("Lines", PList [PStr "a,b"; PFloat "-1e-07"])].

Lemma loads_encode_witness :
  loads (fun r => r) (match encode dumps_defaults receipt_json with inr s => s | inl _ => "" end)
  = inr receipt_json.
Proof.
  apply (loads_encode dumps_defaults).
  - apply seps_ok_defaults.
  - unfold receipt_json. json_wf_solve.
  - vm_compute. reflexivity.
Defined.

End JsonRoundtrip.
