(* ===== verification/Os.v ===== *)
(** * The process environment: standard output, the file system, and the
      trace of calls to external services

    Every function of the scanner runs in the monad [Py] over a [world]:
    the lines printed so far ([print]), the file system ([fs], a map from
    path to a regular file's contents or a directory), and the trace of
    calls made to the external collaborators (OCR engine, PDF rasterizer,
    HTTP endpoint), so that the number and order of those calls can be
    stated.  The file-system primitives are [os.makedirs(p, exist_ok=True)],
    [os.listdir], [os.path.join], [os.path.isfile], and the append-mode
    [open] with [f.tell()] and [f.write] that [save_to_csv] performs.

    The order in which [os.listdir] returns names is not specified by
    Python; the class [Listing] states only that it is a permutation of
    the directory's entries, and every theorem is proved for any
    instance. *)

From S2P Require Import Prelude PyStr PyValue.

Module Os.
Import PyValue.

Inductive entry := RegFile (contents : string) | Dir.

#[export] Instance entry_eq_dec : EqDecision entry.
Proof. solve_decision. Qed.

(** Calls to the external collaborators, in the order they are made. *)
Inductive event :=
  | EvConvertFromPath (path : string)
  | EvImageOpen (path : string)
  | EvImageToString
  | EvPost (url : string) (body : pyval).

Definition is_post (ev : event) : bool :=
  match ev with EvPost _ _ => true | _ => false end.

(** The number of requests sent to the endpoint in a trace. *)
Definition posts (tr : list event) : nat := length (filter is_post tr).

Lemma posts_app tr1 tr2 : posts (tr1 ++ tr2) = posts tr1 + posts tr2.
Proof. unfold posts. by rewrite filter_app, length_app. Qed.

Lemma posts_none evs : Forall (fun ev => is_post ev = false) evs -> posts evs = 0.
Proof.
  induction 1 as [|ev evs Hev _ IH]; [done|].
  unfold posts in *. rewrite filter_cons_False; [done|]. rewrite Hev. simpl. tauto.
Qed.

Record world := World {
  stdout : list string;
  fs : gmap string entry;
  trace : list event
}.

Abbreviation Py := (EST world exn).

Definition set_stdout (o : list string) (w : world) : world :=
  World o (fs w) (trace w).
Definition set_fs (m : gmap string entry) (w : world) : world :=
  World (stdout w) m (trace w).
Definition log_event (ev : event) (w : world) : world :=
  World (stdout w) (fs w) (trace w ++ [ev]).

(** [print(line)] *)
Definition print (line : string) : Py unit :=
  modify (fun w => set_stdout (stdout w ++ [line]) w).

(** An external call: record it in the trace, then return its result
    (which may be a raised exception). *)
Definition external {A} (ev : event) (r : exn + A) : Py A :=
  fun w => (log_event ev w, r).

(** [os.makedirs(path, exist_ok=True)] for a path whose parent exists:
    an existing directory is accepted, an existing regular file raises
    [FileExistsError]. *)
Definition makedirs_exist_ok (path : string) : Py unit :=
  fun w => match fs w !! path with
  | Some Dir => (w, inr ())
  | Some (RegFile _) =>
      (w, inl (Exn FileExistsError ("[Errno 17] File exists: " +:+ repr_str path)))
  | None => (set_fs (<[path := Dir]> (fs w)) w, inr ())
  end.

(** [os.path.join(dir, name)] for a [dir] not ending in a separator. *)
Definition path_join (dir name : string) : string := dir +:+ "/" +:+ name.

(** The names of the entries directly inside [dir] (in the map's order). *)
Definition dir_names (m : gmap string entry) (dir : string) : list string :=
  omap (fun '(p, _) =>
          match String.index 0 (dir +:+ "/") p with
          | Some 0 =>
              let name := String.substring (S (String.length dir))
                            (String.length p) p in
              if bool_decide (name <> "") && negb (PyStr.mem "/"%char name)
              then Some name else None
          | _ => None
          end) (map_to_list m).

(** [os.listdir]: some permutation of the directory's entries. *)
Class Listing := {
  listdir : gmap string entry -> string -> list string;
  listdir_perm : forall m dir, listdir m dir ≡ₚ dir_names m dir
}.

(** [os.path.isfile(path)] *)
Definition isfile (m : gmap string entry) (path : string) : bool :=
  match m !! path with Some (RegFile _) => true | _ => false end.

(** [open(path, "a")] followed by [f.tell()]: the contents the file has
    when opened (a missing file is created empty), whose length is the
    position [tell] returns; a directory raises [IsADirectoryError]. *)
Definition open_append (path : string) : Py string :=
  fun w => match fs w !! path with
  | Some Dir => (w, inl (Exn OSError ("[Errno 21] Is a directory: " +:+ repr_str path)))
  | Some (RegFile c) => (w, inr c)
  | None => (set_fs (<[path := RegFile ""]> (fs w)) w, inr "")
  end.

(** [f.write(data)] on a file opened for appending. *)
Definition write_append (path data : string) : Py unit :=
  modify (fun w =>
    let old := match fs w !! path with Some (RegFile c) => c | _ => "" end in
    set_fs (<[path := RegFile (old +:+ data)]> (fs w)) w).

(** The contents of a regular file, [""] when there is none. *)
Definition contents (w : world) (path : string) : string :=
  match fs w !! path with Some (RegFile c) => c | _ => "" end.

End Os.
