(* ===== verification/Extractor.v ===== *)
(** * Text Extractor: [extract_text_from_file]
      (src/receiptscanner/local_receipt_parser_dual_ai.py, lines 31-44)

    The function chooses a branch on the file's extension, computed as
    [file_path.lower().split('.')[-1]].  For ["pdf"] it rasterizes the
    document ([convert_from_path]) and appends the OCR text of each page
    followed by a newline to the local [text]; otherwise it opens the
    file as one image ([Image.open]) and OCRs it.  Any exception is
    caught, printed as ["OCR error on <path>: <e>"], and the function
    returns [text.strip()] -- where [text] is whatever the [try] block
    had assigned when the exception was raised.

    The OCR engine and the rasterizer are external collaborators: the
    class [Ocr] gives their results (a value or a raised exception) and
    the model records each call in the world's trace. *)

From S2P Require Import Prelude PyStr PyValue Os.

Module Extractor.
Import PyStr PyValue Os.
Local Open Scope py_scope.

(** [pdf2image.convert_from_path], [PIL.Image.open] and
    [pytesseract.image_to_string]. *)
Class Ocr := {
  image : Type;
  convert_from_path : string -> exn + list image;
  image_open : string -> exn + image;
  image_to_string : image -> exn + string
}.

Section Extract.
Context {ocr : Ocr}.

(** [ext = file_path.lower().split('.')[-1]] *)
Definition ext_of (file_path : string) : string :=
  match last (split "."%char (lower file_path)) with Some e => e | None => "" end.

Definition call_convert (path : string) : Py (list image) :=
  external (EvConvertFromPath path) (convert_from_path path).
Definition call_open (path : string) : Py image :=
  external (EvImageOpen path) (image_open path).
Definition call_ocr (img : image) : Py string :=
  external EvImageToString (image_to_string img).

(** The body of the [try] block, in a frame holding the local [text]:
    [for img in images: text += pytesseract.image_to_string(img) + '\n'],
    or [text = pytesseract.image_to_string(img)] for an image. *)
Definition pdf_page (img : image) : EST (world * string) exn unit :=
  let* t := in_frame (call_ocr img) in
  let* text := get_local in
  set_local (text +:+ t +:+ newline).

Definition pdf_pages (images : list image) : EST (world * string) exn unit :=
  for_each images pdf_page.

Definition extract_try (file_path : string) : EST (world * string) exn unit :=
  if String.eqb (ext_of file_path) "pdf" then
    let* images := in_frame (call_convert file_path) in
    pdf_pages images
  else
    let* img := in_frame (call_open file_path) in
    let* t := in_frame (call_ocr img) in
    set_local t.

(** [f"OCR error on {file_path}: {e}"] *)
Definition ocr_error_line (file_path : string) (e : exn) : string :=
  "OCR error on " +:+ file_path +:+ ": " +:+ exn_msg e.

Definition extract_text_from_file (file_path : string) : Py string :=
  let* r := with_frame "" (try_except (extract_try file_path) (fun e =>
              in_frame (print (ocr_error_line file_path e)))) in
  ret (strip r.2).

(** ** Reference functions used in the statements *)

(** The texts of the pages OCR'd successfully before the first failing
    page, and that page's exception. *)
Fixpoint ocr_prefix (images : list image) : list string * option exn :=
  match images with
  | [] => ([], None)
  | img :: rest =>
      match image_to_string img with
      | inl e => ([], Some e)
      | inr t => let '(ts, err) := ocr_prefix rest in (t :: ts, err)
      end
  end.

(** The text the loop accumulates from the page texts [ts]. *)
Definition pages_text (ts : list string) : string :=
  foldl (fun acc t => acc +:+ t +:+ newline) "" ts.

Definition log_events (evs : list event) (w : world) : world :=
  World (stdout w) (fs w) (trace w ++ evs).

(** The world after the handler printed the exception, if there was one. *)
Definition after_error (file_path : string) (err : option exn) (w : world) : world :=
  match err with
  | None => w
  | Some e => set_stdout (stdout w ++ [ocr_error_line file_path e]) w
  end.

(** The text a file yields, from the collaborators' results alone. *)
Definition ocr_text (p : string) : string :=
  if String.eqb (ext_of p) "pdf" then
    match convert_from_path p with
    | inl _ => ""
    | inr images => strip (pages_text (ocr_prefix images).1)
    end
  else
    match image_open p with
    | inl _ => ""
    | inr img => match image_to_string img with inl _ => "" | inr t => strip t end
    end.

(** The exception the handler prints for a file, if any, from the
    collaborators' results alone. *)
Definition ocr_error (p : string) : option exn :=
  if String.eqb (ext_of p) "pdf" then
    match convert_from_path p with
    | inl e => Some e
    | inr images => (ocr_prefix images).2
    end
  else
    match image_open p with
    | inl e => Some e
    | inr img => match image_to_string img with inl e => Some e | inr _ => None end
    end.

(** The lines [extract_text_from_file] prints for a file. *)
Definition ocr_lines (p : string) : list string :=
  match ocr_error p with Some e => [ocr_error_line p e] | None => [] end.

Definition ocr_calls (images : list image) : nat :=
  match ocr_prefix images with (ts, None) => length ts | (ts, Some _) => S (length ts) end.

(** ** Lemmas *)

Lemma log_events_app l1 l2 w : log_events l1 (log_events l2 w) = log_events (l2 ++ l1) w.
Proof. unfold log_events. simpl. by rewrite app_assoc. Qed.

Lemma log_event_events ev w : log_event ev w = log_events [ev] w.
Proof. done. Qed.

Lemma log_events_nil w : log_events [] w = w.
Proof. destruct w. unfold log_events. simpl. by rewrite app_nil_r. Qed.

Lemma pdf_page_spec img w text :
  pdf_page img (w, text) =
    match image_to_string img with
    | inl e => ((log_event EvImageToString w, text), inl e)
    | inr t => ((log_event EvImageToString w, text +:+ t +:+ newline), inr ())
    end.
Proof. unfold pdf_page, call_ocr, external. py_unfold. simpl. by destruct (image_to_string img). Qed.

(** The page loop: it OCRs the pages up to the first failing one and
    appends each text with a newline to [text]. *)
Lemma pdf_pages_spec images w text :
  pdf_pages images (w, text) =
    ((log_events (replicate (ocr_calls images) EvImageToString) w,
      foldl (fun acc t => acc +:+ t +:+ newline) text (ocr_prefix images).1),
     match (ocr_prefix images).2 with None => inr () | Some e => inl e end).
Proof.
  revert w text. induction images as [|img rest IH]; intros w text.
  - simpl. unfold ocr_calls. simpl. by rewrite log_events_nil.
  - unfold pdf_pages. simpl. unfold bind at 1. rewrite pdf_page_spec.
    unfold ocr_calls. simpl.
    destruct (image_to_string img) as [e|t]; [done|].
    fold (pdf_pages rest). rewrite IH. unfold ocr_calls.
    destruct (ocr_prefix rest) as [ts [e|]]; simpl;
      by rewrite log_event_events, log_events_app.
Qed.

Lemma ext_of_nosep p : mem "."%char (lower p) = false -> ext_of p = lower p.
Proof. intros H. unfold ext_of. by rewrite split_nomem. Qed.

Lemma ext_of_sep p pre post :
  lower p = pre +:+ String "."%char post -> mem "."%char post = false -> ext_of p = post.
Proof.
  intros Hp Hm. unfold ext_of. rewrite Hp, split_app_sep, last_app, split_nomem by done.
  done.
Qed.

(** ** Functional behaviour of [extract_text_from_file] *)

Lemma extract_pdf_eq p images w :
  ext_of p = "pdf" -> convert_from_path p = inr images ->
  extract_text_from_file p w =
    (after_error p (ocr_prefix images).2
       (log_events (EvConvertFromPath p :: replicate (ocr_calls images) EvImageToString) w),
     inr (strip (pages_text (ocr_prefix images).1))).
Proof.
  intros Hext Hconv. unfold extract_text_from_file, extract_try.
  rewrite Hext. simpl. unfold call_convert, external. py_unfold. simpl.
  rewrite Hconv, pdf_pages_spec, log_event_events, log_events_app. unfold pages_text.
  by destruct (ocr_prefix images) as [ts [e|]].
Qed.

(** A PDF that cannot be rasterized yields [""] and prints the error. *)
Lemma extract_convert_error p e w :
  ext_of p = "pdf" -> convert_from_path p = inl e ->
  extract_text_from_file p w =
    (after_error p (Some e) (log_events [EvConvertFromPath p] w), inr "").
Proof.
  intros Hext Hconv. unfold extract_text_from_file, extract_try.
  rewrite Hext. simpl. unfold call_convert, external. py_unfold. simpl.
  by rewrite Hconv.
Qed.

Lemma extract_image_eq p w :
  ext_of p <> "pdf" ->
  extract_text_from_file p w =
    match image_open p with
    | inl e => (after_error p (Some e) (log_events [EvImageOpen p] w), inr "")
    | inr img =>
        match image_to_string img with
        | inl e => (after_error p (Some e)
                      (log_events [EvImageOpen p; EvImageToString] w), inr "")
        | inr t => (log_events [EvImageOpen p; EvImageToString] w, inr (strip t))
        end
    end.
Proof.
  intros Hext. unfold extract_text_from_file, extract_try.
  destruct (String.eqb_spec (ext_of p) "pdf") as [|_]; [done|].
  unfold call_open, call_ocr, external. py_unfold. simpl.
  destruct (image_open p) as [e|img]; [done|]. simpl.
  rewrite !log_event_events, log_events_app.
  by destruct (image_to_string img).
Qed.

(** Claim C9: for a PDF whose pages rasterize, the pages
    are OCR'd in order until the first failure; the result is the strip of
    the successful pages' texts each followed by a newline, the error (if
    any) is printed, and the trace is one rasterization followed by one
    OCR call per page attempted. *)
Theorem extract_pdf_spec p images w :
  ext_of p = "pdf" -> convert_from_path p = inr images ->
  extract_text_from_file p w =
    (after_error p (ocr_prefix images).2
       (log_events (EvConvertFromPath p :: replicate (ocr_calls images) EvImageToString) w),
     inr (strip (pages_text (ocr_prefix images).1))).
Proof. apply extract_pdf_eq. Qed.

(** Claim C10: any other file is opened and OCR'd as a
    single image; a failure of either call prints the error and yields
    [""], success yields the stripped OCR text. *)
Theorem extract_image_spec p w :
  ext_of p <> "pdf" ->
  extract_text_from_file p w =
    match image_open p with
    | inl e => (after_error p (Some e) (log_events [EvImageOpen p] w), inr "")
    | inr img =>
        match image_to_string img with
        | inl e => (after_error p (Some e)
                      (log_events [EvImageOpen p; EvImageToString] w), inr "")
        | inr t => (log_events [EvImageOpen p; EvImageToString] w, inr (strip t))
        end
    end.
Proof. apply extract_image_eq. Qed.

(** Claim C5: when a page of a PDF fails to OCR, the
    function does not return empty text: it returns the strip of the
    pages read before the failure (and prints the error). *)
Theorem extract_pdf_error_keeps_pages p images ts e w :
  ext_of p = "pdf" -> convert_from_path p = inr images ->
  ocr_prefix images = (ts, Some e) ->
  exists w', extract_text_from_file p w = (w', inr (strip (pages_text ts))) /\
             stdout w' = stdout w ++ [ocr_error_line p e].
Proof.
  intros Hext Hconv Hpre. rewrite (extract_pdf_eq p images w Hext Hconv), Hpre.
  by eexists.
Qed.

(** Claim C11: [extract_text_from_file] never raises; its
    result neither starts nor ends with whitespace; it leaves the file
    system unchanged and prints at most the one error line. *)
Theorem extract_total p w :
  exists w' t, extract_text_from_file p w = (w', inr t) /\
    stripped t = true /\ fs w' = fs w /\
    (stdout w' = stdout w \/ exists e, stdout w' = stdout w ++ [ocr_error_line p e]).
Proof.
  assert (Hs : forall s, stripped (strip s) = true).
  { intros s. by destruct (strip_decomp s) as (? & ? & _ & _ & _ & ?). }
  assert (Ha : forall err l, fs (after_error p err (log_events l w)) = fs w /\
     (stdout (after_error p err (log_events l w)) = stdout w \/
      exists e, stdout (after_error p err (log_events l w)) = stdout w ++ [ocr_error_line p e])).
  { intros [e|] l; simpl; [|by auto]. split; [done|]. right. by exists e. }
  destruct (String.eqb_spec (ext_of p) "pdf") as [Hext|Hext].
  - destruct (convert_from_path p) as [e|images] eqn:Hconv.
    + rewrite (extract_convert_error p e w Hext Hconv).
      eexists _, _. split; [done|]. split; [done|]. apply Ha.
    + rewrite (extract_pdf_eq p images w Hext Hconv).
      eexists _, _. split; [done|]. split; [apply Hs|]. apply Ha.
  - rewrite (extract_image_eq p w Hext).
    destruct (image_open p) as [e|img]; [|destruct (image_to_string img) as [e|t]];
      (eexists _, _; split; [done|]); (split; [first [apply Hs | done]|]);
      first [apply Ha | split; [done | by left]].
Qed.

Lemma trace_after_error p err evs w :
  trace (after_error p err (log_events evs w)) = trace w ++ evs.
Proof. by destruct err. Qed.

Lemma stdout_after_error p err evs w :
  stdout (after_error p err (log_events evs w)) =
    stdout w ++ match err with Some e => [ocr_error_line p e] | None => [] end.
Proof. destruct err; simpl; [done | by rewrite app_nil_r]. Qed.

(** The value of [extract_text_from_file], and its effects: the file
    system is unchanged, the trace grows by OCR calls only, and the lines
    printed are [ocr_lines]: the OCR error line, if there was an error. *)
Lemma extract_value p w :
  exists w' evs, extract_text_from_file p w = (w', inr (ocr_text p)) /\ fs w' = fs w /\
    trace w' = trace w ++ evs /\ Forall (fun ev => is_post ev = false) evs /\
    stdout w' = stdout w ++ ocr_lines p.
Proof.
  unfold ocr_text, ocr_lines, ocr_error. destruct (String.eqb_spec (ext_of p) "pdf") as [Hext|Hext].
  - destruct (convert_from_path p) as [e|images] eqn:Hconv.
    + rewrite (extract_convert_error p e w Hext Hconv).
      eexists _, _. split; [done|]. split; [done|].
      split; [apply trace_after_error|]. split; [by repeat constructor|].
      apply stdout_after_error.
    + rewrite (extract_pdf_eq p images w Hext Hconv). eexists _, _.
      split; [done|]. split; [by destruct (ocr_prefix images).2|].
      split; [apply trace_after_error|].
      split; [constructor; [done|]; apply Forall_replicate; done|].
      apply stdout_after_error.
  - rewrite (extract_image_eq p w Hext).
    destruct (image_open p) as [e|img]; [|destruct (image_to_string img) as [e|t]];
      (eexists _, _; split; [done|]; split; [done|]);
      (split; [first [apply trace_after_error | done]|]); (split; [by repeat constructor|]);
      first [apply stdout_after_error | by rewrite app_nil_r].
Qed.

(** Claim C17: the PDF branch is taken exactly when the
    lower-cased path ends in [".pdf"], or is ["pdf"] itself (a path with
    no dot is its own last piece). *)
Theorem ext_of_pdf_iff p :
  ext_of p = "pdf" <-> lower p = "pdf" \/ exists pre, lower p = pre +:+ ".pdf".
Proof.
  split.
  - destruct (mem "."%char (lower p)) eqn:Hm.
    + intros Hext. destruct (mem_last_decomp _ _ Hm) as (pre & post & Hp & Hpost).
      rewrite (ext_of_sep p pre post Hp Hpost) in Hext. subst post.
      right. by exists pre.
    + intros Hext. rewrite ext_of_nosep in Hext by done. by left.
  - intros [Hp | (pre & Hp)].
    + rewrite ext_of_nosep; [done|]. by rewrite Hp.
    + by apply (ext_of_sep p pre "pdf").
Qed.

End Extract.
(** ** Witnesses on a concrete OCR engine

    [toy_ocr]: an image is its text; the rasterizer knows one two-page
    PDF whose second page fails to OCR. *)
Module ToyOcr.
#[export] Instance toy_ocr : Ocr := {
  image := string;
  convert_from_path p :=
    if String.eqb p "./assets/r.pdf" then inr ["Page one "; "BAD"]
    else inl (Exn OSError "Unable to get page count.");
  image_open p :=
    if String.eqb p "./assets/a.jpg" then inr "  Total: $12.50  "
    else inl (Exn OSError "cannot identify image file");
  image_to_string i :=
    if String.eqb i "BAD" then inl (Exn ValueError "tesseract failed") else inr i
}.
Definition w0 : world := World [] ∅ [].
End ToyOcr.
Import ToyOcr.

Lemma extract_pdf_spec_witness :
  extract_text_from_file "./assets/r.pdf" w0 =
    (after_error "./assets/r.pdf" (Some (Exn ValueError "tesseract failed"))
       (log_events [EvConvertFromPath "./assets/r.pdf"; EvImageToString; EvImageToString] w0),
     inr "Page one").
Proof. by rewrite (@extract_pdf_spec toy_ocr "./assets/r.pdf" ["Page one "; "BAD"] w0). Defined.

Lemma extract_image_spec_witness :
  extract_text_from_file "./assets/a.jpg" w0 =
    (log_events [EvImageOpen "./assets/a.jpg"; EvImageToString] w0, inr "Total: $12.50").
Proof. by rewrite (@extract_image_spec toy_ocr "./assets/a.jpg" w0). Defined.

Lemma extract_pdf_error_keeps_pages_witness :
  exists w', extract_text_from_file "./assets/r.pdf" w0 = (w', inr "Page one") /\
             stdout w' = [ocr_error_line "./assets/r.pdf" (Exn ValueError "tesseract failed")].
Proof.
  exact (@extract_pdf_error_keeps_pages toy_ocr "./assets/r.pdf" ["Page one "; "BAD"] ["Page one "]
           (Exn ValueError "tesseract failed") w0 eq_refl eq_refl eq_refl).
Defined.

End Extractor.
