(* ===== verification/Prompt.v ===== *)
(** * Prompt Builder: [PROMPT.format(receipt_text=text)]
      (src/receiptscanner/local_receipt_parser_dual_ai.py, lines 14-27 and 101)

    [PROMPT] is the module's template, written below verbatim (a Rocq
    string literal keeps the line breaks of the source's triple-quoted
    string).  [str_format] models CPython's [str.format] scanner for
    keyword arguments: literal text, the escapes ["{{"] and ["}}"],
    replacement fields ["{name}"], and the [ValueError]s for a lone brace.
    The value of a field is inserted as it is: it is never scanned again,
    so braces in the OCR text are harmless.  Conversions ([!r]), format
    specifications ([:spec]) and attribute or index access in a field
    name are not modelled: they raise a [ValueError] here (the scanner's
    template uses none of them). *)

From S2P Require Import Prelude PyStr PyValue.

Module Prompt.
Import PyStr PyValue.

Definition PROMPT : string := "
Extract the following fields from this receipt:
- Date
- Total Amount
- Tax Amount
- Payment Method
- Vendor Name
- Receipt Number (if available)

Make sure your response is valid JSON with these keys.

Receipt Text:
{receipt_text}
".

Definition LBRACE : ascii := "{"%char.
Definition RBRACE : ascii := "}"%char.

(** Characters that would make a field more than a plain name. *)
Definition field_special (c : ascii) : bool :=
  bool_decide (c = "!"%char) || bool_decide (c = ":"%char) ||
  bool_decide (c = "."%char) || bool_decide (c = "["%char).

Fixpoint has_special (s : string) : bool :=
  match s with "" => false | String c t => field_special c || has_special t end.

(** The value of the replacement field [name]. *)
Definition render_field (kwargs : list (string * string)) (name : string) : exn + string :=
  if String.eqb name "" then
    inl (Exn IndexError "Replacement index 0 out of range for positional args tuple")
  else if has_special name then
    inl (Exn ValueError "replacement field not modelled")
  else match list_find (fun kv => kv.1 = name) kwargs with
       | Some (_, (_, v)) => inr v
       | None => inl (Exn KeyError (repr_str name))
       end.

Definition cons_ok (c : ascii) (r : exn + string) : exn + string :=
  match r with inl e => inl e | inr s => inr (String c s) end.

(** The scanner: [field] is [None] in literal text and [Some name] while
    reading the name of a replacement field. *)
Fixpoint format_go (kwargs : list (string * string)) (field : option string)
    (s : string) : exn + string :=
  match field with
  | Some name =>
      match s with
      | "" => inl (Exn ValueError "expected '}' before end of string")
      | String c t =>
          if ascii_dec c RBRACE then
            match render_field kwargs name, format_go kwargs None t with
            | inr v, inr r => inr (v +:+ r)
            | inl e, _ | _, inl e => inl e
            end
          else if ascii_dec c LBRACE then
            inl (Exn ValueError "unexpected '{' in field name")
          else format_go kwargs (Some (name +:+ String c "")) t
      end
  | None =>
      match s with
      | "" => inr ""
      | String c t =>
          if ascii_dec c LBRACE then
            match t with
            | String d t' =>
                if ascii_dec d LBRACE then cons_ok LBRACE (format_go kwargs None t')
                else format_go kwargs (Some "") t
            | "" => inl (Exn ValueError "Single '{' encountered in format string")
            end
          else if ascii_dec c RBRACE then
            match t with
            | String d t' =>
                if ascii_dec d RBRACE then cons_ok RBRACE (format_go kwargs None t')
                else inl (Exn ValueError "Single '}' encountered in format string")
            | "" => inl (Exn ValueError "Single '}' encountered in format string")
            end
          else cons_ok c (format_go kwargs None t)
      end
  end.

(** The template up to its one replacement field: [PROMPT] is
    [PROMPT_HEAD ++ "{receipt_text}" ++ "\n"] ([PROMPT_split] below). *)
Definition PROMPT_HEAD : string := "
Extract the following fields from this receipt:
- Date
- Total Amount
- Tax Amount
- Payment Method
- Vendor Name
- Receipt Number (if available)

Make sure your response is valid JSON with these keys.

Receipt Text:
".

(** [template.format(k1=v1, ...)] for the keyword arguments [kwargs] *)
Definition str_format (template : string) (kwargs : list (string * string)) : exn + string :=
  format_go kwargs None template.

(** [prompt = PROMPT.format(receipt_text=text)] *)
Definition build_prompt (text : string) : exn + string :=
  str_format PROMPT [("receipt_text", text)].

(** ** Lemmas *)

Definition is_brace (c : ascii) : bool :=
  bool_decide (c = LBRACE) || bool_decide (c = RBRACE).

Fixpoint no_brace (s : string) : bool :=
  match s with "" => true | String c t => negb (is_brace c) && no_brace t end.

Definition prepend (s : string) (r : exn + string) : exn + string :=
  match r with inl e => inl e | inr x => inr (s +:+ x) end.

(** Brace-free literal text is copied to the output. *)
Lemma format_literal kw s r :
  no_brace s = true -> format_go kw None (s +:+ r) = prepend s (format_go kw None r).
Proof.
  induction s as [|c t IH]; simpl; intros Hs.
  - rewrite string_app_nil_l. by destruct (format_go kw None r).
  - apply andb_prop in Hs as [Hc Ht]. unfold is_brace in Hc.
    apply negb_true_iff, orb_false_elim in Hc as [Hl Hr].
    rewrite ?string_app_cons; simpl.
    destruct (ascii_dec c LBRACE) as [->|_]; [by rewrite bool_decide_eq_true_2 in Hl|].
    destruct (ascii_dec c RBRACE) as [->|_]; [by rewrite bool_decide_eq_true_2 in Hr|].
    rewrite IH by done. by destruct (format_go kw None r).
Qed.

(** Reading a brace-free field name. *)
Lemma format_field_name kw acc name r :
  no_brace name = true ->
  format_go kw (Some acc) (name +:+ r) = format_go kw (Some (acc +:+ name)) r.
Proof.
  revert acc. induction name as [|c t IH]; simpl; intros acc Hs.
  - by rewrite string_app_nil_r.
  - apply andb_prop in Hs as [Hc Ht]. unfold is_brace in Hc.
    apply negb_true_iff, orb_false_elim in Hc as [Hl Hr].
    rewrite ?string_app_cons; simpl.
    destruct (ascii_dec c RBRACE) as [->|_]; [by rewrite bool_decide_eq_true_2 in Hr|].
    destruct (ascii_dec c LBRACE) as [->|_]; [by rewrite bool_decide_eq_true_2 in Hl|].
    rewrite IH by done. by rewrite <- string_app_assoc.
Qed.

(** A replacement field [{name}] is replaced by its value. *)
Lemma format_field kw name r :
  name <> "" -> no_brace name = true ->
  format_go kw None (String LBRACE (name +:+ String RBRACE r)) =
    match render_field kw name, format_go kw None r with
    | inr v, inr x => inr (v +:+ x)
    | inl e, _ | _, inl e => inl e
    end.
Proof.
  intros Hne Hs. destruct name as [|c t]; [done|].
  simpl in Hs. apply andb_prop in Hs as [Hc Ht]. unfold is_brace in Hc.
  apply negb_true_iff, orb_false_elim in Hc as [Hl Hr].
  rewrite string_app_cons. simpl.
  destruct (ascii_dec c LBRACE) as [->|_]; [by rewrite bool_decide_eq_true_2 in Hl|].
  destruct (ascii_dec c RBRACE) as [->|_]; [by rewrite bool_decide_eq_true_2 in Hr|].
  rewrite string_app_nil_l, format_field_name by done. simpl.
  rewrite string_app_cons, string_app_nil_l.
  by destruct (render_field kw (String c t)), (format_go kw None r).
Qed.

Lemma PROMPT_split : PROMPT = PROMPT_HEAD +:+ "{receipt_text}" +:+ newline.
Proof. vm_compute. reflexivity. Qed.

(** ** Theorems *)

Lemma build_prompt_eq text :
  build_prompt text = inr (PROMPT_HEAD +:+ text +:+ newline).
Proof.
  unfold build_prompt, str_format. rewrite PROMPT_split.
  rewrite format_literal by (vm_compute; reflexivity).
  rewrite (format_field _ "receipt_text" newline) by (vm_compute; done).
  reflexivity.
Qed.

(** Claim C15: formatting the prompt never fails, whatever
    the OCR text (braces included), and yields the template's head, the
    text verbatim, and the template's final newline. *)
Theorem build_prompt_spec text :
  build_prompt text = inr (PROMPT_HEAD +:+ text +:+ newline).
Proof. apply build_prompt_eq. Qed.

(** Claim C16: distinct OCR texts give distinct prompts, so
    the text can be recovered from the prompt. *)
Theorem build_prompt_inj t1 t2 : build_prompt t1 = build_prompt t2 -> t1 = t2.
Proof.
  rewrite !build_prompt_eq. intros H.
  assert (H' : t1 +:+ newline = t2 +:+ newline).
  { apply (inj (String.append PROMPT_HEAD)). congruence. }
  by apply string_app_inv_r in H'.
Qed.

Lemma build_prompt_inj_witness :
  build_prompt "Total: {x}" = build_prompt "Total: {x}" /\ "Total: {x}" = "Total: {x}".
Proof. split; [reflexivity | apply build_prompt_inj; reflexivity]. Defined.

End Prompt.
