(* ===== verification/Client.v ===== *)
(** * Completion Client: [ask_openrouter]
      (src/receiptscanner/local_receipt_parser_dual_ai.py, lines 46-69)

    One HTTPS POST to the chat-completion endpoint with four headers and a
    JSON body naming the model and carrying the prompt as the single user
    message.  A status other than 200 prints the status and body and
    returns [{}]; otherwise the body is decoded, the path
    [result['choices'][0]['message']['content']] is followed, and the
    content is decoded again as JSON.  Every exception raised on the way
    (transport, decoding, a missing key, a wrong type) is caught, printed
    as ["[OpenRouter Gemini] Error: <e>"], and [{}] is returned.

    The HTTP client ([httpx.post]) and the JSON decoder ([json.loads],
    also behind [response.json()]) are external: the classes [Http] and
    [JsonDecoder] give their results.  The bearer credential is the
    section variable [OPENROUTER_API_KEY]: its value, a literal of the
    source, plays no part in the theorems. *)

From S2P Require Import Prelude PyStr PyValue Os.

Module Client.
Import PyStr PyValue Os.
Local Open Scope py_scope.

Record response := Response { status_code : Z; text : string }.

(** [httpx.post(url, headers=headers, json=data)] *)
Class Http := {
  post : string -> dict -> pyval -> exn + response
}.

(** [json.loads(s)] on a [str]. *)
Class JsonDecoder := {
  loads : string -> exn + pyval
}.

Section Ask.
Context {http : Http} {json : JsonDecoder}.
Variable OPENROUTER_API_KEY : string.

Definition URL : string := "https://openrouter.ai/api/v1/chat/completions".

Definition headers : dict :=
  [("Authorization", PStr ("Bearer " +:+ OPENROUTER_API_KEY));
   ("Content-Type", PStr "application/json");
   ("HTTP-Referer", PStr "https://maserat.ca");
   ("X-Title", PStr "ReceiptParser")].

Definition request_data (prompt : string) : pyval :=
  PDict [("model", PStr "mistralai/mixtral-8x7b");
         ("messages", PList [PDict [("role", PStr "user"); ("content", PStr prompt)]])].

(** [json.loads(v)] on any value: only a [str] is accepted here. *)
Definition json_loads (v : pyval) : exn + pyval :=
  match v with
  | PStr s => loads s
  | _ => type_error ("the JSON object must be str, bytes or bytearray, not " +:+ type_name v)
  end.

(** [print("[OpenRouter Gemini] API error:", response.status_code, response.text)] *)
Definition api_error_line (r : response) : string :=
  "[OpenRouter Gemini] API error: " +:+ str_int (status_code r) +:+ " " +:+ text r.

(** [f"[OpenRouter Gemini] Error: {e}"] *)
Definition error_line (e : exn) : string := "[OpenRouter Gemini] Error: " +:+ exn_msg e.

Definition ask_try (prompt : string) : Py pyval :=
  let data := request_data prompt in
  let* response := external (EvPost URL data) (post URL headers data) in
  if negb (Z.eqb (status_code response) 200) then
    print (api_error_line response) ;;
    ret (PDict [])
  else
    let* result := lift_sum (loads (text response)) in
    let* choices := lift_sum (getitem result (PStr "choices")) in
    let* first := lift_sum (getitem choices (PInt 0)) in
    let* message := lift_sum (getitem first (PStr "message")) in
    let* content := lift_sum (getitem message (PStr "content")) in
    lift_sum (json_loads content).

Definition ask_openrouter (prompt : string) : Py pyval :=
  try_except (ask_try prompt) (fun e =>
    print (error_line e) ;;
    ret (PDict [])).

(** ** Reference function used in the statements *)

(** The decoded content of a 200 response, or the first exception. *)
Definition decode_response (body : string) : exn + pyval :=
  match loads body with
  | inl e => inl e
  | inr result =>
      match getitem result (PStr "choices") with
      | inl e => inl e
      | inr choices =>
          match getitem choices (PInt 0) with
          | inl e => inl e
          | inr first =>
              match getitem first (PStr "message") with
              | inl e => inl e
              | inr message =>
                  match getitem message (PStr "content") with
                  | inl e => inl e
                  | inr content => json_loads content
                  end
              end
          end
      end
  end.

(** The value [ask_openrouter] returns, from the collaborators' results. *)
Definition completion (prompt : string) : pyval :=
  match post URL headers (request_data prompt) with
  | inl _ => PDict []
  | inr r =>
      if Z.eqb (status_code r) 200 then
        match decode_response (text r) with inl _ => PDict [] | inr v => v end
      else PDict []
  end.

(** The lines [ask_openrouter] prints, from the collaborators' results. *)
Definition client_lines (prompt : string) : list string :=
  match post URL headers (request_data prompt) with
  | inl e => [error_line e]
  | inr r =>
      if Z.eqb (status_code r) 200 then
        match decode_response (text r) with inl e => [error_line e] | inr _ => [] end
      else [api_error_line r]
  end.

Definition with_line (line : string) (w : world) : world :=
  set_stdout (stdout w ++ [line]) w.

(** ** Theorems *)

Lemma ask_eq prompt w :
  ask_openrouter prompt w =
    let data := request_data prompt in
    let w1 := log_event (EvPost URL data) w in
    match post URL headers data with
    | inl e => (with_line (error_line e) w1, inr (PDict []))
    | inr r =>
        if Z.eqb (status_code r) 200 then
          match decode_response (text r) with
          | inl e => (with_line (error_line e) w1, inr (PDict []))
          | inr v => (w1, inr v)
          end
        else (with_line (api_error_line r) w1, inr (PDict []))
    end.
Proof.
  unfold ask_openrouter, ask_try, external, print, decode_response. py_unfold. simpl.
  destruct (post URL headers (request_data prompt)) as [e|r]; [done|].
  destruct (Z.eqb (status_code r) 200); simpl; [|done].
  destruct (loads (text r)) as [e|result]; [done|].
  destruct (getitem result (PStr "choices")) as [e|choices]; [done|].
  destruct (getitem choices (PInt 0)) as [e|first]; [done|].
  destruct (getitem first (PStr "message")) as [e|message]; [done|].
  destruct (getitem message (PStr "content")) as [e|content]; [done|].
  by destruct (json_loads content).
Qed.

(** Claim C4: the behaviour of [ask_openrouter] on every branch:
    one POST is made and recorded; a transport error or a failure to
    decode a 200 response prints the exception and returns [{}]; a
    non-200 status prints the status and body and returns [{}]; otherwise
    the decoded content is returned. *)
Theorem ask_spec prompt w :
  ask_openrouter prompt w =
    let data := request_data prompt in
    let w1 := log_event (EvPost URL data) w in
    match post URL headers data with
    | inl e => (with_line (error_line e) w1, inr (PDict []))
    | inr r =>
        if Z.eqb (status_code r) 200 then
          match decode_response (text r) with
          | inl e => (with_line (error_line e) w1, inr (PDict []))
          | inr v => (w1, inr v)
          end
        else (with_line (api_error_line r) w1, inr (PDict []))
    end.
Proof. apply ask_eq. Qed.

(** Claim C7: a response whose status is not 200 makes
    [ask_openrouter] print the status code and body and return the
    empty dict, without decoding the body. *)
Theorem ask_non200 prompt r w :
  post URL headers (request_data prompt) = inr r -> status_code r <> 200%Z ->
  ask_openrouter prompt w =
    (with_line (api_error_line r) (log_event (EvPost URL (request_data prompt)) w),
     inr (PDict [])).
Proof.
  intros Hpost Hst. rewrite ask_eq. simpl. rewrite Hpost.
  by rewrite (proj2 (Z.eqb_neq _ _) Hst).
Qed.

(** Claim C8: [ask_openrouter] never raises, makes exactly one
    call to the endpoint (with the prompt as the single user message of
    the fixed model), leaves the file system unchanged and prints at
    most one line. *)
Theorem ask_total prompt w :
  exists w' v, ask_openrouter prompt w = (w', inr v) /\
    trace w' = trace w ++ [EvPost URL (request_data prompt)] /\
    fs w' = fs w /\
    (stdout w' = stdout w \/ exists line, stdout w' = stdout w ++ [line]).
Proof.
  rewrite ask_eq. simpl.
  destruct (post URL headers (request_data prompt)) as [e|r];
    [|destruct (Z.eqb (status_code r) 200);
      [destruct (decode_response (text r)) as [e|v]|]];
    (eexists _, _; split; [done|]); simpl; (split; [done|]); (split; [done|]);
    first [by left | right; by eexists].
Qed.

(** The value of [ask_openrouter], and its effects on the file system
    and the trace. *)
Lemma ask_value prompt w :
  exists w', ask_openrouter prompt w = (w', inr (completion prompt)) /\ fs w' = fs w /\
    trace w' = trace w ++ [EvPost URL (request_data prompt)].
Proof.
  rewrite ask_eq. unfold completion. simpl.
  destruct (post URL headers (request_data prompt)) as [e|r]; [by eexists|].
  destruct (Z.eqb (status_code r) 200); [|by eexists].
  destruct (decode_response (text r)); by eexists.
Qed.

(** The lines [ask_openrouter] prints are [client_lines]. *)
Lemma ask_stdout prompt w :
  exists w' v, ask_openrouter prompt w = (w', inr v) /\ stdout w' = stdout w ++ client_lines prompt.
Proof.
  rewrite ask_eq. unfold client_lines. simpl.
  destruct (post URL headers (request_data prompt)) as [e|r];
    [|destruct (Z.eqb (status_code r) 200);
      [destruct (decode_response (text r)) as [e|v]|]];
    (eexists _, _; split; [reflexivity|]); simpl; by rewrite ?app_nil_r.
Qed.

End Ask.
(** ** Witnesses: an endpoint that answers 404 *)
Module ToyClient.
#[export] Instance toy_http : Http := { post _ _ _ := inr (Response 404 "Not Found") }.
#[export] Instance toy_json : JsonDecoder :=
  { loads _ := inl (Exn JSONDecodeError "Expecting value: line 1 column 1 (char 0)") }.
Definition w0 : world := World [] ∅ [].
End ToyClient.
Import ToyClient.

Lemma ask_non200_witness :
  ask_openrouter "key" "prompt" w0 =
    (with_line (api_error_line (Response 404 "Not Found"))
       (log_event (EvPost URL (request_data "prompt")) w0), inr (PDict [])).
Proof. apply (ask_non200 "key" "prompt" (Response 404 "Not Found")); [reflexivity | discriminate]. Defined.

End Client.
