(* ===== verification/Wire.v ===== *)
(** * The completion client on the wire: [ask_openrouter] with the [json] module

    [Client] proves [ask_openrouter] for any HTTP endpoint and any JSON
    decoder.  Here the decoder is the model of [json.loads] ([Json]), and
    the request body is what httpx writes for [json=data] (line 59):
    [json.dumps(data, ensure_ascii=False, separators=(",", ":"),
    allow_nan=False)] -- [httpx_body].  Three facts follow:
    - the endpoint reads the prompt back exactly from the body, whatever
      quotes, backslashes, braces or line breaks the OCR text contains
      ([request_body_roundtrip]);
    - a server that answers 200 with a completion whose content is the
      JSON encoding of a value makes [ask_openrouter] return that value
      ([ask_conforming]);
    - a content wrapped in a Markdown code fence, as chat models often
      answer, is not JSON: [ask_openrouter] prints the decoder's error
      and returns [{}] ([ask_fenced]). *)

From S2P Require Import Prelude PyStr PyValue Json JsonRoundtrip Os Client.

Module Wire.
Import PyStr PyValue Os Client Json JsonRoundtrip.

(** [json.loads], with [float_repr] the conversion of float literals. *)
#[export] Instance json_decoder (float_repr : string -> string) : JsonDecoder :=
  {| Client.loads := Json.loads float_repr |}.

(** The body httpx sends for [httpx.post(url, headers=headers, json=data)]. *)
Definition httpx_body (data : pyval) : exn + string := encode httpx_opts data.

(** The path [result['choices'][0]['message']['content']] of line 65. *)
Definition content_path (result : pyval) : exn + pyval :=
  match getitem result (PStr "choices") with
  | inl e => inl e
  | inr choices =>
      match getitem choices (PInt 0) with
      | inl e => inl e
      | inr first =>
          match getitem first (PStr "message") with
          | inl e => inl e
          | inr message => getitem message (PStr "content")
          end
      end
  end.

Section OnTheWire.
Context {http : Http}.
Variable float_repr : string -> string.
Variable OPENROUTER_API_KEY : string.

Lemma decode_response_json body :
  @decode_response (json_decoder float_repr) body =
    match Json.loads float_repr body with
    | inl e => inl e
    | inr result =>
        match content_path result with
        | inl e => inl e
        | inr content => @json_loads (json_decoder float_repr) content
        end
    end.
Proof.
  unfold decode_response, content_path. simpl.
  destruct (Json.loads float_repr body) as [e|result]; [done|].
  destruct (getitem result (PStr "choices")) as [e|choices]; [done|].
  destruct (getitem choices (PInt 0)) as [e|first]; [done|].
  by destruct (getitem first (PStr "message")).
Qed.

(** The request carries the prompt verbatim. *)
Lemma request_data_wf prompt : json_wf float_repr (request_data prompt).
Proof. unfold request_data. json_wf_solve. Qed.

(** Claim C18: the endpoint reads the prompt back exactly: the body httpx
    writes for the request decodes, with [json.loads], to the request
    itself -- the model name and the single user message carrying the
    prompt verbatim, whatever characters the OCR text contains. *)
Theorem request_body_roundtrip prompt :
  exists body, httpx_body (request_data prompt) = inr body /\
               Json.loads float_repr body = inr (request_data prompt).
Proof.
  eexists. split; [reflexivity|].
  apply (loads_encode httpx_opts); [apply seps_ok_httpx | apply request_data_wf | reflexivity].
Qed.

(** A body that encodes a reply whose content encodes [v] decodes to [v]. *)
Lemma decode_response_conforming body reply c v o1 o2 :
  seps_ok o1 -> json_wf float_repr reply -> encode o1 reply = inr body ->
  content_path reply = inr (PStr c) ->
  seps_ok o2 -> json_wf float_repr v -> encode o2 v = inr c ->
  @decode_response (json_decoder float_repr) body = inr v.
Proof.
  intros Hs1 Hw1 He1 Hpath Hs2 Hw2 He2.
  rewrite decode_response_json, (loads_encode o1 _ reply body), Hpath by done.
  simpl. by apply (loads_encode o2).
Qed.

(** Claim C19: a conforming completion is decoded: when the endpoint
    answers 200 with the JSON encoding of a reply whose
    [choices[0].message.content] is the JSON encoding of a value [v],
    [ask_openrouter] returns [v], prints nothing, and records one
    request. *)
Theorem ask_conforming prompt w o1 o2 body reply c v :
  post URL (headers OPENROUTER_API_KEY) (request_data prompt) = inr (Response 200 body) ->
  seps_ok o1 -> json_wf float_repr reply -> encode o1 reply = inr body ->
  content_path reply = inr (PStr c) ->
  seps_ok o2 -> json_wf float_repr v -> encode o2 v = inr c ->
  @ask_openrouter http (json_decoder float_repr) OPENROUTER_API_KEY prompt w =
    (log_event (EvPost URL (request_data prompt)) w, inr v).
Proof.
  intros Hpost Hs1 Hw1 He1 Hpath Hs2 Hw2 He2.
  rewrite ask_eq. cbv zeta. rewrite Hpost. simpl status_code. rewrite Z.eqb_refl.
  simpl text. by rewrite (decode_response_conforming body reply c v o1 o2).
Qed.

(** A completion whose content starts with a backquote is not JSON. *)
Lemma decode_response_fenced body reply rest :
  Json.loads float_repr body = inr reply ->
  content_path reply = inr (PStr (String "`" rest)) ->
  @decode_response (json_decoder float_repr) body =
    inl (Exn JSONDecodeError "Expecting value: line 1 column 1 (char 0)").
Proof.
  intros Hbody Hpath. rewrite decode_response_json, Hbody, Hpath. simpl.
  unfold Json.loads. simpl. by rewrite decode_error_start.
Qed.

(** Claim C20: a completion whose content is wrapped in a Markdown code
    fence (it starts with a backquote) is not JSON: [ask_openrouter]
    prints [Expecting value: line 1 column 1 (char 0)] and returns [{}],
    so the row written for the receipt has only its file name. *)
Theorem ask_fenced prompt w body reply rest :
  post URL (headers OPENROUTER_API_KEY) (request_data prompt) = inr (Response 200 body) ->
  Json.loads float_repr body = inr reply ->
  content_path reply = inr (PStr (String "`" rest)) ->
  @ask_openrouter http (json_decoder float_repr) OPENROUTER_API_KEY prompt w =
    (with_line "[OpenRouter Gemini] Error: Expecting value: line 1 column 1 (char 0)"
       (log_event (EvPost URL (request_data prompt)) w), inr (PDict [])).
Proof.
  intros Hpost Hbody Hpath.
  rewrite ask_eq. cbv zeta. rewrite Hpost. simpl status_code. rewrite Z.eqb_refl.
  simpl text. by rewrite (decode_response_fenced body reply rest).
Qed.

End OnTheWire.

(** ** Witnesses: an endpoint that answers with an encoded completion *)
Module WireWitness.
Definition w0 : world := World [] ∅ [].

(** The content a model answers: the JSON text of a receipt. *)
Definition content_text : string :=
  match encode dumps_defaults receipt_json with inr s => s | inl _ => "" end.

(** The same text inside a Markdown code fence. *)
Definition fenced_text : string := "```json" +:+ newline +:+ content_text +:+ newline +:+ "```".

Definition reply (c : string) : pyval :=
  PDict [("id", PStr "gen-1");
         ("choices", PList [PDict [("index", PInt 0);
                                   ("message", PDict [("role", PStr "assistant");
                                                      ("content", PStr c)])]])].

Definition body_of (c : string) : string :=
  match encode dumps_defaults (reply c) with inr s => s | inl _ => "" end.

Definition server_http (c : string) : Http := {| post _ _ _ := inr (Response 200 (body_of c)) |}.
End WireWitness.
Import WireWitness.

Lemma ask_conforming_witness :
  @ask_openrouter (server_http content_text) (json_decoder (fun r => r)) "key" "prompt" w0 =
    (log_event (EvPost URL (request_data "prompt")) w0, inr receipt_json).
Proof.
  apply (@ask_conforming (server_http content_text) (fun r => r) "key" "prompt" w0
           dumps_defaults dumps_defaults (body_of content_text) (reply content_text)
           content_text receipt_json);
    first [reflexivity | apply seps_ok_defaults | json_wf_solve | vm_compute; reflexivity].
Defined.

Lemma ask_fenced_witness :
  @ask_openrouter (server_http fenced_text) (json_decoder (fun r => r)) "key" "prompt" w0 =
    (with_line "[OpenRouter Gemini] Error: Expecting value: line 1 column 1 (char 0)"
       (log_event (EvPost URL (request_data "prompt")) w0), inr (PDict [])).
Proof.
  apply (@ask_fenced (server_http fenced_text) (fun r => r) "key" "prompt" w0
           (body_of fenced_text) (reply fenced_text)
           ("``json" +:+ newline +:+ content_text +:+ newline +:+ "```"));
    vm_compute; reflexivity.
Defined.

End Wire.
