(* ===== verification/Csv.v ===== *)
(** * The [csv] module as [save_to_csv] uses it

    [csv.writer(f)] uses the [excel] dialect: delimiter [','], the double
    quote as quote character, doubled inside quoted fields, line terminator
    ["\r\n"], and [QUOTE_MINIMAL]: a field is quoted exactly when it
    contains the delimiter, the quote character, or a character of the
    line terminator.  A row made of one empty field is written as [""]
    so that it is not an empty line.  [writerow] turns each value into
    text first: [None] becomes the empty string, a [str] is kept, a
    [float] is written with [repr], anything else with [str].

    [parse] is the reading of a file of such rows: a strict reader for
    the grammar the writer produces (records ended by CRLF, fields
    separated by commas, quoted fields with doubled quotes).  It is the
    abstract meaning of the output file: the roundtrip lemma
    [parse_rows] shows that reading back what the writer wrote gives the
    rows that were written. *)

From S2P Require Import Prelude PyStr PyValue.

Module Csv.
Import PyStr PyValue.

Definition COMMA : ascii := ","%char.
Definition QUOTE : ascii := DQUOTE.
Definition CRLF : string := String CR (String LF "").

(** ** Writer *)

Definition special (c : ascii) : bool :=
  bool_decide (c = COMMA) || bool_decide (c = QUOTE) ||
  bool_decide (c = CR) || bool_decide (c = LF).

Fixpoint has_special (s : string) : bool :=
  match s with "" => false | String c t => special c || has_special t end.

(** The body of a quoted field: every quote doubled. *)
Fixpoint double_quotes (s : string) : string :=
  match s with
  | "" => ""
  | String c t =>
      if ascii_dec c QUOTE then String QUOTE (String QUOTE (double_quotes t))
      else String c (double_quotes t)
  end.

Definition quote_field (s : string) : string :=
  String QUOTE (double_quotes s +:+ String QUOTE "").

(** One field under [QUOTE_MINIMAL]. *)
Definition field_text (s : string) : string :=
  if has_special s then quote_field s else s.

Fixpoint join_fields (fields : list string) : string :=
  match fields with
  | [] => ""
  | [f] => field_text f
  | f :: fs => field_text f +:+ String COMMA (join_fields fs)
  end.

(** [writer.writerow(fields)] for fields already turned into text. *)
Definition writerow_text (fields : list string) : string :=
  match fields with
  | [""] => quote_field "" +:+ CRLF
  | _ => join_fields fields +:+ CRLF
  end.

(** The text [writerow] makes of one value. *)
Definition field_of_value (v : pyval) : string :=
  match v with
  | PNone => ""
  | PStr s => s
  | PFloat r => r
  | _ => str v
  end.

(** [writer.writerow(values)] *)
Definition writerow (values : list pyval) : string :=
  writerow_text (map field_of_value values).

(** ** Reader *)

Inductive rstate := FieldStart | Unquoted | Quoted | QuoteSeen | AfterCR.

(** The reader's configuration: its state, the field being read, the
    fields of the current record, and the records read so far. *)
Record cfg := Cfg { st : rstate; cur : string; row : list string; acc : list (list string) }.

Definition snoc (s : string) (c : ascii) : string := s +:+ String c "".

(** One character; [None] when the text is not well formed. *)
Definition step (k : cfg) (c : ascii) : option cfg :=
  let 'Cfg st cur row acc := k in
  match st with
  | FieldStart =>
      if ascii_dec c QUOTE then Some (Cfg Quoted "" row acc)
      else if ascii_dec c COMMA then Some (Cfg FieldStart "" (row ++ [""]) acc)
      else if ascii_dec c CR then Some (Cfg AfterCR "" (row ++ [""]) acc)
      else if ascii_dec c LF then None
      else Some (Cfg Unquoted (String c "") row acc)
  | Unquoted =>
      if ascii_dec c COMMA then Some (Cfg FieldStart "" (row ++ [cur]) acc)
      else if ascii_dec c CR then Some (Cfg AfterCR "" (row ++ [cur]) acc)
      else if ascii_dec c QUOTE then None
      else if ascii_dec c LF then None
      else Some (Cfg Unquoted (snoc cur c) row acc)
  | Quoted =>
      if ascii_dec c QUOTE then Some (Cfg QuoteSeen cur row acc)
      else Some (Cfg Quoted (snoc cur c) row acc)
  | QuoteSeen =>
      if ascii_dec c QUOTE then Some (Cfg Quoted (snoc cur QUOTE) row acc)
      else if ascii_dec c COMMA then Some (Cfg FieldStart "" (row ++ [cur]) acc)
      else if ascii_dec c CR then Some (Cfg AfterCR "" (row ++ [cur]) acc)
      else None
  | AfterCR =>
      if ascii_dec c LF then Some (Cfg FieldStart "" [] (acc ++ [row])) else None
  end.

Fixpoint run (k : cfg) (s : string) : option cfg :=
  match s with
  | "" => Some k
  | String c t => match step k c with Some k' => run k' t | None => None end
  end.

(** The text may end only between records. *)
Definition finish (k : cfg) : option (list (list string)) :=
  match st k, row k with FieldStart, [] => Some (acc k) | _, _ => None end.

Definition start (acc : list (list string)) : cfg := Cfg FieldStart "" [] acc.

(** The rows a CSV text denotes, or [None] when it is not well formed. *)
Definition parse (s : string) : option (list (list string)) :=
  match run (start []) s with Some k => finish k | None => None end.

Fixpoint rows_text (rows : list (list string)) : string :=
  match rows with [] => "" | r :: rs => writerow_text r +:+ rows_text rs end.

(** ** The reader *)

Lemma run_app k s1 s2 :
  run k (s1 +:+ s2) = match run k s1 with Some k' => run k' s2 | None => None end.
Proof.
  revert k. induction s1 as [|c t IH]; intros k; [done|].
  rewrite string_app_cons. simpl. destruct (step k c); [apply IH | done].
Qed.

(** At the start of a field the partial field is not read. *)
Lemma step_field_start cur row acc c :
  step (Cfg FieldStart cur row acc) c = step (Cfg FieldStart "" row acc) c.
Proof. done. Qed.

(** Invariant of the reader: at the start of a field nothing is pending. *)
Definition cfg_inv (k : cfg) : Prop := st k = FieldStart -> cur k = "".

Lemma step_inv k c k' : step k c = Some k' -> cfg_inv k'.
Proof.
  destruct k as [[] cur row acc]; simpl;
    repeat destruct ascii_dec; intros H; try discriminate;
    injection H as <-; by unfold cfg_inv.
Qed.

Lemma run_inv k s k' : cfg_inv k -> run k s = Some k' -> cfg_inv k'.
Proof.
  revert k. induction s as [|c t IH]; simpl; intros k Hk.
  - by intros [= <-].
  - destruct (step k c) as [k1|] eqn:E; [|done].
    apply IH. by apply (step_inv k c).
Qed.

(** ** Roundtrip *)

Lemma special_false c :
  special c = false -> c <> COMMA /\ c <> QUOTE /\ c <> CR /\ c <> LF.
Proof.
  unfold special. intros H.
  repeat match goal with
  | H : _ || _ = false |- _ => apply orb_false_elim in H as [? ?]
  end.
  repeat split; intros ->; by rewrite bool_decide_eq_true_2 in *.
Qed.

Ltac chars_ne :=
  repeat first
    [ rewrite ascii_dec_eq
    | rewrite ascii_dec_ne by (first [done | vm_compute; congruence]) ].

(** An unquoted run of ordinary characters is read into the field. *)
Lemma run_unquoted cur row acc s :
  has_special s = false ->
  run (Cfg Unquoted cur row acc) s = Some (Cfg Unquoted (cur +:+ s) row acc).
Proof.
  revert cur. induction s as [|c t IH]; intros cur Hs.
  - by rewrite string_app_nil_r.
  - simpl in Hs. apply orb_false_elim in Hs as [Hc Ht].
    destruct (special_false c Hc) as (H1 & H2 & H3 & H4).
    simpl. chars_ne. rewrite IH by done. unfold snoc. by rewrite <- string_app_assoc.
Qed.

(** A quoted body with doubled quotes, then the closing quote. *)
Lemma run_quoted cur row acc s :
  run (Cfg Quoted cur row acc) (double_quotes s +:+ String QUOTE "") =
  Some (Cfg QuoteSeen (cur +:+ s) row acc).
Proof.
  revert cur. induction s as [|c t IH]; intros cur.
  - simpl. chars_ne. by rewrite string_app_nil_r.
  - simpl. destruct (ascii_dec c QUOTE) as [->|Hc].
    + rewrite !string_app_cons. simpl. chars_ne.
      rewrite IH. unfold snoc. by rewrite <- string_app_assoc.
    + rewrite string_app_cons. simpl. chars_ne.
      rewrite IH. unfold snoc. by rewrite <- string_app_assoc.
Qed.

Definition after_sep (sep : ascii) : rstate :=
  if ascii_dec sep COMMA then FieldStart else AfterCR.

(** One field followed by a comma or a carriage return. *)
Lemma run_field f sep row acc :
  sep = COMMA \/ sep = CR ->
  run (Cfg FieldStart "" row acc) (field_text f +:+ String sep "") =
  Some (Cfg (after_sep sep) "" (row ++ [f]) acc).
Proof.
  intros Hsep. unfold field_text, after_sep.
  destruct (has_special f) eqn:Hf.
  - unfold quote_field. rewrite string_app_cons. simpl. chars_ne.
    rewrite run_app, run_quoted, string_app_nil_l.
    simpl. destruct Hsep as [-> | ->]; simpl; chars_ne; done.
  - destruct f as [|c t].
    + simpl. destruct Hsep as [-> | ->]; chars_ne; done.
    + simpl in Hf. apply orb_false_elim in Hf as [Hc Ht].
      destruct (special_false c Hc) as (H1 & H2 & H3 & H4).
      rewrite run_app. simpl. chars_ne.
      rewrite run_unquoted by done. simpl.
      destruct Hsep as [-> | ->]; chars_ne; done.
Qed.

Lemma run_field_cont f sep row acc rest :
  sep = COMMA \/ sep = CR ->
  run (Cfg FieldStart "" row acc) (field_text f +:+ String sep rest) =
  run (Cfg (after_sep sep) "" (row ++ [f]) acc) rest.
Proof.
  intros Hsep. replace (String sep rest) with (String sep "" +:+ rest) by done.
  by rewrite string_app_assoc, run_app, run_field.
Qed.

Lemma run_join fields row acc :
  fields <> [] ->
  run (Cfg FieldStart "" row acc) (join_fields fields +:+ CRLF) =
  Some (start (acc ++ [row ++ fields])).
Proof.
  revert row. induction fields as [|f fs IH]; intros row Hne; [done|].
  destruct fs as [|f' fs].
  - change (join_fields [f] +:+ CRLF) with (field_text f +:+ String CR (String LF "")).
    rewrite run_field_cont by auto. unfold after_sep. simpl. chars_ne. done.
  - change (join_fields (f :: f' :: fs)) with
      (field_text f +:+ String COMMA (join_fields (f' :: fs))).
    rewrite <- string_app_assoc, string_app_cons, run_field_cont by auto.
    unfold after_sep. chars_ne. rewrite IH by done. by rewrite <- app_assoc.
Qed.

Lemma run_writerow fields acc :
  fields <> [] -> run (start acc) (writerow_text fields) = Some (start (acc ++ [fields])).
Proof.
  intros Hne. unfold writerow_text.
  destruct fields as [|[|c t] [|f' fs]]; [done| | | |].
  { unfold quote_field, CRLF. simpl. chars_ne. done. }
  all: cbv beta iota; by apply run_join.
Qed.

Lemma run_rows acc rows :
  Forall (fun r => r <> []) rows -> run (start acc) (rows_text rows) = Some (start (acc ++ rows)).
Proof.
  revert acc. induction rows as [|r rs IH]; intros acc Hall.
  - simpl. by rewrite app_nil_r.
  - inversion Hall as [|? ? Hr Hrs]; subst. simpl.
    rewrite run_app, run_writerow by done.
    rewrite IH by done. by rewrite <- app_assoc.
Qed.

(** Reading back rows written by [writerow] gives those rows (every row
    has at least one field). *)
Lemma parse_rows rows :
  Forall (fun r => r <> []) rows -> parse (rows_text rows) = Some rows.
Proof. intros Hall. unfold parse. by rewrite run_rows. Qed.

(** A well-formed text followed by more rows reads as the rows of both. *)
Lemma parse_app_rows s rows rows' :
  parse s = Some rows -> Forall (fun r => r <> []) rows' ->
  parse (s +:+ rows_text rows') = Some (rows ++ rows').
Proof.
  unfold parse. intros Hs Hall. rewrite run_app.
  destruct (run (start []) s) as [k|] eqn:Hrun; [|done].
  assert (Hinv : cfg_inv k) by (apply (run_inv (start []) s); [done | exact Hrun]).
  destruct k as [st0 cur0 row0 acc0]. unfold finish in Hs. simpl in Hs.
  destruct st0, row0; try discriminate. injection Hs as ->.
  unfold cfg_inv in Hinv. simpl in Hinv. rewrite (Hinv eq_refl).
  change (Cfg FieldStart "" [] rows) with (start rows). by rewrite run_rows.
Qed.

End Csv.
