(* ===== verification/Writer.v ===== *)
(** * Record Writer: [save_to_csv]
      (src/receiptscanner/local_receipt_parser_dual_ai.py, lines 71-84)

    The file is opened for appending (created when missing); when
    [f.tell()] is 0 -- the file is empty -- the header row is written
    first; then one row of seven values read from the dict with
    [data.get(key, "")], in a fixed order of keys.  The [with] block
    closes the file on every path; closing has no effect on the model's
    state.

    The theorems: the contents after the call on every branch
    ([save_to_csv_eq], and the [IsADirectoryError] of a directory),
    the table the file denotes ([csv_table]: empty, or the header followed
    by the data rows) is extended by exactly the new row, and the row
    depends only on the dict's lookups, not on the order of its keys. *)

From S2P Require Import Prelude PyStr PyValue Os Csv.

Module Writer.
Import PyStr PyValue Os Csv.
Local Open Scope py_scope.

Definition HEADER : list string :=
  ["File"; "Date"; "Total"; "Tax"; "Payment Method"; "Vendor"; "Receipt Number"].

(** The keys read, in the order of the columns. *)
Definition KEYS : list string :=
  ["File"; "Date"; "Total Amount"; "Tax Amount"; "Payment Method"; "Vendor Name";
   "Receipt Number"].

(** [[data.get("File", ""), data.get("Date", ""), ...]] *)
Definition row_values (data : dict) : list pyval :=
  map (fun k => dict_get data k (PStr "")) KEYS.

Definition save_to_csv (path : string) (data : dict) : Py unit :=
  let* existing := open_append path in
  (if Nat.eqb (String.length existing) 0
   then write_append path (writerow (map PStr HEADER))
   else ret ()) ;;
  write_append path (writerow (row_values data)).

(** ** Reference definitions used in the statements *)

(** The text fields of the row written for [data]. *)
Definition row_fields (data : dict) : list string := map field_of_value (row_values data).

(** The table a file denotes: an empty file, or the header followed by
    the data rows. *)
Definition csv_table (c : string) (rows : list (list string)) : Prop :=
  (rows = [] /\ c = "") \/ (rows <> [] /\ parse c = Some (HEADER :: rows)).

(** What one call appends to the contents [c]. *)
Definition appended (c : string) (data : dict) : string :=
  (if String.eqb c "" then writerow_text HEADER else "") +:+ writerow_text (row_fields data).

(** ** Lemmas *)

#[local] Arguments writerow_text : simpl never.

Lemma writerow_map_PStr fields : writerow (map PStr fields) = writerow_text fields.
Proof. unfold writerow. f_equal. induction fields as [|f fs IH]; simpl; congruence. Qed.

Lemma writerow_row data : writerow (row_values data) = writerow_text (row_fields data).
Proof. done. Qed.

Lemma length_zero_iff (s : string) : Nat.eqb (String.length s) 0 = String.eqb s "".
Proof. by destruct s. Qed.

Lemma contents_insert w path c : contents (set_fs (<[path := RegFile c]> (fs w)) w) path = c.
Proof. unfold contents. simpl. by rewrite lookup_insert_eq. Qed.

Lemma row_fields_ne data : row_fields data <> [].
Proof. unfold row_fields, row_values. simpl. congruence. Qed.

Lemma rows_ne data : Forall (fun r => r <> []) [HEADER; row_fields data].
Proof. constructor; [unfold HEADER; congruence|]. constructor; [apply row_fields_ne | constructor]. Qed.

(** ** Theorems *)

Lemma save_to_csv_eq path data w :
  fs w !! path <> Some Dir ->
  save_to_csv path data w =
    (set_fs (<[path := RegFile (contents w path +:+ appended (contents w path) data)]> (fs w)) w,
     inr ()).
Proof.
  intros Hdir. unfold save_to_csv, open_append, write_append, appended, contents.
  py_unfold. rewrite writerow_map_PStr, writerow_row.
  destruct (fs w !! path) as [[c|]|] eqn:Hp; [|done|]; simpl.
  - rewrite length_zero_iff.
    destruct (String.eqb_spec c "") as [->|Hne]; simpl; rewrite ?Hp.
    + by rewrite lookup_insert_eq, insert_insert_eq.
    + by rewrite string_app_nil_l.
  - by rewrite !lookup_insert_eq, !insert_insert_eq.
Qed.

(** Claim C6: on a path that is not a directory, [save_to_csv]
    succeeds and replaces the file by its old contents followed by the
    header row (only when the file was empty or missing) and then the
    data row; nothing else of the world changes. *)
Theorem save_to_csv_spec path data w :
  fs w !! path <> Some Dir ->
  save_to_csv path data w =
    (set_fs (<[path := RegFile (contents w path +:+ appended (contents w path) data)]> (fs w)) w,
     inr ()).
Proof. apply save_to_csv_eq. Qed.

(** A directory at the path raises [IsADirectoryError] and writes nothing. *)
Lemma save_to_csv_dir path data w :
  fs w !! path = Some Dir ->
  save_to_csv path data w =
    (w, inl (Exn OSError ("[Errno 21] Is a directory: " +:+ repr_str path))).
Proof. intros Hdir. unfold save_to_csv, open_append. py_unfold. by rewrite Hdir. Qed.

(** The row depends on the dict only through its lookups. *)
Lemma row_values_equiv d1 d2 : dict_equiv d1 d2 -> row_values d1 = row_values d2.
Proof. intros H. unfold row_values. apply map_ext. intros k. by rewrite H. Qed.

#[export] Instance save_to_csv_proper :
  Proper (eq ==> dict_equiv ==> eq ==> eq) save_to_csv.
Proof.
  intros p ? <- d1 d2 H w ? <-. unfold save_to_csv. by rewrite (row_values_equiv d1 d2 H).
Qed.

Lemma parse_nil_inv c rows : parse c = Some (HEADER :: rows) -> c <> "".
Proof. by intros H ->. Qed.

(** Appending one call's text extends the table by that call's row. *)
Lemma csv_table_appended c rows data :
  csv_table c rows -> csv_table (c +:+ appended c data) (rows ++ [row_fields data]).
Proof.
  intros Ht. right. split; [by destruct rows|].
  destruct Ht as [[-> ->] | [Hne Hp]].
  - unfold appended. simpl.
    rewrite <- (string_app_nil_r (writerow_text (row_fields data))).
    exact (parse_rows [HEADER; row_fields data] (rows_ne data)).
  - unfold appended. rewrite (proj2 (String.eqb_neq _ _) (parse_nil_inv _ _ Hp)).
    rewrite string_app_nil_l.
    replace (writerow_text (row_fields data)) with (rows_text [row_fields data])
      by (simpl; apply string_app_nil_r).
    rewrite (parse_app_rows _ _ _ Hp); [done|].
    constructor; [apply row_fields_ne | constructor].
Qed.

(** Claim C3: if the file is empty, or is the header followed
    by data rows, then after [save_to_csv] it is the header followed by
    the same data rows and the new row: the header is written once, the
    first time, and every call adds exactly one row at the end. *)
Theorem save_to_csv_table path data w rows :
  fs w !! path <> Some Dir -> csv_table (contents w path) rows ->
  exists w', save_to_csv path data w = (w', inr ()) /\
             csv_table (contents w' path) (rows ++ [row_fields data]).
Proof.
  intros Hdir Ht. rewrite save_to_csv_eq by done. eexists; split; [done|].
  rewrite contents_insert. by apply csv_table_appended.
Qed.

(** Claim C14: the line written for a dict with distinct
    keys does not depend on the order of its entries (only on the value
    each of the seven keys maps to). *)
Theorem save_to_csv_key_order path d1 d2 w :
  NoDup (map fst d1) -> d1 ≡ₚ d2 -> save_to_csv path d1 w = save_to_csv path d2 w.
Proof. intros Hnd Hp. apply save_to_csv_proper; [done | by apply dict_perm_equiv | done]. Qed.

(** Claim C13: the text one call appends reads back, with
    the strict CSV reader, as exactly the rows written: the header (when
    the file was empty) and the seven fields of the record in column
    order, whatever commas, quotes or line breaks the values contain. *)
Theorem appended_roundtrip c data :
  parse (appended c data) =
    Some ((if String.eqb c "" then [HEADER] else []) ++ [row_fields data]).
Proof.
  unfold appended. destruct (String.eqb c "").
  - rewrite <- (string_app_nil_r (writerow_text (row_fields data))).
    exact (parse_rows [HEADER; row_fields data] (rows_ne data)).
  - rewrite string_app_nil_l, <- (string_app_nil_r (writerow_text (row_fields data))).
    apply (parse_rows [row_fields data]). constructor; [apply row_fields_ne | constructor].
Qed.

(** ** Witnesses *)
Definition w_empty : world := World [] ∅ [].
Definition receipt : dict :=
  [("Vendor Name", PStr "Cafe X"); ("Total Amount", PFloat "12.5"); ("File", PStr "r.jpg")].

Lemma save_to_csv_spec_witness :
  save_to_csv "out.csv" receipt w_empty =
    (set_fs (<["out.csv" := RegFile (contents w_empty "out.csv" +:+
               appended (contents w_empty "out.csv") receipt)]> (fs w_empty)) w_empty, inr ()).
Proof. apply save_to_csv_spec. vm_compute. congruence. Defined.

Lemma save_to_csv_table_witness :
  exists w', save_to_csv "out.csv" receipt w_empty = (w', inr ()) /\
             csv_table (contents w' "out.csv") ([] ++ [row_fields receipt]).
Proof. apply save_to_csv_table; [vm_compute; congruence | left; by split]. Defined.

Lemma save_to_csv_key_order_witness :
  save_to_csv "out.csv" receipt w_empty =
  save_to_csv "out.csv" [("File", PStr "r.jpg"); ("Vendor Name", PStr "Cafe X");
                         ("Total Amount", PFloat "12.5")] w_empty.
Proof.
  apply save_to_csv_key_order.
  - apply NoDup_alt. intros i j x. vm_compute. destruct i as [|[|[|[]]]], j as [|[|[|[]]]]; congruence.
  - unfold receipt. solve_Permutation.
Defined.

(** The file written for that receipt, byte for byte. *)
Example save_to_csv_text :
  contents (save_to_csv "out.csv" receipt w_empty).1 "out.csv" =
    "File,Date,Total,Tax,Payment Method,Vendor,Receipt Number" +:+ CRLF +:+
    "r.jpg,,12.5,,,Cafe X," +:+ CRLF.
Proof. vm_compute. reflexivity. Qed.

End Writer.
