(* ===== verification/Orchestrator.v ===== *)
(** * Orchestrator: [run]
      (src/receiptscanner/local_receipt_parser_dual_ai.py, lines 10-11 and 88-104)

    [run] creates the input folder if needed, lists it once, and for each
    name that is a regular file: prints ["Processing: <name>"], extracts
    the text, skips the file (printing ["Skipped (no text): <name>"]) when
    the text is empty, and otherwise builds the prompt, asks the endpoint,
    sets [result["File"] = filename], and appends the row to the CSV file.

    [result["File"] = filename] is outside every [try]: when the endpoint's
    content decodes to JSON that is not an object (a list, a string, a
    number, [null]), the assignment raises [TypeError] and the whole run
    stops there.

    The refinement theorem [run_eq] relates [run] to an abstract
    pipeline: each listed name has an [outcome] computed from the
    collaborators' results alone (skipped, a row, or the exception that
    stops the run); the run appends the rows of the outcomes before the
    first exception, in listing order, to the table of the output file.
    [process_file_spec] also records what one iteration sends and
    prints: one request unless the name is skipped, and the name
    announced by its [Processing: ] line when it is a regular file;
    [Transcript] sums these over a run. *)

From S2P Require Import Prelude PyStr PyValue Os Extractor Prompt Client Csv Writer.

Module Orchestrator.
Import PyStr PyValue Os Extractor Prompt Client Csv Writer.
Local Open Scope py_scope.

Definition FOLDER_PATH : string := "./assets".
Definition CSV_OUTPUT : string := "parsed_receipts_gemini_openrouter.csv".

(** ** What the run prints

    Of the lines [run] prints, only ["Processing: <name>"] starts with
    [Processing: ]; the others are the OCR error line, the skip notice and
    the client's error lines.  [announcements] reads the announced names
    back from a transcript. *)
Definition announcements (out : list string) : list string :=
  omap (strip_prefix "Processing: ") out.

Definition quiet (line : string) : Prop := strip_prefix "Processing: " line = None.

Lemma strip_prefix_app p s : strip_prefix p (p +:+ s) = Some s.
Proof.
  induction p as [|c p IH]; [done|].
  rewrite string_app_cons. cbn [strip_prefix]. by rewrite ascii_dec_eq.
Qed.

Lemma quiet_cons c d p t : c <> d -> strip_prefix (String c p) (String d t) = None.
Proof. intros H. cbn [strip_prefix]. by destruct (ascii_dec c d). Qed.

Ltac quiet_line := unfold quiet; rewrite ?string_app_cons; apply quiet_cons; discriminate.

Lemma quiet_ocr_error p e : quiet (ocr_error_line p e).
Proof. unfold ocr_error_line. quiet_line. Qed.
Lemma quiet_skipped f : quiet ("Skipped (no text): " +:+ f).
Proof. quiet_line. Qed.
Lemma quiet_error e : quiet (error_line e).
Proof. unfold error_line. quiet_line. Qed.
Lemma quiet_api_error r : quiet (api_error_line r).
Proof. unfold api_error_line. quiet_line. Qed.

Lemma announcements_app o1 o2 : announcements (o1 ++ o2) = announcements o1 ++ announcements o2.
Proof. apply omap_app. Qed.

Lemma announcements_line l :
  announcements [l] = match strip_prefix "Processing: " l with Some f => [f] | None => [] end.
Proof. done. Qed.

Lemma announcements_nil mid : Forall quiet mid -> announcements mid = [].
Proof.
  induction 1 as [|l mid Hl _ IH]; [done|]. unfold quiet in Hl.
  change (l :: mid) with ([l] ++ mid). by rewrite announcements_app, announcements_line, IH, Hl.
Qed.

Lemma announcements_quiet o mid : Forall quiet mid -> announcements (o ++ mid) = announcements o.
Proof. intros H. rewrite announcements_app, (announcements_nil mid H). apply app_nil_r. Qed.

Lemma announcements_processing o f :
  announcements (o ++ ["Processing: " +:+ f]) = announcements o ++ [f].
Proof. by rewrite announcements_app, announcements_line, strip_prefix_app. Qed.

Section Run.
Context {listing : Listing} {ocr : Ocr} {http : Http} {json : JsonDecoder}.
Variable OPENROUTER_API_KEY : string.

(** The body of the loop for one name. *)
Definition process_file (filename : string) : Py unit :=
  let path := path_join FOLDER_PATH filename in
  let* m := gets fs in
  if negb (isfile m path) then ret () else
  print ("Processing: " +:+ filename) ;;
  let* text := extract_text_from_file path in
  if String.eqb text "" then print ("Skipped (no text): " +:+ filename) else
  let* prompt := lift_sum (build_prompt text) in
  let* result := ask_openrouter OPENROUTER_API_KEY prompt in
  let* data := lift_sum (setitem result "File" (PStr filename)) in
  save_to_csv CSV_OUTPUT data.

Definition run : Py unit :=
  makedirs_exist_ok FOLDER_PATH ;;
  let* m := gets fs in
  for_each (listdir m FOLDER_PATH) process_file.

(** ** The abstract pipeline *)

Inductive outcome := Skipped | Row (data : dict) | Stop (e : exn).

(** What happens to one name, from the file system when it is reached
    and the collaborators' results. *)
Definition outcome_of (m : gmap string entry) (filename : string) : outcome :=
  let path := path_join FOLDER_PATH filename in
  if negb (isfile m path) then Skipped else
  let text := ocr_text path in
  if String.eqb text "" then Skipped else
  match setitem (completion OPENROUTER_API_KEY (PROMPT_HEAD +:+ text +:+ newline))
                "File" (PStr filename) with
  | inl e => Stop e
  | inr d => Row d
  end.

(** The lines printed for one name, from the file system when it is
    reached and the collaborators' results: the announcement, the OCR
    error line if any, then the skip notice or the client's lines. *)
Definition lines_of (m : gmap string entry) (filename : string) : list string :=
  let path := path_join FOLDER_PATH filename in
  if negb (isfile m path) then [] else
  let text := ocr_text path in
  ["Processing: " +:+ filename] ++ ocr_lines path ++
  (if String.eqb text "" then ["Skipped (no text): " +:+ filename]
   else client_lines OPENROUTER_API_KEY (PROMPT_HEAD +:+ text +:+ newline)).

(** The rows written before the first exception, and that exception. *)
Fixpoint rows_until_stop (outs : list outcome) : list (list string) * option exn :=
  match outs with
  | [] => ([], None)
  | Skipped :: rest => rows_until_stop rest
  | Row d :: rest => let '(rows, err) := rows_until_stop rest in (row_fields d :: rows, err)
  | Stop e :: _ => ([], Some e)
  end.

(** The file system after [os.makedirs(FOLDER_PATH, exist_ok=True)]. *)
Definition with_folder (m : gmap string entry) : gmap string entry :=
  match m !! FOLDER_PATH with None => <[FOLDER_PATH := Dir]> m | Some _ => m end.

(** ** Lemmas *)

Lemma folder_path_ne_csv f : path_join FOLDER_PATH f <> CSV_OUTPUT.
Proof. unfold path_join, FOLDER_PATH, CSV_OUTPUT. rewrite !string_app_cons. discriminate. Qed.

Lemma folder_ne_csv : FOLDER_PATH <> CSV_OUTPUT.
Proof. discriminate. Qed.

Lemma isfile_insert_ne m p q e : p <> q -> isfile (<[q := e]> m) p = isfile m p.
Proof. intros H. unfold isfile. by rewrite lookup_insert_ne. Qed.

(** Writing the output file does not change the outcome of any name. *)
Lemma outcome_of_insert_csv m e f :
  outcome_of (<[CSV_OUTPUT := e]> m) f = outcome_of m f.
Proof.
  unfold outcome_of. rewrite isfile_insert_ne; [done|]. apply folder_path_ne_csv.
Qed.

Lemma print_spec line w : print line w = (set_stdout (stdout w ++ [line]) w, inr ()).
Proof. done. Qed.

(** The file system after a name's outcome. *)
Definition fs_after (w : world) (o : outcome) : gmap string entry :=
  match o with
  | Row d => <[CSV_OUTPUT := RegFile (contents w CSV_OUTPUT +:+
                                      appended (contents w CSV_OUTPUT) d)]> (fs w)
  | _ => fs w
  end.

Definition result_of (o : outcome) : exn + unit :=
  match o with Stop e => inl e | _ => inr () end.

Definition requests_of (o : outcome) : nat := match o with Skipped => 0 | _ => 1 end.

(** One iteration of the loop up to [save_to_csv]: the world [w3] the
    write starts from, by the outcome of the name.  Whatever the outcome,
    the file system is unchanged so far, one request is sent unless the
    name is skipped, and the lines printed are [lines_of]. *)
Lemma process_file_cases f w :
  exists w3, fs w3 = fs w /\
    posts (trace w3) = posts (trace w) + requests_of (outcome_of (fs w) f) /\
    stdout w3 = stdout w ++ lines_of (fs w) f /\
    process_file f w = match outcome_of (fs w) f with
                       | Skipped => (w3, inr ())
                       | Stop e => (w3, inl e)
                       | Row d => save_to_csv CSV_OUTPUT d w3
                       end.
Proof.
  unfold outcome_of, lines_of, process_file.
  unfold bind at 1, gets at 1.
  destruct (isfile (fs w) (path_join FOLDER_PATH f)) eqn:Hf; simpl;
    [|exists w; by rewrite Nat.add_0_r, app_nil_r].
  rewrite (bind_inr _ _ _ _ _ (print_spec _ _)).
  set (w1 := set_stdout _ w).
  destruct (extract_value (path_join FOLDER_PATH f) w1)
    as (w2 & evs & Hex & Hfs2 & Htr2 & Hnp & Hout2).
  assert (Hp2 : posts (trace w2) = posts (trace w)).
  { rewrite Htr2, posts_app, (posts_none evs Hnp). simpl. lia. }
  rewrite (bind_inr _ _ _ _ _ Hex). simpl in Hout2. rewrite <- app_assoc in Hout2.
  destruct (String.eqb_spec (ocr_text (path_join FOLDER_PATH f)) "") as [Hnil|Hne].
  { exists (set_stdout (stdout w2 ++ ["Skipped (no text): " +:+ f]) w2).
    split_and!; [simpl; by rewrite Hfs2 | simpl; lia | | apply print_spec].
    simpl. by rewrite Hout2, <- !app_assoc. }
  rewrite build_prompt_eq, bind_lift_inr.
  set (prompt := PROMPT_HEAD +:+ ocr_text (path_join FOLDER_PATH f) +:+ newline).
  destruct (ask_value OPENROUTER_API_KEY prompt w2) as (w3 & Hask & Hfs3 & Htr3).
  destruct (ask_stdout OPENROUTER_API_KEY prompt w2) as (w3' & v & Hask' & Hout3).
  rewrite Hask in Hask'. injection Hask' as <- _.
  exists w3. split_and!.
  - by rewrite Hfs3, Hfs2.
  - rewrite Htr3, posts_app, Hp2. by destruct (setitem _ _ _).
  - by rewrite Hout3, Hout2, <- !app_assoc.
  - rewrite (bind_inr _ _ _ _ _ Hask).
    destruct (setitem _ "File" (PStr f)); [apply bind_lift_inl | apply bind_lift_inr].
Qed.

(** One iteration of the loop, by the outcome of its name: its result,
    the file system after it, the number of requests it sends, and the
    lines it prints. *)
Lemma process_file_spec f w :
  fs w !! CSV_OUTPUT <> Some Dir ->
  exists w', process_file f w = (w', result_of (outcome_of (fs w) f)) /\
             fs w' = fs_after w (outcome_of (fs w) f) /\
             posts (trace w') = posts (trace w) + requests_of (outcome_of (fs w) f) /\
             stdout w' = stdout w ++ lines_of (fs w) f.
Proof.
  intros Hdir. destruct (process_file_cases f w) as (w3 & Hfs3 & Hp3 & Ho3 & ->).
  destruct (outcome_of (fs w) f) as [|d|e]; [by exists w3 | | by exists w3].
  rewrite save_to_csv_eq by (by rewrite Hfs3).
  eexists. split; [done|]. simpl. unfold contents. by rewrite Hfs3.
Qed.

Lemma contents_fs w1 w2 p : fs w1 = fs w2 -> contents w1 p = contents w2 p.
Proof. unfold contents. by intros ->. Qed.

Definition err_result (err : option exn) : exn + unit :=
  match err with None => inr () | Some e => inl e end.

(** The loop over the listed names, against the abstract pipeline: the
    outcomes are those of a fixed map [m] because writing the output
    file does not change them. *)
Lemma run_loop names w m rows0 :
  fs w !! CSV_OUTPUT <> Some Dir -> csv_table (contents w CSV_OUTPUT) rows0 ->
  (forall f, outcome_of (fs w) f = outcome_of m f) ->
  exists w', for_each names process_file w =
               (w', err_result (rows_until_stop (map (outcome_of m) names)).2) /\
             csv_table (contents w' CSV_OUTPUT)
               (rows0 ++ (rows_until_stop (map (outcome_of m) names)).1).
Proof.
  revert w rows0. induction names as [|f names IH]; intros w rows0 Hdir Ht Hout.
  - exists w. by rewrite app_nil_r.
  - simpl. destruct (process_file_spec f w Hdir) as (w1 & Hp & Hfs1 & _ & _).
    rewrite (Hout f) in Hp, Hfs1. unfold bind at 1. rewrite Hp.
    destruct (outcome_of m f) as [|d|e]; simpl in Hfs1 |- *.
    + apply IH; [by rewrite Hfs1 | by rewrite (contents_fs _ _ _ Hfs1) |].
      intros g. by rewrite Hfs1.
    + destruct (IH w1 (rows0 ++ [row_fields d])) as (w2 & Hr & Ht2).
      * rewrite Hfs1, lookup_insert_eq. discriminate.
      * unfold contents at 1. rewrite Hfs1, lookup_insert_eq. by apply csv_table_appended.
      * intros g. by rewrite Hfs1, outcome_of_insert_csv.
      * exists w2. rewrite Hr.
        destruct (rows_until_stop (map (outcome_of m) names)) as [rows err].
        simpl in *. split; [done|]. by rewrite <- app_assoc in Ht2.
    + exists w1. split; [done|]. rewrite app_nil_r. by rewrite (contents_fs _ _ _ Hfs1).
Qed.

(** ** Theorems *)

Lemma run_eq w rows0 :
  fs w !! FOLDER_PATH = None \/ fs w !! FOLDER_PATH = Some Dir ->
  fs w !! CSV_OUTPUT <> Some Dir -> csv_table (contents w CSV_OUTPUT) rows0 ->
  let m := with_folder (fs w) in
  let outs := map (outcome_of m) (listdir m FOLDER_PATH) in
  exists w', run w = (w', err_result (rows_until_stop outs).2) /\
             csv_table (contents w' CSV_OUTPUT) (rows0 ++ (rows_until_stop outs).1).
Proof.
  intros Hfold Hdir Ht. cbv zeta. unfold run, makedirs_exist_ok, with_folder.
  unfold bind at 1.
  destruct Hfold as [Hn|Hd].
  - rewrite Hn. simpl. unfold bind at 1, gets at 1. simpl.
    apply run_loop.
    + simpl. rewrite lookup_insert_ne; [done | apply folder_ne_csv].
    + unfold contents. simpl. rewrite lookup_insert_ne; [done | apply folder_ne_csv].
    + done.
  - rewrite Hd. simpl. unfold bind at 1, gets at 1. simpl.
    by apply run_loop.
Qed.

(** Claim C1: [run] refines the abstract pipeline.  When the input
    folder is absent or a directory and the output file is empty or holds
    the header and data rows, [run] appends to the output table, in
    listing order, the rows of the names processed before the first
    exception, and raises that exception if there is one. *)
Theorem run_spec w rows0 :
  fs w !! FOLDER_PATH = None \/ fs w !! FOLDER_PATH = Some Dir ->
  fs w !! CSV_OUTPUT <> Some Dir -> csv_table (contents w CSV_OUTPUT) rows0 ->
  let m := with_folder (fs w) in
  let outs := map (outcome_of m) (listdir m FOLDER_PATH) in
  exists w', run w = (w', err_result (rows_until_stop outs).2) /\
             csv_table (contents w' CSV_OUTPUT) (rows0 ++ (rows_until_stop outs).1).
Proof. apply run_eq. Qed.

Lemma rows_until_stop_skipped outs rest :
  Forall (fun o => o = Skipped) outs -> rows_until_stop (outs ++ rest) = rows_until_stop rest.
Proof. induction 1 as [|o outs -> _ IH]; [done|]. apply IH. Qed.

(** Claim C2: when the first name (in listing order) that is
    not skipped gets a completion that is valid JSON but not an object,
    [result["File"] = filename] raises [TypeError], [run] stops with that
    exception, no row is written for it or for any later name, and the
    output table is left as it was. *)
Theorem run_stops_at_non_object w rows0 pre f post :
  fs w !! FOLDER_PATH = None \/ fs w !! FOLDER_PATH = Some Dir ->
  fs w !! CSV_OUTPUT <> Some Dir -> csv_table (contents w CSV_OUTPUT) rows0 ->
  listdir (with_folder (fs w)) FOLDER_PATH = pre ++ f :: post ->
  Forall (fun g => outcome_of (with_folder (fs w)) g = Skipped) pre ->
  isfile (with_folder (fs w)) (path_join FOLDER_PATH f) = true ->
  ocr_text (path_join FOLDER_PATH f) <> "" ->
  (forall d, completion OPENROUTER_API_KEY
               (PROMPT_HEAD +:+ ocr_text (path_join FOLDER_PATH f) +:+ newline) <> PDict d) ->
  exists w' e, run w = (w', inl e) /\ exn_kind_of e = TypeError /\
               csv_table (contents w' CSV_OUTPUT) rows0.
Proof.
  intros Hfold Hdir Ht Hls Hpre Hfile Htext Hcomp.
  destruct (run_eq w rows0 Hfold Hdir Ht) as (w' & Hrun & Ht').
  destruct (setitem_non_dict _ "File" (PStr f) Hcomp) as (e & Hset & He).
  assert (Ho : outcome_of (with_folder (fs w)) f = Stop e).
  { unfold outcome_of. rewrite Hfile. simpl.
    destruct (String.eqb_spec (ocr_text (path_join FOLDER_PATH f)) "") as [|_]; [done|].
    by rewrite Hset. }
  rewrite Hls, map_app, rows_until_stop_skipped in Hrun, Ht'
    by (apply Forall_map; exact Hpre).
  simpl in Hrun, Ht'. rewrite Ho in Hrun, Ht'. simpl in Hrun, Ht'.
  exists w', e. rewrite app_nil_r in Ht'. done.
Qed.

(** Claim C12: a regular file whose extracted text is empty
    is announced, extracted, and reported as skipped; no request is sent,
    the file system (the output file included) is unchanged, and the
    lines printed are the announcement, the OCR error line if there was
    one, and the skip notice. *)
Theorem process_file_skip f w :
  isfile (fs w) (path_join FOLDER_PATH f) = true -> ocr_text (path_join FOLDER_PATH f) = "" ->
  exists w', process_file f w = (w', inr ()) /\ fs w' = fs w /\
    posts (trace w') = posts (trace w) /\
    stdout w' = stdout w ++ ["Processing: " +:+ f] ++ ocr_lines (path_join FOLDER_PATH f) ++
                ["Skipped (no text): " +:+ f].
Proof.
  intros Hf Hnil. unfold process_file. unfold bind at 1, gets at 1. rewrite Hf. simpl.
  rewrite (bind_inr _ _ _ _ _ (print_spec _ _)).
  set (w1 := set_stdout _ w).
  destruct (extract_value (path_join FOLDER_PATH f) w1)
    as (w2 & evs & Hex & Hfs2 & Htr2 & Hnp & Hout2).
  rewrite (bind_inr _ _ _ _ _ Hex), Hnil. simpl.
  eexists. split; [done|]. split; [done|]. split.
  - simpl. rewrite Htr2, posts_app, (posts_none evs Hnp). simpl. lia.
  - simpl. rewrite Hout2. simpl. by rewrite <- !app_assoc.
Qed.

End Run.
(** ** Witnesses on a concrete environment

    A listing in the map's order, an OCR engine that knows three images,
    an endpoint that answers 200 with one of two documents depending on
    the prompt, and a decoder that knows four documents by name: the
    receipt's completion (an object) and one whose content is a JSON
    list. *)
Module Scenario.
#[export] Instance sc_listing : Listing :=
  {| listdir := dir_names; listdir_perm m d := Permutation_refl _ |}.

#[export] Instance sc_ocr : Ocr := {
  image := string;
  convert_from_path p := inl (Exn OSError "Unable to get page count.");
  image_open p :=
    if String.eqb p "./assets/receipt1.jpg" then inr "Total: $12.50 Date: 2024-01-05"
    else if String.eqb p "./assets/blank.png" then inr "  "
    else if String.eqb p "./assets/list.jpg" then inr "Total: 3"
    else inl (Exn OSError "cannot identify image file");
  image_to_string i := inr i
}.

Definition prompt_of_data (data : pyval) : string :=
  match data with
  | PDict [_; (_, PList [PDict [_; (_, PStr p)]])] => p
  | _ => ""
  end.

#[export] Instance sc_http : Http := {
  post url hdrs data :=
    if String.eqb (prompt_of_data data) (PROMPT_HEAD +:+ "Total: 3" +:+ newline)
    then inr (Response 200 "L") else inr (Response 200 "R")
}.

Definition choices_with (content : string) : pyval :=
  PDict [("choices", PList [PDict [("message", PDict [("content", PStr content)])]])].

#[export] Instance sc_json : JsonDecoder := {
  loads s :=
    if String.eqb s "R" then inr (choices_with "C")
    else if String.eqb s "C" then
      inr (PDict [("Date", PStr "2024-01-05"); ("Total Amount", PStr "12.50");
                  ("Tax Amount", PStr "0.00"); ("Payment Method", PStr "Cash");
                  ("Vendor Name", PStr "Cafe X"); ("Receipt Number", PStr "")])
    else if String.eqb s "L" then inr (choices_with "LC")
    else if String.eqb s "LC" then inr (PList [PInt 1])
    else inl (Exn JSONDecodeError "Expecting value: line 1 column 1 (char 0)")
}.

Definition world_with (names : list string) : world :=
  World [] (foldr (fun n m => <[path_join FOLDER_PATH n := RegFile "image"]> m)
                  (<[FOLDER_PATH := Dir]> ∅) names) [].

Definition KEY : string := "key".
End Scenario.
Import Scenario.

Lemma run_spec_witness :
  let w := world_with ["receipt1.jpg"; "blank.png"] in
  let m := with_folder (fs w) in
  let outs := map (outcome_of KEY m) (listdir m FOLDER_PATH) in
  exists w', run KEY w = (w', err_result (rows_until_stop outs).2) /\
             csv_table (contents w' CSV_OUTPUT) ([] ++ (rows_until_stop outs).1).
Proof.
  apply run_spec; [by right | vm_compute; congruence | left; by split].
Defined.

(** In that run, the receipt gives one row and the blank image none. *)
Example run_spec_witness_rows :
  let w := world_with ["receipt1.jpg"; "blank.png"] in
  let m := with_folder (fs w) in
  rows_until_stop (map (outcome_of KEY m) (listdir m FOLDER_PATH)) =
    ([["receipt1.jpg"; "2024-01-05"; "12.50"; "0.00"; "Cash"; "Cafe X"; ""]], None).
Proof. vm_compute. reflexivity. Qed.

Lemma run_stops_at_non_object_witness :
  exists w' e, run KEY (world_with ["list.jpg"]) = (w', inl e) /\ exn_kind_of e = TypeError /\
               csv_table (contents w' CSV_OUTPUT) [].
Proof.
  apply (run_stops_at_non_object KEY (world_with ["list.jpg"]) [] [] "list.jpg" []).
  - by right.
  - vm_compute. congruence.
  - left. by split.
  - vm_compute. reflexivity.
  - constructor.
  - vm_compute. reflexivity.
  - vm_compute. congruence.
  - intros d. vm_compute. congruence.
Defined.

Lemma process_file_skip_witness :
  exists w', process_file KEY "blank.png" (world_with ["blank.png"]) = (w', inr ()) /\
    fs w' = fs (world_with ["blank.png"]) /\
    posts (trace w') = posts (trace (world_with ["blank.png"])) /\
    stdout w' = stdout (world_with ["blank.png"]) ++ ["Processing: " +:+ "blank.png"] ++
                ocr_lines (path_join FOLDER_PATH "blank.png") ++ ["Skipped (no text): " +:+ "blank.png"].
Proof. apply process_file_skip; vm_compute; reflexivity. Defined.

End Orchestrator.
