(* ===== verification/Transcript.v ===== *)
(** * What a whole run sends and prints

    [Orchestrator] relates [run] to the rows it appends.  This file follows
    the other two effects of the loop of lines 90-104 over the whole
    listing, up to and including the name that stops the run (the first
    whose outcome is [Stop]):
    - the requests sent to the endpoint: one per name whose text is not
      empty ([run_requests_bound]);
    - the lines printed: for each name, [Orchestrator.lines_of], that is
      [Processing: <name>] for a regular file, the OCR error line if
      extraction failed, then the skip notice or the client's error line
      ([run_stdout]).  Reading the announcements back from that
      transcript, a run that no name stops announces every regular file
      of the folder, once and in listing order ([run_announces_all]). *)

From S2P Require Import Prelude PyStr PyValue Os Extractor Prompt Client Csv Writer Orchestrator.

Module Transcript.
Import PyStr PyValue Os Extractor Prompt Client Csv Writer Orchestrator.
Local Open Scope py_scope.

Section Transcript.
Context {listing : Listing} {ocr : Ocr} {http : Http} {json : JsonDecoder}.
Variable OPENROUTER_API_KEY : string.

(** The names the loop reaches: all of them, or those up to and
    including the first whose outcome is an exception. *)
Fixpoint names_until_stop (m : gmap string entry) (names : list string) : list string :=
  match names with
  | [] => []
  | f :: rest =>
      match outcome_of OPENROUTER_API_KEY m f with
      | Stop _ => [f]
      | _ => f :: names_until_stop m rest
      end
  end.

(** The requests sent for a list of outcomes: one per name that is not
    skipped, up to and including the first exception. *)
Fixpoint requests_until_stop (outs : list outcome) : nat :=
  match outs with
  | [] => 0
  | Stop _ :: _ => 1
  | o :: rest => requests_of o + requests_until_stop rest
  end.

Definition regular (m : gmap string entry) (f : string) : bool :=
  isfile m (path_join FOLDER_PATH f).

(** ** Lemmas *)

Lemma requests_until_stop_le outs : requests_until_stop outs <= length outs.
Proof. induction outs as [|[| |] outs IH]; simpl; lia. Qed.

Lemma names_until_stop_all m names :
  Forall (fun f => forall e, outcome_of OPENROUTER_API_KEY m f <> Stop e) names ->
  names_until_stop m names = names.
Proof.
  induction 1 as [|f names Hf _ IH]; [done|]. simpl.
  destruct (outcome_of OPENROUTER_API_KEY m f) eqn:E;
    [by rewrite IH | by rewrite IH | by destruct (Hf e)].
Qed.

(** Writing the output file does not change which names are regular files. *)
Lemma regular_fs_after w o f : regular (fs_after w o) f = regular (fs w) f.
Proof. destruct o; [done| |done]. apply isfile_insert_ne, folder_path_ne_csv. Qed.

Lemma fs_after_csv w o : fs w !! CSV_OUTPUT <> Some Dir -> fs_after w o !! CSV_OUTPUT <> Some Dir.
Proof. destruct o; [done| |done]. intros _. simpl. rewrite lookup_insert_eq. discriminate. Qed.

Lemma outcome_of_fs_after w o f :
  outcome_of OPENROUTER_API_KEY (fs_after w o) f = outcome_of OPENROUTER_API_KEY (fs w) f.
Proof. destruct o; [done| |done]. apply outcome_of_insert_csv. Qed.

Lemma lines_of_regular m1 m2 f :
  regular m1 f = regular m2 f ->
  lines_of OPENROUTER_API_KEY m1 f = lines_of OPENROUTER_API_KEY m2 f.
Proof. unfold regular, lines_of. by intros ->. Qed.

(** Of the lines printed for a name, only the announcement is read back
    by [announcements]. *)
Lemma announcements_lines_of m f :
  announcements (lines_of OPENROUTER_API_KEY m f) = if regular m f then [f] else [].
Proof.
  unfold lines_of, regular. destruct (isfile m _); [|done]. cbn [negb]. cbv zeta.
  rewrite announcements_app, announcements_line, strip_prefix_app, announcements_nil; [done|].
  apply Forall_app. split.
  - unfold ocr_lines. destruct (ocr_error _); repeat constructor; apply quiet_ocr_error.
  - destruct (String.eqb _ _); [repeat constructor; apply quiet_skipped|].
    unfold client_lines. repeat case_match; repeat constructor;
      first [apply quiet_error | apply quiet_api_error].
Qed.

Lemma announcements_concat m names :
  announcements (concat (map (lines_of OPENROUTER_API_KEY m) names)) = List.filter (regular m) names.
Proof.
  induction names as [|f names IH]; [done|]. simpl.
  rewrite announcements_app, announcements_lines_of, IH. by destruct (regular m f).
Qed.

(** The loop over the listed names: the requests it sends and the lines
    it prints, against a fixed map [m]. *)
Lemma loop_transcript names w m :
  fs w !! CSV_OUTPUT <> Some Dir ->
  (forall f, outcome_of OPENROUTER_API_KEY (fs w) f = outcome_of OPENROUTER_API_KEY m f) ->
  (forall f, regular (fs w) f = regular m f) ->
  exists w', for_each names (process_file OPENROUTER_API_KEY) w =
    (w', err_result (rows_until_stop (map (outcome_of OPENROUTER_API_KEY m) names)).2) /\
    posts (trace w') = posts (trace w) +
      requests_until_stop (map (outcome_of OPENROUTER_API_KEY m) names) /\
    stdout w' = stdout w ++ concat (map (lines_of OPENROUTER_API_KEY m) (names_until_stop m names)).
Proof.
  revert w. induction names as [|f names IH]; intros w Hdir Hout Hreg.
  { exists w. by rewrite Nat.add_0_r, app_nil_r. }
  destruct (process_file_spec OPENROUTER_API_KEY f w Hdir) as (w1 & Hp & Hfs1 & Hpo1 & Ha1).
  rewrite (lines_of_regular _ m f (Hreg f)) in Ha1. rewrite Hout in Hp, Hfs1, Hpo1.
  simpl. unfold bind at 1. rewrite Hp.
  destruct (outcome_of OPENROUTER_API_KEY m f) as [|d|e] eqn:Ho; simpl.
  3: { exists w1. rewrite Hpo1, Ha1, app_nil_r. split_and!; [done | simpl; lia | done]. }
  all: destruct (IH w1) as (w2 & Hl & Hpo2 & Ha2);
    [ rewrite Hfs1; by apply fs_after_csv
    | intros g; by rewrite Hfs1, outcome_of_fs_after, Hout
    | intros g; by rewrite Hfs1, regular_fs_after, Hreg | ].
  all: exists w2; split;
    [rewrite Hl; by destruct (rows_until_stop _) | rewrite Hpo2, Ha2, Hpo1, Ha1; split; [simpl; lia|]].
  all: by rewrite <- app_assoc.
Qed.

(** [os.makedirs(FOLDER_PATH, exist_ok=True)] followed by the listing:
    the loop starts from the world with the folder created. *)
Lemma run_loop_start w :
  fs w !! FOLDER_PATH = None \/ fs w !! FOLDER_PATH = Some Dir ->
  exists w0, fs w0 = with_folder (fs w) /\ trace w0 = trace w /\ stdout w0 = stdout w /\
    run OPENROUTER_API_KEY w =
      for_each (listdir (with_folder (fs w)) FOLDER_PATH) (process_file OPENROUTER_API_KEY) w0.
Proof.
  intros [Hn|Hd]; unfold with_folder; [rewrite Hn | rewrite Hd].
  - exists (set_fs (<[FOLDER_PATH := Dir]> (fs w)) w). split_and!; try reflexivity.
    unfold Orchestrator.run, makedirs_exist_ok, bind at 1. rewrite Hn. reflexivity.
  - exists w. split_and!; try reflexivity.
    unfold Orchestrator.run, makedirs_exist_ok, bind at 1. rewrite Hd. reflexivity.
Qed.

Lemma with_folder_csv m : m !! CSV_OUTPUT <> Some Dir -> with_folder m !! CSV_OUTPUT <> Some Dir.
Proof.
  unfold with_folder. destruct (m !! FOLDER_PATH); [done|].
  rewrite lookup_insert_ne; [done | apply folder_ne_csv].
Qed.

Lemma rows_until_stop_no_stop m names :
  Forall (fun f => forall e, outcome_of OPENROUTER_API_KEY m f <> Stop e) names ->
  (rows_until_stop (map (outcome_of OPENROUTER_API_KEY m) names)).2 = None.
Proof.
  induction 1 as [|f names Hf _ IH]; [done|]. simpl.
  destruct (outcome_of OPENROUTER_API_KEY m f) eqn:E; [done| |by destruct (Hf e)].
  by destruct (rows_until_stop _).
Qed.

(** A name that is not a regular file is skipped without a request. *)
Lemma requests_until_stop_regular m names :
  requests_until_stop (map (outcome_of OPENROUTER_API_KEY m) names) <=
    length (List.filter (regular m) names).
Proof.
  induction names as [|f names IH]; [done|]. simpl.
  destruct (regular m f) eqn:Hr.
  - destruct (outcome_of OPENROUTER_API_KEY m f); simpl; lia.
  - assert (outcome_of OPENROUTER_API_KEY m f = Skipped) as ->; [|done].
    unfold outcome_of. unfold regular in Hr. by rewrite Hr.
Qed.

Lemma run_transcript w :
  fs w !! FOLDER_PATH = None \/ fs w !! FOLDER_PATH = Some Dir ->
  fs w !! CSV_OUTPUT <> Some Dir ->
  let m := with_folder (fs w) in
  let names := listdir m FOLDER_PATH in
  exists w', run OPENROUTER_API_KEY w =
      (w', err_result (rows_until_stop (map (outcome_of OPENROUTER_API_KEY m) names)).2) /\
    posts (trace w') = posts (trace w) +
      requests_until_stop (map (outcome_of OPENROUTER_API_KEY m) names) /\
    stdout w' = stdout w ++ concat (map (lines_of OPENROUTER_API_KEY m) (names_until_stop m names)).
Proof.
  intros Hfold Hdir. cbv zeta.
  destruct (run_loop_start w Hfold) as (w0 & Hfs0 & Htr0 & Hout0 & ->).
  rewrite <- Htr0, <- Hout0.
  apply loop_transcript; rewrite ?Hfs0; [by apply with_folder_csv | done | done].
Qed.

(** ** Theorems *)

(** Claim C21: the number of requests a run sends is bounded by the
    number of regular files in the folder: one per listed regular file
    whose text is not empty, counted up to and including the name that
    stops the run, and no more. *)
Theorem run_requests_bound w :
  fs w !! FOLDER_PATH = None \/ fs w !! FOLDER_PATH = Some Dir ->
  fs w !! CSV_OUTPUT <> Some Dir ->
  let m := with_folder (fs w) in
  let names := listdir m FOLDER_PATH in
  exists w' r, run OPENROUTER_API_KEY w = (w', r) /\
    posts (trace w') = posts (trace w) +
      requests_until_stop (map (outcome_of OPENROUTER_API_KEY m) names) /\
    posts (trace w') <= posts (trace w) + length (List.filter (regular m) names).
Proof.
  intros Hfold Hdir. cbv zeta.
  destruct (run_transcript w Hfold Hdir) as (w' & Hrun & Hpo & _).
  eexists _, _. split_and!; [done | done |]. rewrite Hpo.
  pose proof (requests_until_stop_regular (with_folder (fs w))
                (listdir (with_folder (fs w)) FOLDER_PATH)). lia.
Qed.

(** Claim C22: when no name of the folder stops the run, every regular
    file of the folder is announced, once and in listing order: the names
    the run prints after [Processing: ] are exactly the regular files of
    the listing. *)
Theorem run_announces_all w :
  fs w !! FOLDER_PATH = None \/ fs w !! FOLDER_PATH = Some Dir ->
  fs w !! CSV_OUTPUT <> Some Dir ->
  let m := with_folder (fs w) in
  let names := listdir m FOLDER_PATH in
  Forall (fun f => forall e, outcome_of OPENROUTER_API_KEY m f <> Stop e) names ->
  exists w', run OPENROUTER_API_KEY w = (w', inr ()) /\
    announcements (stdout w') = announcements (stdout w) ++ List.filter (regular m) names.
Proof.
  intros Hfold Hdir m names Hns.
  destruct (run_transcript w Hfold Hdir) as (w' & Hrun & _ & Hout).
  exists w'. rewrite Hrun, Hout, announcements_app, announcements_concat, names_until_stop_all,
    rows_until_stop_no_stop; done.
Qed.

(** Claim C23: what a run prints, line for line: for each listed name
    up to and including the one that stops the run, in listing order,
    nothing for a name that is not a regular file, and otherwise
    [Processing: <name>], the OCR error line if extraction failed, then
    [Skipped (no text): <name>] or the client's error line, if any. *)
Theorem run_stdout w :
  fs w !! FOLDER_PATH = None \/ fs w !! FOLDER_PATH = Some Dir ->
  fs w !! CSV_OUTPUT <> Some Dir ->
  let m := with_folder (fs w) in
  let names := listdir m FOLDER_PATH in
  exists w', run OPENROUTER_API_KEY w =
      (w', err_result (rows_until_stop (map (outcome_of OPENROUTER_API_KEY m) names)).2) /\
    stdout w' = stdout w ++ concat (map (lines_of OPENROUTER_API_KEY m) (names_until_stop m names)).
Proof.
  intros Hfold Hdir. destruct (run_transcript w Hfold Hdir) as (w' & Hrun & _ & Hout).
  by exists w'.
Qed.

End Transcript.

(** ** Witnesses on the environment of [Orchestrator.Scenario] *)
Import Orchestrator.Scenario.

Definition sc_world : world := world_with ["receipt1.jpg"; "blank.png"].

Lemma run_requests_bound_witness :
  let m := with_folder (fs sc_world) in
  let names := listdir m FOLDER_PATH in
  exists w' r, run KEY sc_world = (w', r) /\
    posts (trace w') = posts (trace sc_world) + requests_until_stop (map (outcome_of KEY m) names) /\
    posts (trace w') <= posts (trace sc_world) + length (List.filter (regular m) names).
Proof. apply run_requests_bound; [right; vm_compute; reflexivity | vm_compute; congruence]. Defined.

Lemma run_announces_all_witness :
  let m := with_folder (fs sc_world) in
  let names := listdir m FOLDER_PATH in
  exists w', run KEY sc_world = (w', inr ()) /\
    announcements (stdout w') = announcements (stdout sc_world) ++ List.filter (regular m) names.
Proof.
  apply run_announces_all; [right; vm_compute; reflexivity | vm_compute; congruence |].
  vm_compute. repeat constructor; intros e; discriminate.
Defined.

Lemma run_stdout_witness :
  let m := with_folder (fs sc_world) in
  let names := listdir m FOLDER_PATH in
  exists w', run KEY sc_world =
      (w', err_result (rows_until_stop (map (outcome_of KEY m) names)).2) /\
    stdout w' = stdout sc_world ++ concat (map (lines_of KEY m) (names_until_stop KEY m names)).
Proof. apply run_stdout; [right; vm_compute; reflexivity | vm_compute; congruence]. Defined.

(** The lines of that run: the blank image's text is empty. *)
Example sc_world_stdout :
  let m := with_folder (fs sc_world) in
  concat (map (lines_of KEY m) (names_until_stop KEY m (listdir m FOLDER_PATH))) =
    ["Processing: receipt1.jpg"; "Processing: blank.png"; "Skipped (no text): blank.png"].
Proof. vm_compute. reflexivity. Qed.

(** In that run, one request is sent (the blank image has no text) and
    both images are announced. *)
Example sc_world_transcript :
  let m := with_folder (fs sc_world) in
  let names := listdir m FOLDER_PATH in
  requests_until_stop (map (outcome_of KEY m) names) = 1 /\
  List.filter (regular m) names = ["receipt1.jpg"; "blank.png"].
Proof. vm_compute. split; reflexivity. Qed.

End Transcript.
