(* ===== verification/RunErrors.v ===== *)
(** * The error paths of a whole run

    [Orchestrator.run_spec] covers a run whose input folder is absent or
    a directory and whose output file is absent or a regular file.  The
    two other cases end in an [OSError] that nothing catches:
    - [./assets] is a regular file: [os.makedirs(FOLDER_PATH,
      exist_ok=True)] (line 89) raises [FileExistsError] before anything
      is listed, printed or sent;
    - the output path is a directory: the first name that reaches
      [save_to_csv] (line 104) makes [open(path, "a")] (line 72) raise
      [IsADirectoryError], an [OSError] with errno 21, and the run stops
      there; the names before it were skipped, and a name whose
      completion is not an object stops the run first, as always. *)

From S2P Require Import Prelude PyStr PyValue Os Extractor Prompt Client Csv Writer Orchestrator Transcript.

Module RunErrors.
Import PyStr PyValue Os Extractor Prompt Client Csv Writer Orchestrator Transcript.
Local Open Scope py_scope.

(** [str(e)] of the [IsADirectoryError] [open(CSV_OUTPUT, "a")] raises. *)
Definition dir_error : exn :=
  Exn OSError ("[Errno 21] Is a directory: " +:+ repr_str CSV_OUTPUT).

(** The result of a run whose output path is a directory: the first
    outcome that is not [Skipped] decides it. *)
Fixpoint first_failure (outs : list outcome) : exn + unit :=
  match outs with
  | [] => inr ()
  | Skipped :: rest => first_failure rest
  | Row _ :: _ => inl dir_error
  | Stop e :: _ => inl e
  end.

Section RunErrors.
Context {listing : Listing} {ocr : Ocr} {http : Http} {json : JsonDecoder}.
Variable OPENROUTER_API_KEY : string.

(** ** Lemmas *)

(** One iteration when the output path is a directory: the file system
    is left as it is, and a name that reaches [save_to_csv] raises. *)
Lemma process_file_dir f w :
  fs w !! CSV_OUTPUT = Some Dir ->
  exists w', process_file OPENROUTER_API_KEY f w =
               (w', first_failure [outcome_of OPENROUTER_API_KEY (fs w) f]) /\
             fs w' = fs w.
Proof.
  intros Hdir. destruct (process_file_cases OPENROUTER_API_KEY f w) as (w3 & Hfs3 & _ & _ & ->).
  destruct (outcome_of OPENROUTER_API_KEY (fs w) f) as [|d|e]; [by exists w3 | | by exists w3].
  rewrite save_to_csv_dir by (by rewrite Hfs3). by exists w3.
Qed.

Lemma loop_dir names w m :
  fs w !! CSV_OUTPUT = Some Dir ->
  (forall f, outcome_of OPENROUTER_API_KEY (fs w) f = outcome_of OPENROUTER_API_KEY m f) ->
  exists w', for_each names (process_file OPENROUTER_API_KEY) w =
               (w', first_failure (map (outcome_of OPENROUTER_API_KEY m) names)) /\
             fs w' = fs w.
Proof.
  revert w. induction names as [|f names IH]; intros w Hdir Hout; [by exists w|].
  destruct (process_file_dir f w Hdir) as (w1 & Hp & Hfs1). rewrite Hout in Hp.
  simpl. unfold bind at 1. rewrite Hp.
  destruct (outcome_of OPENROUTER_API_KEY m f); simpl; [|by exists w1 | by exists w1].
  destruct (IH w1) as (w2 & Hl & Hfs2); [by rewrite Hfs1 | by intros g; rewrite Hfs1 |].
  exists w2. by rewrite Hfs2, Hfs1.
Qed.

(** ** Theorems *)

(** Claim C24: when [./assets] is a regular file, [run] raises
    [FileExistsError] at [os.makedirs] and nothing else happens: the
    world (what was printed, the file system, the calls made) is the
    one it started from. *)
Theorem run_folder_is_file w c :
  fs w !! FOLDER_PATH = Some (RegFile c) ->
  run OPENROUTER_API_KEY w =
    (w, inl (Exn FileExistsError ("[Errno 17] File exists: " +:+ repr_str FOLDER_PATH))).
Proof. intros H. unfold Orchestrator.run, makedirs_exist_ok, bind at 1. by rewrite H. Qed.

(** Claim C25: when the output path is a directory, [run] raises at
    the first name that is not skipped: [IsADirectoryError] when that
    name's completion is an object (the row cannot be appended), the
    [TypeError] of [result["File"] = filename] otherwise; it returns
    normally when every name is skipped.  No file is written. *)
Theorem run_output_dir w :
  fs w !! FOLDER_PATH = None \/ fs w !! FOLDER_PATH = Some Dir ->
  fs w !! CSV_OUTPUT = Some Dir ->
  let m := with_folder (fs w) in
  exists w', run OPENROUTER_API_KEY w =
               (w', first_failure (map (outcome_of OPENROUTER_API_KEY m) (listdir m FOLDER_PATH))) /\
             fs w' = m.
Proof.
  intros Hfold Hdir. cbv zeta.
  destruct (run_loop_start OPENROUTER_API_KEY w Hfold) as (w0 & Hfs0 & _ & _ & ->).
  destruct (loop_dir (listdir (with_folder (fs w)) FOLDER_PATH) w0 (with_folder (fs w)))
    as (w' & Hl & Hfs'); [| by rewrite Hfs0 |].
  - rewrite Hfs0. unfold with_folder. destruct (fs w !! FOLDER_PATH); [done|].
    by rewrite lookup_insert_ne by apply folder_ne_csv.
  - exists w'. by rewrite Hl, Hfs', Hfs0.
Qed.

End RunErrors.

(** ** Witnesses *)
Import Orchestrator.Scenario.

Definition file_world : world := World [] (<[FOLDER_PATH := RegFile "x"]> ∅) [].

Lemma run_folder_is_file_witness :
  run KEY file_world =
    (file_world, inl (Exn FileExistsError ("[Errno 17] File exists: " +:+ repr_str FOLDER_PATH))).
Proof. apply (run_folder_is_file KEY file_world "x"). vm_compute. reflexivity. Defined.

(** The scenario's folder with a directory where the output file goes. *)
Definition dir_world : world :=
  World [] (<[CSV_OUTPUT := Dir]> (fs (world_with ["receipt1.jpg"; "blank.png"]))) [].

Lemma run_output_dir_witness :
  let m := with_folder (fs dir_world) in
  exists w', run KEY dir_world =
               (w', first_failure (map (outcome_of KEY m) (listdir m FOLDER_PATH))) /\
             fs w' = m.
Proof. apply run_output_dir; [right; vm_compute; reflexivity | vm_compute; reflexivity]. Defined.

(** In that world, the receipt's row cannot be written. *)
Example dir_world_result :
  let m := with_folder (fs dir_world) in
  first_failure (map (outcome_of KEY m) (listdir m FOLDER_PATH)) = inl dir_error.
Proof. vm_compute. reflexivity. Qed.

End RunErrors.
