(* ===== verification/Frame.v ===== *)
(** * What a run may change in the file system

    [run] writes through one call only: [save_to_csv(CSV_OUTPUT, ...)]
    (line 104), which opens the output file in append mode (line 72);
    [os.makedirs] (line 89) creates the input folder when it is missing.
    Hence, whatever the collaborators answer and however the run ends:
    - every path but the output file is as [os.makedirs] left it: the
      receipts, the folder and everything else are untouched
      ([run_frame]);
    - the output file is only appended to: its old contents are a prefix
      of its new contents, so no earlier row is ever lost or rewritten
      ([run_append_only]).
    Both facts are one relation between worlds, [frames], a preorder that
    every step of the loop satisfies. *)

From S2P Require Import Prelude PyStr PyValue Os Extractor Prompt Client Csv Writer Orchestrator.

Module Frame.
Import PyStr PyValue Os Extractor Prompt Client Csv Writer Orchestrator.
Local Open Scope py_scope.

(** [w'] differs from [w] at most by text appended to the output file. *)
Definition frames (w w' : world) : Prop :=
  (forall p, p <> CSV_OUTPUT -> fs w' !! p = fs w !! p) /\
  exists t, contents w' CSV_OUTPUT = contents w CSV_OUTPUT +:+ t.

#[export] Instance frames_preorder : PreOrder frames.
Proof.
  split.
  - intros w. split; [done|]. exists "". by rewrite string_app_nil_r.
  - intros w1 w2 w3 [H12 [t1 Ht1]] [H23 [t2 Ht2]]. split.
    + intros p Hp. by rewrite H23, H12.
    + exists (t1 +:+ t2). by rewrite Ht2, Ht1, string_app_assoc.
Qed.

Lemma frames_same_fs w w' : fs w' = fs w -> frames w w'.
Proof.
  intros H. split; [by rewrite H|]. exists "". unfold contents. by rewrite H, string_app_nil_r.
Qed.

#[local] Hint Resolve frames_same_fs : core.

Section Frame.
Context {listing : Listing} {ocr : Ocr} {http : Http} {json : JsonDecoder}.
Variable OPENROUTER_API_KEY : string.

(** ** Lemmas *)

(** [save_to_csv] on the output file frames the world, whether it
    appends or raises. *)
Lemma save_to_csv_frames d w :
  exists w' r, save_to_csv CSV_OUTPUT d w = (w', r) /\ frames w w'.
Proof.
  destruct (decide (fs w !! CSV_OUTPUT = Some Dir)) as [Hd|Hd].
  - rewrite save_to_csv_dir by done. by eexists _, _.
  - rewrite save_to_csv_eq by done. eexists _, _. split; [done|]. split.
    + intros p Hp. simpl. by rewrite lookup_insert_ne by congruence.
    + eexists. unfold contents at 1. simpl. by rewrite lookup_insert_eq.
Qed.

Lemma process_file_frames f w :
  exists w' r, process_file OPENROUTER_API_KEY f w = (w', r) /\ frames w w'.
Proof.
  destruct (process_file_cases OPENROUTER_API_KEY f w) as (w3 & Hfs3 & _ & _ & ->).
  destruct (outcome_of OPENROUTER_API_KEY (fs w) f) as [|d|e];
    [eexists _, _; split; [done | by apply frames_same_fs] | |
     eexists _, _; split; [done | by apply frames_same_fs]].
  destruct (save_to_csv_frames d w3) as (w' & r & -> & Hf).
  exists w', r. split; [done|]. by transitivity w3; [apply frames_same_fs|].
Qed.

Lemma loop_frames names w :
  exists w' r, for_each names (process_file OPENROUTER_API_KEY) w = (w', r) /\ frames w w'.
Proof.
  revert w. induction names as [|f names IH]; intros w; simpl; [by eexists _, _|].
  destruct (process_file_frames f w) as (w1 & r1 & Hp & Hf1). unfold bind at 1. rewrite Hp.
  destruct r1; [by eexists _, _|].
  destruct (IH w1) as (w2 & r2 & -> & Hf2). exists w2, r2. split; [done|]. by etransitivity.
Qed.

(** [os.makedirs] then the loop: the world after the folder's creation is
    framed by the end of the run. *)
Lemma run_frames w :
  exists w0 w' r, fs w0 = with_folder (fs w) /\
    contents w0 CSV_OUTPUT = contents w CSV_OUTPUT /\
    run OPENROUTER_API_KEY w = (w', r) /\ frames w0 w'.
Proof.
  unfold Orchestrator.run, makedirs_exist_ok, with_folder, bind at 1.
  destruct (fs w !! FOLDER_PATH) as [[c|]|] eqn:Hf.
  - exists w. eexists _, _. split_and!; [done | done | done | reflexivity].
  - exists w. unfold gets. destruct (loop_frames (listdir (fs w) FOLDER_PATH) w) as (w' & r & Hl & Hfr).
    exists w', r. split_and!; [done | done | done | done].
  - set (w0 := set_fs (<[FOLDER_PATH := Dir]> (fs w)) w).
    destruct (loop_frames (listdir (fs w0) FOLDER_PATH) w0) as (w' & r & Hl & Hfr).
    exists w0, w', r. split_and!; [done | | done | done].
    unfold contents. simpl. by rewrite lookup_insert_ne by apply folder_ne_csv.
Qed.

(** ** Theorems *)

(** Claim C27: whatever the collaborators answer and however the run
    ends, every path of the file system other than the output file is,
    after [run], what it was once [os.makedirs] had created the input
    folder: no receipt, no other file and no directory is changed,
    created or removed. *)
Theorem run_frame w :
  exists w' r, run OPENROUTER_API_KEY w = (w', r) /\
    forall p, p <> CSV_OUTPUT -> fs w' !! p = with_folder (fs w) !! p.
Proof.
  destruct (run_frames w) as (w0 & w' & r & Hfs0 & _ & Hrun & [Hp _]).
  exists w', r. split; [done|]. intros p Hne. by rewrite Hp, Hfs0.
Qed.

(** Claim C28: [run] only appends to the output file: whatever the
    collaborators answer and however the run ends, the file's old
    contents (empty when it did not exist) are a prefix of its new
    contents. *)
Theorem run_append_only w :
  exists w' r t, run OPENROUTER_API_KEY w = (w', r) /\
    contents w' CSV_OUTPUT = contents w CSV_OUTPUT +:+ t.
Proof.
  destruct (run_frames w) as (w0 & w' & r & _ & Hc0 & Hrun & [_ [t Ht]]).
  exists w', r, t. by rewrite Ht, Hc0.
Qed.

End Frame.

End Frame.
