(* ===== verification/EndToEnd.v ===== *)
(** * A whole run against an endpoint that speaks JSON

    [Orchestrator.run_spec] proves [run] for any decoder; [Wire] proves
    [ask_openrouter] with the model of [json.loads].  Put together: when
    the endpoint answers every request with a 200 response whose body is
    the JSON encoding of a completion, and whose content is the JSON
    encoding of an object [D f] for the file [f], the run never stops
    and appends one row per regular file with text, in listing order:
    the fields of [D f] read by [save_to_csv], with [File] set to the
    file's name ([run_conforming]).  When every completion instead wraps
    its JSON in a Markdown code fence, the run still completes, but every
    row holds the file's name and six empty fields ([run_fenced]).  Both
    are instances of [run_completion]: a run in which every file with
    text gets an object as its completion. *)

From S2P Require Import Prelude PyStr PyValue Json JsonRoundtrip Os Extractor Prompt Client Wire Csv Writer Orchestrator.

Module EndToEnd.
Import PyStr PyValue Json JsonRoundtrip Os Extractor Prompt Client Wire Csv Writer Orchestrator.
Local Open Scope py_scope.

Section EndToEnd.
Context {listing : Listing} {ocr : Ocr} {http : Http}.
Variable float_repr : string -> string.
Variable OPENROUTER_API_KEY : string.

#[local] Instance json_model : JsonDecoder | 0 := json_decoder float_repr.

(** The prompt [run] builds for a file (line 101). *)
Definition prompt_of (f : string) : string :=
  PROMPT_HEAD +:+ ocr_text (path_join FOLDER_PATH f) +:+ newline.

(** A name that is a regular file whose extracted text is not empty. *)
Definition has_text (m : gmap string entry) (f : string) : bool :=
  isfile m (path_join FOLDER_PATH f) && negb (String.eqb (ocr_text (path_join FOLDER_PATH f)) "").

(** The endpoint answers the request for [prompt] with a 200 response
    whose body encodes a completion whose content encodes the object [d]. *)
Definition conforming (prompt : string) (d : dict) : Prop :=
  exists o1 o2 body reply c,
    post URL (headers OPENROUTER_API_KEY) (request_data prompt) = inr (Response 200 body) /\
    seps_ok o1 /\ json_wf float_repr reply /\ encode o1 reply = inr body /\
    content_path reply = inr (PStr c) /\
    seps_ok o2 /\ json_wf float_repr (PDict d) /\ encode o2 (PDict d) = inr c.

(** The endpoint answers the request for [prompt] with a 200 response
    whose completion's content is wrapped in a Markdown code fence. *)
Definition fenced (prompt : string) : Prop :=
  exists body reply rest,
    post URL (headers OPENROUTER_API_KEY) (request_data prompt) = inr (Response 200 body) /\
    Json.loads float_repr body = inr reply /\
    content_path reply = inr (PStr (String "`" rest)).

(** The row [save_to_csv] writes for a file whose completion is [d]. *)
Definition expected_row (d : dict) (f : string) : list string :=
  row_fields (dict_set d "File" (PStr f)).

(** ** Lemmas *)

Lemma completion_conforming p d :
  conforming p d -> completion OPENROUTER_API_KEY p = PDict d.
Proof.
  intros (o1 & o2 & body & reply & c & Hpost & Hs1 & Hw1 & He1 & Hpath & Hs2 & Hw2 & He2).
  unfold completion, json_model. rewrite Hpost. simpl status_code. rewrite Z.eqb_refl. simpl text.
  by rewrite (decode_response_conforming float_repr body reply c (PDict d) o1 o2).
Qed.

Lemma completion_fenced p : fenced p -> completion OPENROUTER_API_KEY p = PDict [].
Proof.
  intros (body & reply & rest & Hpost & Hbody & Hpath).
  unfold completion, json_model. rewrite Hpost. simpl status_code. rewrite Z.eqb_refl. simpl text.
  by rewrite (decode_response_fenced float_repr body reply rest).
Qed.

Lemma outcome_no_text m f : has_text m f = false -> outcome_of OPENROUTER_API_KEY m f = Skipped.
Proof.
  unfold has_text, outcome_of. destruct (isfile m _); [|done]. simpl.
  by destruct (String.eqb _ _).
Qed.

Lemma outcome_completion m f d :
  has_text m f = true -> completion OPENROUTER_API_KEY (prompt_of f) = PDict d ->
  outcome_of OPENROUTER_API_KEY m f = Row (dict_set d "File" (PStr f)).
Proof.
  unfold has_text, outcome_of. intros Ht Hc.
  destruct (isfile m _); [|done]. destruct (String.eqb _ _); [done|].
  unfold prompt_of in Hc. simpl. by rewrite Hc.
Qed.

(** The rows of a run in which every file with text gets an object [D f]
    as its completion. *)
Lemma rows_completion m names (D : string -> dict) :
  (forall f, In f names -> has_text m f = true ->
     completion OPENROUTER_API_KEY (prompt_of f) = PDict (D f)) ->
  rows_until_stop (map (outcome_of OPENROUTER_API_KEY m) names) =
    (map (fun f => expected_row (D f) f) (List.filter (has_text m) names), None).
Proof.
  induction names as [|f names IH]; intros HD; [done|]. simpl.
  destruct (has_text m f) eqn:Ht.
  - rewrite (outcome_completion m f (D f) Ht) by (apply HD; [left | ]; done).
    rewrite IH by (intros g Hg; apply HD; by right). done.
  - rewrite outcome_no_text by done. apply IH. intros g Hg. apply HD. by right.
Qed.

(** Such a run returns normally and appends those rows. *)
Lemma run_completion w rows0 (D : string -> dict) :
  fs w !! FOLDER_PATH = None \/ fs w !! FOLDER_PATH = Some Dir ->
  fs w !! CSV_OUTPUT <> Some Dir -> csv_table (contents w CSV_OUTPUT) rows0 ->
  let m := with_folder (fs w) in
  let names := listdir m FOLDER_PATH in
  (forall f, In f names -> has_text m f = true ->
     completion OPENROUTER_API_KEY (prompt_of f) = PDict (D f)) ->
  exists w', run OPENROUTER_API_KEY w = (w', inr ()) /\
    csv_table (contents w' CSV_OUTPUT)
      (rows0 ++ map (fun f => expected_row (D f) f) (List.filter (has_text m) names)).
Proof.
  intros Hfold Hdir Ht m names HD.
  destruct (run_eq OPENROUTER_API_KEY w rows0 Hfold Hdir Ht) as (w' & Hrun & Ht').
  fold m names in Hrun, Ht'. rewrite (rows_completion m names D HD) in Hrun, Ht'.
  by exists w'.
Qed.

(** The first column of the row is the file's name. *)
Lemma expected_row_file d f : hd "" (expected_row d f) = f.
Proof. unfold expected_row, row_fields, row_values, dict_get. simpl. by rewrite dict_lookup_set_eq. Qed.

(** ** Theorem *)

(** Claim C26: against an endpoint that answers every request of the
    run with the JSON encoding of a completion whose content encodes an
    object [D f], [run] returns normally and appends to the output table
    exactly one row per regular file with text, in listing order: the
    fields of [D f] that [save_to_csv] reads, with [File] set to the
    file's name. *)
Theorem run_conforming w rows0 (D : string -> dict) :
  fs w !! FOLDER_PATH = None \/ fs w !! FOLDER_PATH = Some Dir ->
  fs w !! CSV_OUTPUT <> Some Dir -> csv_table (contents w CSV_OUTPUT) rows0 ->
  let m := with_folder (fs w) in
  let names := listdir m FOLDER_PATH in
  (forall f, In f names -> has_text m f = true -> conforming (prompt_of f) (D f)) ->
  exists w', run OPENROUTER_API_KEY w = (w', inr ()) /\
    csv_table (contents w' CSV_OUTPUT)
      (rows0 ++ map (fun f => expected_row (D f) f) (List.filter (has_text m) names)).
Proof.
  intros Hfold Hdir Ht m names HD. apply run_completion; [done..|].
  intros f Hin Hf. apply completion_conforming, HD; done.
Qed.

(** Claim C29: against an endpoint whose completions all wrap their
    content in a Markdown code fence, as chat models often do, [run]
    prints the decoder's error for each file but returns normally, and
    appends one row per regular file with text, in listing order, that
    holds the file's name and six empty fields: no field the model
    extracted reaches the table. *)
Theorem run_fenced w rows0 :
  fs w !! FOLDER_PATH = None \/ fs w !! FOLDER_PATH = Some Dir ->
  fs w !! CSV_OUTPUT <> Some Dir -> csv_table (contents w CSV_OUTPUT) rows0 ->
  let m := with_folder (fs w) in
  let names := listdir m FOLDER_PATH in
  (forall f, In f names -> has_text m f = true -> fenced (prompt_of f)) ->
  exists w', run OPENROUTER_API_KEY w = (w', inr ()) /\
    csv_table (contents w' CSV_OUTPUT)
      (rows0 ++ map (fun f => [f; ""; ""; ""; ""; ""; ""]) (List.filter (has_text m) names)).
Proof.
  intros Hfold Hdir Ht m names HD.
  apply (run_completion w rows0 (fun _ => [])); [done..|].
  intros f Hin Hf. apply completion_fenced, HD; done.
Qed.

End EndToEnd.

(** ** Witness: the scenario's folder against an endpoint that answers
    every request with the encoded receipt of [Wire] *)
Import Orchestrator.Scenario WireWitness.

Definition receipt_dict : dict := match receipt_json with PDict kvs => kvs | _ => [] end.

Definition e2e_world : world := world_with ["receipt1.jpg"; "blank.png"].

Lemma run_conforming_witness :
  let m := with_folder (fs e2e_world) in
  let names := listdir m FOLDER_PATH in
  exists w', @run sc_listing sc_ocr (server_http content_text) (json_decoder (fun r => r))
               KEY e2e_world = (w', inr ()) /\
    csv_table (contents w' CSV_OUTPUT)
      ([] ++ map (fun f => expected_row receipt_dict f)
                 (List.filter (@has_text sc_ocr m) names)).
Proof.
  apply (@run_conforming sc_listing sc_ocr (server_http content_text) (fun r => r) KEY
           e2e_world [] (fun _ => receipt_dict)).
  - right. vm_compute. reflexivity.
  - vm_compute. congruence.
  - left. by split.
  - intros f _ _. exists dumps_defaults, dumps_defaults, (body_of content_text),
      (reply content_text), content_text.
    split_and!; first [reflexivity | apply seps_ok_defaults | json_wf_solve | vm_compute; reflexivity].
Defined.

Lemma run_fenced_witness :
  let m := with_folder (fs e2e_world) in
  let names := listdir m FOLDER_PATH in
  exists w', @run sc_listing sc_ocr (server_http fenced_text) (json_decoder (fun r => r))
               KEY e2e_world = (w', inr ()) /\
    csv_table (contents w' CSV_OUTPUT)
      ([] ++ map (fun f => [f; ""; ""; ""; ""; ""; ""]) (List.filter (@has_text sc_ocr m) names)).
Proof.
  apply (@run_fenced sc_listing sc_ocr (server_http fenced_text) (fun r => r) KEY e2e_world []).
  - right. vm_compute. reflexivity.
  - vm_compute. congruence.
  - left. by split.
  - intros f _ _. exists (body_of fenced_text), (reply fenced_text),
      ("``json" +:+ newline +:+ content_text +:+ newline +:+ "```").
    split_and!; vm_compute; reflexivity.
Defined.

(** The row written for the receipt; the blank image has no text. *)
Example e2e_rows :
  let m := with_folder (fs e2e_world) in
  List.filter (@has_text sc_ocr m) (listdir m FOLDER_PATH) = ["receipt1.jpg"] /\
  expected_row receipt_dict "receipt1.jpg" =
    ["receipt1.jpg"; "2024-01-05"; "12.5"; ""; ""; "Caf" +:+ String "233" ""; ""].
Proof. vm_compute. split; reflexivity. Qed.

End EndToEnd.
